(** * pymc3.distributions.continuous: parameter resolvers, guarded
      log-densities and the bounded rejection sampler

    A shallow embedding of [pymc3/distributions/continuous.py].

    Numbers.  A Python [float] is modelled as an extended real: a finite
    real number, one of the two infinities, or NaN.  Python's own scalar
    arithmetic raises where IEEE arithmetic returns an infinity or a NaN
    ([ZeroDivisionError]); numpy arrays and theano tensors follow IEEE.
    Both behaviours are written out below.

    What the model of numbers leaves out.  Finite arithmetic is exact:
    a result is the real value of the expression, where a double holds
    that value rounded.  The exponent range is absent: no operation
    overflows to an infinity or underflows to zero, and [**] never raises
    [OverflowError].  There is a single zero, no -0.0.  An [int] enters
    float arithmetic as the same real number, whatever its size.  A
    statement below that gives a float result therefore names the real
    value of the code's expression; statements that would hold only
    because nothing is rounded (a value recovered exactly after a round
    trip, a strict inequality between neighbouring doubles) are not
    made. *)

From Stdlib Require Import Reals Lra Lia ZArith List String Bool.
Import ListNotations.
Open Scope R_scope.
Set Warnings "-register-all".

(* ================================================================== *)
(** ** Extended reals standing for IEEE doubles *)

Module Float.

Inductive float : Type :=
| Fin (x : R)
| PInf
| NInf
| NaN.

Definition Rltb (x y : R) : bool := if Rlt_dec x y then true else false.
Definition Rleb (x y : R) : bool := if Rle_dec x y then true else false.
Definition Reqb (x y : R) : bool := if Req_dec_T x y then true else false.

(** [y] is a whole number *)
Definition integral (y : R) : bool := Reqb (IZR (Int_part y)) y.

Definition inf (positive : bool) : float := if positive then PInf else NInf.

Definition fneg (a : float) : float :=
  match a with
  | Fin x => Fin (- x)
  | PInf => NInf
  | NInf => PInf
  | NaN => NaN
  end.

Definition fabs (a : float) : float :=
  match a with
  | Fin x => Fin (Rabs x)
  | PInf | NInf => PInf
  | NaN => NaN
  end.

Definition fadd (a b : float) : float :=
  match a, b with
  | NaN, _ | _, NaN => NaN
  | Fin x, Fin y => Fin (x + y)
  | PInf, NInf | NInf, PInf => NaN
  | PInf, _ | _, PInf => PInf
  | NInf, _ | _, NInf => NInf
  end.

Definition fsub (a b : float) : float := fadd a (fneg b).

(** an infinity times the finite [y] *)
Definition inf_times (positive : bool) (y : R) : float :=
  if Reqb y 0 then NaN
  else if Rltb 0 y then inf positive else inf (negb positive).

Definition fmul (a b : float) : float :=
  match a, b with
  | NaN, _ | _, NaN => NaN
  | Fin x, Fin y => Fin (x * y)
  | PInf, Fin y | Fin y, PInf => inf_times true y
  | NInf, Fin y | Fin y, NInf => inf_times false y
  | PInf, PInf | NInf, NInf => PInf
  | PInf, NInf | NInf, PInf => NInf
  end.

(** IEEE division; the zero divisor is the positive zero *)
Definition fdiv (a b : float) : float :=
  match a, b with
  | NaN, _ | _, NaN => NaN
  | Fin x, Fin y =>
      if Reqb y 0 then
        if Reqb x 0 then NaN else inf (Rltb 0 x)
      else Fin (x / y)
  | Fin _, (PInf | NInf) => Fin 0
  | PInf, Fin y => inf (Rleb 0 y)
  | NInf, Fin y => inf (negb (Rleb 0 y))
  | (PInf | NInf), (PInf | NInf) => NaN
  end.

Definition flt (a b : float) : bool :=
  match a, b with
  | NaN, _ | _, NaN => false
  | Fin x, Fin y => Rltb x y
  | NInf, (Fin _ | PInf) => true
  | Fin _, PInf => true
  | _, _ => false
  end.

Definition fle (a b : float) : bool :=
  match a, b with
  | NaN, _ | _, NaN => false
  | Fin x, Fin y => Rleb x y
  | NInf, _ => true
  | _, PInf => true
  | _, _ => false
  end.

Definition fgt (a b : float) : bool := flt b a.
Definition fge (a b : float) : bool := fle b a.

(** non-zero: NaN and the infinities are non-zero *)
Definition nonzero (a : float) : bool :=
  match a with
  | Fin x => negb (Reqb x 0)
  | _ => true
  end.

Definition of_bool (b : bool) : float := if b then Fin 1 else Fin 0.

Definition fmax (a b : float) : float :=
  match a, b with
  | NaN, _ | _, NaN => NaN
  | _, _ => if fle a b then b else a
  end.

Definition flog (a : float) : float :=
  match a with
  | Fin x => if Rltb 0 x then Fin (ln x)
             else if Reqb x 0 then NInf else NaN
  | PInf => PInf
  | NInf | NaN => NaN
  end.

Definition flog1p (a : float) : float := flog (fadd (Fin 1) a).

Definition fsqrt (a : float) : float :=
  match a with
  | Fin x => if Rleb 0 x then Fin (sqrt x) else NaN
  | PInf => PInf
  | NInf | NaN => NaN
  end.

(** finite base, finite exponent, as C's [pow] *)
Definition pow_fin (x y : R) : float :=
  if integral y then
    if Reqb x 0 && Rltb y 0 then PInf
    else Fin (powerRZ x (Int_part y))
  else if Rltb 0 x then Fin (Rpower x y)
  else if Reqb x 0 then (if Rltb 0 y then Fin 0 else PInf)
  else NaN.

Definition odd_integral (y : R) : bool :=
  integral y && Z.odd (Int_part y).

Definition fpow (a b : float) : float :=
  match a, b with
  | _, Fin y =>
      if Reqb y 0 then Fin 1
      else match a with
           | Fin x => pow_fin x y
           | PInf => if Rltb 0 y then PInf else Fin 0
           | NInf => if Rltb 0 y
                     then (if odd_integral y then NInf else PInf)
                     else Fin 0
           | NaN => NaN
           end
  | Fin x, (PInf | NInf) =>
      if Reqb (Rabs x) 1 then Fin 1
      else if xorb (Rltb (Rabs x) 1)
                   (match b with PInf => true | _ => false end)
           then PInf else Fin 0
  | PInf, PInf | NInf, PInf => PInf
  | PInf, NInf | NInf, NInf => Fin 0
  | _, NaN => match a with
              | Fin x => if Reqb x 1 then Fin 1 else NaN
              | _ => NaN
              end
  | NaN, _ => NaN
  end.

(** [np.isinf] *)
Definition isinf (a : float) : bool :=
  match a with
  | PInf | NInf => true
  | _ => false
  end.

Definition fcos (a : float) : float :=
  match a with
  | Fin x => Fin (cos x)
  | _ => NaN
  end.

End Float.
Export Float.

(* ================================================================== *)
(** ** Exceptions and the result monad *)

Inductive exn : Type :=
| ValueError (msg : string)
| ZeroDivisionError
| TypeError (msg : string).

Inductive result (A : Type) : Type :=
| Ok (a : A)
| Raise (e : exn).
Arguments Ok {A} a.
Arguments Raise {A} e.

Definition bind {A B : Type} (m : result A) (k : A -> result B) : result B :=
  match m with
  | Ok a => k a
  | Raise e => Raise e
  end.

Notation "x <- m ;; k" := (bind m (fun x => k))
  (at level 61, m at next level, right associativity).
Notation "' p <- m ;; k" := (bind m (fun x => match x with p => k end))
  (at level 61, p pattern, m at next level, right associativity).

Definition is_ok {A : Type} (m : result A) : bool :=
  match m with Ok _ => true | Raise _ => false end.

(* ================================================================== *)
(** ** Python and numpy values

    [PyBool], [PyInt] and [PyFloat] are Python scalars; [NdArray] is a
    one-dimensional numpy array (every dtype is held as floats, a boolean
    array as zeros and ones). *)

Module Py.

Inductive pyval : Type :=
| PyBool (b : bool)
| PyInt (n : Z)
| PyFloat (f : float)
| NdArray (a : list float).

Definition broadcast_msg : string :=
  "operands could not be broadcast together".
Definition ambiguous_msg : string :=
  "The truth value of an array with more than one element is ambiguous. Use a.any() or a.all()".
Definition fractional_msg : string :=
  "negative number cannot be raised to a fractional power".

(** [bool] is a subclass of [int] *)
Definition as_int (v : pyval) : option Z :=
  match v with
  | PyBool b => Some (if b then 1%Z else 0%Z)
  | PyInt n => Some n
  | _ => None
  end.

(** the value of a scalar as a float; of an array, its element when it has
    exactly one.  An int is taken as the same real number: the rounding of
    ints above 2^53 and the [OverflowError] beyond the range of doubles are
    not modelled. *)
Definition to_float (v : pyval) : float :=
  match v with
  | PyBool b => of_bool b
  | PyInt n => Fin (IZR n)
  | PyFloat f => f
  | NdArray [x] => x
  | NdArray _ => NaN
  end.

(** numpy broadcasting of two one-dimensional arrays *)
Fixpoint zip_with (f : float -> float -> float) (xs ys : list float)
  : list float :=
  match xs, ys with
  | x :: xs', y :: ys' => f x y :: zip_with f xs' ys'
  | _, _ => []
  end.

Definition broadcast (f : float -> float -> float) (xs ys : list float)
  : result (list float) :=
  match xs, ys with
  | [x], _ => Ok (map (f x) ys)
  | _, [y] => Ok (map (fun x => f x y) xs)
  | _, _ =>
      if Nat.eqb (List.length xs) (List.length ys) then Ok (zip_with f xs ys)
      else Raise (ValueError broadcast_msg)
  end.

(** A binary operator: [int_op] on two ints, [py_op] on two Python scalars
    of which one is a float, [np_op] elementwise as soon as an array takes
    part. *)
Definition binop
    (int_op : Z -> Z -> result pyval)
    (py_op : float -> float -> result float)
    (np_op : float -> float -> float)
    (a b : pyval) : result pyval :=
  match a, b with
  | NdArray xs, NdArray ys =>
      r <- broadcast np_op xs ys ;; Ok (NdArray r)
  | NdArray xs, _ => Ok (NdArray (map (fun x => np_op x (to_float b)) xs))
  | _, NdArray ys => Ok (NdArray (map (np_op (to_float a)) ys))
  | _, _ =>
      match as_int a, as_int b with
      | Some m, Some n => int_op m n
      | _, _ => f <- py_op (to_float a) (to_float b) ;; Ok (PyFloat f)
      end
  end.

(** an operation that never raises; its result is exact (see the note on
    numbers at the head of the file) *)
Definition total (f : float -> float -> float) (x y : float) : result float :=
  Ok (f x y).

Definition add : pyval -> pyval -> result pyval :=
  binop (fun m n => Ok (PyInt (m + n))) (total fadd) fadd.

Definition sub : pyval -> pyval -> result pyval :=
  binop (fun m n => Ok (PyInt (m - n))) (total fsub) fsub.

Definition mul : pyval -> pyval -> result pyval :=
  binop (fun m n => Ok (PyInt (m * n))) (total fmul) fmul.

(** [float.__truediv__]: a zero divisor raises; the quotient is exact, so
    it is zero only when the dividend is *)
Definition float_truediv (x y : float) : result float :=
  if nonzero y then Ok (fdiv x y) else Raise ZeroDivisionError.

(** [/] under [from __future__ import division] *)
Definition truediv : pyval -> pyval -> result pyval :=
  binop (fun m n => f <- float_truediv (Fin (IZR m)) (Fin (IZR n)) ;;
                    Ok (PyFloat f))
        float_truediv fdiv.

(** [float.__pow__]: a zero base with a negative exponent raises; so does a
    negative base with a fractional exponent (Python 2; Python 3 returns a
    complex number, which the model does not have).  The power is the
    exact real one: the [OverflowError] that Python raises when the result
    leaves the range of doubles is not modelled. *)
Definition float_pow (x y : float) : result float :=
  if negb (nonzero x) && flt y (Fin 0) then Raise ZeroDivisionError
  else
    match x, y with
    | Fin u, Fin v =>
        if Rltb u 0 && negb (integral v)
        then Raise (ValueError fractional_msg)
        else Ok (fpow x y)
    | _, _ => Ok (fpow x y)
    end.

(** [int.__pow__]: an int for an exponent that is not negative, a float
    otherwise *)
Definition int_pow (m n : Z) : result pyval :=
  if (0 <=? n)%Z then Ok (PyInt (m ^ n))
  else f <- float_pow (Fin (IZR m)) (Fin (IZR n)) ;; Ok (PyFloat f).

Definition pow : pyval -> pyval -> result pyval :=
  binop int_pow float_pow fpow.

(** [a > b]: a [bool] for scalars, a boolean array otherwise *)
Definition gt (a b : pyval) : result pyval :=
  match a, b with
  | NdArray xs, NdArray ys =>
      r <- broadcast (fun x y => of_bool (fgt x y)) xs ys ;; Ok (NdArray r)
  | NdArray xs, _ =>
      Ok (NdArray (map (fun x => of_bool (fgt x (to_float b))) xs))
  | _, NdArray ys =>
      Ok (NdArray (map (fun y => of_bool (fgt (to_float a) y)) ys))
  | _, _ => Ok (PyBool (fgt (to_float a) (to_float b)))
  end.

(** [bool(v)] *)
Definition truth (v : pyval) : result bool :=
  match v with
  | PyBool b => Ok b
  | PyInt n => Ok (negb (n =? 0)%Z)
  | PyFloat f => Ok (nonzero f)
  | NdArray [] => Ok false
  | NdArray [x] => Ok (nonzero x)
  | NdArray _ => Raise (ValueError ambiguous_msg)
  end.

(** [a or b], with [b] already evaluated (it has no effect here) *)
Definition or_ (a b : pyval) : result pyval :=
  t <- truth a ;; Ok (if t then a else b).

(** [np.inf] and [np.pi] *)
Definition np_inf : pyval := PyFloat PInf.
Definition np_pi : pyval := PyFloat (Fin PI).

End Py.
Export Py(pyval, PyBool, PyInt, PyFloat, NdArray).

(* ================================================================== *)
(** ** Theano tensor expressions ([import theano.tensor as tt])

    A tensor is the expression graph that theano builds; nothing is
    evaluated when it is built.  [Gammaln], [Betaln], [Logpow], [StdCdf]
    and [I0] are the helpers that [continuous.py] imports from
    [dist_math]. *)

Module tt.

Inductive unop : Type :=
| Neg | Abs | Log | Log1p | Sqrt | Cos | ZerosLike | Gammaln | StdCdf | I0.

Inductive binop : Type :=
| Add | Sub | Mul | Div | Pow | Maximum
| Gt | Ge | Lt | Le
| Logpow | Betaln.

Inductive tensor : Type :=
| Const (v : pyval)
| Var (name : string)
| Un (op : unop) (a : tensor)
| Bin (op : binop) (a b : tensor)
| Switch (c a b : tensor)
| AllTrue (cs : list tensor).

Definition log : tensor -> tensor := Un Log.
Definition log1p : tensor -> tensor := Un Log1p.
Definition sqrt : tensor -> tensor := Un Sqrt.
Definition zeros_like : tensor -> tensor := Un ZerosLike.
Definition abs : tensor -> tensor := Un Abs.
Definition cos : tensor -> tensor := Un Cos.
Definition gt : tensor -> tensor -> tensor := Bin Gt.
Definition maximum : tensor -> tensor -> tensor := Bin Maximum.
Definition switch : tensor -> tensor -> tensor -> tensor := Switch.

(** the special functions of [dist_math], which the embedding leaves open *)
Record special : Type := {
  sp_gammaln : float -> float;
  sp_betaln : float -> float -> float;
  sp_logpow : float -> float -> float;
  sp_std_cdf : float -> float;
  sp_i0 : float -> float
}.

(** the element of a constant at position [pos], length-one arrays being
    broadcast *)
Definition elem (pos : nat) (v : pyval) : float :=
  match v with
  | NdArray [x] => x
  | NdArray xs => nth pos xs NaN
  | _ => Py.to_float v
  end.

Definition eval_un (S : special) (op : unop) (x : float) : float :=
  match op with
  | Neg => fneg x
  | Abs => fabs x
  | Log => flog x
  | Log1p => flog1p x
  | Sqrt => fsqrt x
  | Cos => fcos x
  | ZerosLike => Fin 0
  | Gammaln => sp_gammaln S x
  | StdCdf => sp_std_cdf S x
  | I0 => sp_i0 S x
  end.

Definition eval_bin (S : special) (op : binop) (x y : float) : float :=
  match op with
  | Add => fadd x y
  | Sub => fsub x y
  | Mul => fmul x y
  | Div => fdiv x y
  | Pow => fpow x y
  | Maximum => fmax x y
  | Gt => of_bool (fgt x y)
  | Ge => of_bool (fge x y)
  | Lt => of_bool (flt x y)
  | Le => of_bool (fle x y)
  | Logpow => sp_logpow S x y
  | Betaln => sp_betaln S x y
  end.

(** The value of a tensor at one element position, the variables being
    bound by [env]. *)
Fixpoint eval (S : special) (pos : nat) (env : string -> pyval) (t : tensor)
  : float :=
  match t with
  | Const v => elem pos v
  | Var x => elem pos (env x)
  | Un op a => eval_un S op (eval S pos env a)
  | Bin op a b => eval_bin S op (eval S pos env a) (eval S pos env b)
  | Switch c a b =>
      if nonzero (eval S pos env c) then eval S pos env a
      else eval S pos env b
  | AllTrue cs =>
      of_bool (forallb (fun c => nonzero (eval S pos env c)) cs)
  end.

End tt.
Export tt(tensor, Const, Var, Un, Bin, Switch, AllTrue).

Declare Scope tensor_scope.
Delimit Scope tensor_scope with tensor.
Bind Scope tensor_scope with tensor.
Notation "- a" := (Un tt.Neg a) : tensor_scope.
Notation "a + b" := (Bin tt.Add a b) : tensor_scope.
Notation "a - b" := (Bin tt.Sub a b) : tensor_scope.
Notation "a * b" := (Bin tt.Mul a b) : tensor_scope.
Notation "a / b" := (Bin tt.Div a b) : tensor_scope.
Notation "a ** b" := (Bin tt.Pow a b)
  (at level 30, right associativity) : tensor_scope.
Notation "a > b" := (Bin tt.Gt a b) : tensor_scope.
Notation "a >= b" := (Bin tt.Ge a b) : tensor_scope.
Notation "a < b" := (Bin tt.Lt a b) : tensor_scope.
Notation "a <= b" := (Bin tt.Le a b) : tensor_scope.

(* ================================================================== *)
(** ** The numeric interface the module is written against

    The functions of [continuous.py] apply [+ - * / **] to whatever they
    are given: Python scalars and numpy arrays (evaluated at once, possibly
    raising) or theano tensors (building an expression).  [lit] is a Python
    literal meeting a value of the type; [as_tensor_variable] is what theano
    does to a value that enters a tensor expression. *)

Class Numeric (T : Type) : Type := {
  lit : pyval -> T;
  nadd : T -> T -> result T;
  nsub : T -> T -> result T;
  nmul : T -> T -> result T;
  ndiv : T -> T -> result T;
  npow : T -> T -> result T;
  as_tensor_variable : T -> tensor
}.

#[export] Instance Numeric_pyval : Numeric pyval := {
  lit := fun v => v;
  nadd := Py.add;
  nsub := Py.sub;
  nmul := Py.mul;
  ndiv := Py.truediv;
  npow := Py.pow;
  as_tensor_variable := Const
}.

#[export] Instance Numeric_tensor : Numeric tensor := {
  lit := Const;
  nadd := fun a b => Ok (Bin tt.Add a b);
  nsub := fun a b => Ok (Bin tt.Sub a b);
  nmul := fun a b => Ok (Bin tt.Mul a b);
  ndiv := fun a b => Ok (Bin tt.Div a b);
  npow := fun a b => Ok (Bin tt.Pow a b);
  as_tensor_variable := fun t => t
}.

(** the literals [n] and [x.] as operands *)
Definition pyint {T : Type} `{Numeric T} (n : Z) : result T :=
  Ok (lit (PyInt n)).
Definition pyfloat {T : Type} `{Numeric T} (x : R) : result T :=
  Ok (lit (PyFloat (Fin x))).

(** the same inside a tensor expression *)
Definition ci (n : Z) : tensor := Const (PyInt n).
Definition cf (x : R) : tensor := Const (PyFloat (Fin x)).

(** an operator applied to two sub-expressions, evaluated left to right *)
Definition op2 {A B C : Type} (f : A -> B -> result C)
    (ra : result A) (rb : result B) : result C :=
  a <- ra ;; b <- rb ;; f a b.

Declare Scope py_scope.
Delimit Scope py_scope with py.
Notation "a + b" := (op2 nadd a b) : py_scope.
Notation "a - b" := (op2 nsub a b) : py_scope.
Notation "a * b" := (op2 nmul a b) : py_scope.
Notation "a / b" := (op2 ndiv a b) : py_scope.
Notation "a ** b" := (op2 npow a b)
  (at level 30, right associativity) : py_scope.

(* ================================================================== *)
(** ** [dist_math] *)

Module dist_math.

(** Modelled from the spec: [dist_math.bound], which [continuous.py]
    imports and whose source is not part of the module.  The spec (4.1):
    "if every constraint evaluates true, the output equals expr at that
    position; otherwise the output is a large-magnitude negative sentinel",
    built without evaluating anything. *)
Definition bound (logp : tensor) (conditions : list tensor) : tensor :=
  tt.switch (AllTrue conditions) logp (Const (PyFloat NInf)).

(** the other imports are function symbols *)
Definition logpow : tensor -> tensor -> tensor := Bin tt.Logpow.
Definition gammaln : tensor -> tensor := Un tt.Gammaln.
Definition betaln : tensor -> tensor -> tensor := Bin tt.Betaln.
Definition std_cdf : tensor -> tensor := Un tt.StdCdf.
Definition i0 : tensor -> tensor := Un tt.I0.

End dist_math.
Export dist_math.

(** the sentinel: log-probability of the impossible *)
Definition sentinel : float := NInf.

(* ================================================================== *)
(** ** [get_tau_sd] *)

Section get_tau_sd.

Context {T : Type} `{Numeric T}.
Definition ret : T -> result T := @Ok T.
Local Coercion ret : T >-> result.

(** [get_tau_sd(tau=None, sd=None)] *)
Definition get_tau_sd (tau sd : option T) : result (T * T) :=
  '(tau, sd) <-
    match tau with
    | None =>
        match sd with
        | None => sd <- pyfloat 1.0 ;; tau <- pyfloat 1.0 ;; Ok (tau, sd)
        | Some sd => tau <- (sd ** pyfloat (-2.0))%py ;; Ok (tau, sd)
        end
    | Some tau =>
        match sd with
        | Some _ => Raise (ValueError "Can't pass both tau and sd")
        | None => sd <- (tau ** pyfloat (-0.5))%py ;; Ok (tau, sd)
        end
    end ;;
  tau <- (pyfloat 1.0 * tau)%py ;;
  sd <- (pyfloat 1.0 * sd)%py ;;
  Ok (tau, sd).

End get_tau_sd.

(* ================================================================== *)
(** ** The distributions

    Every class is a module: a record [t] of the attributes the methods
    read, [__init__] where construction matters below, and [logp].  The
    call to the base class's [__init__] (shape, dtype, test value,
    transform) lies outside [continuous.py] and is left out.

    [logp] is an expression over tensors: the attributes enter it through
    [as_tensor_variable].  Arithmetic on attributes and literals alone,
    which Python carries out at once when the attributes are plain
    numbers, is kept in the expression where it cannot raise on numbers:
    sums, differences, products, and quotients by a non-zero literal.
    [ExGaussian.logp] is the exception: it divides one attribute by
    another, [sigma / nu], which raises for plain numbers when [nu] is
    zero, so there the arithmetic between attributes is carried out in the
    numeric type and [logp] returns a [result].  In every module [ret]
    lets an attribute stand as an operand of [+ - * / **] and [tv] lets it
    stand inside a tensor expression. *)

(** the interface of a distribution, [Continuous] *)
Class Distribution (D : Type) : Type := {
  logp : D -> tensor -> tensor
}.

Definition pi : tensor := Const Py.np_pi.

Module Uniform.
Section Def.
Context {T : Type} `{Numeric T}.
Definition tv : T -> tensor := as_tensor_variable.
Local Coercion tv : T >-> tensor.
Local Open Scope tensor_scope.

Record t : Type := { lower : T; upper : T }.

Definition logp (self : t) (value : tensor) : tensor :=
  let lower := lower self in
  let upper := upper self in
  bound (- tt.log (upper - lower))
        [value >= lower; value <= upper].
End Def.
Arguments t T : clear implicits.
End Uniform.

Module Flat.
Section Def.
Record t : Type := { median : Z }.

Definition __init__ : t := {| median := 0 |}.

Definition random (self : t) : result (list float) :=
  Raise (ValueError "Cannot sample from Flat distribution").

Definition logp (self : t) (value : tensor) : tensor :=
  tt.zeros_like value.
End Def.
End Flat.

Module Normal.
Section Def.
Context {T : Type} `{Numeric T}.
Definition ret : T -> result T := @Ok T.
Local Coercion ret : T >-> result.
Definition tv : T -> tensor := as_tensor_variable.
Local Coercion tv : T >-> tensor.

Record t : Type := {
  mean : T; median : T; mode : T; mu : T;
  tau : T; sd : T;
  variance : T
}.

(** [__init__(self, mu=0.0, tau=None, sd=None)] *)
Definition __init__ (mu : T) (tau sd : option T) : result t :=
  '(tau, sd) <- get_tau_sd tau sd ;;
  variance <- (pyfloat 1.0 / tau)%py ;;
  Ok {| mean := mu; median := mu; mode := mu; mu := mu;
        tau := tau; sd := sd; variance := variance |}.

Local Open Scope tensor_scope.

Definition logp (self : t) (value : tensor) : tensor :=
  let tau := tau self in
  let sd := sd self in
  let mu := mu self in
  bound ((- tau * (value - mu) ** ci 2 + tt.log (tau / pi / cf 2.0))
         / cf 2.0)
        [tau > ci 0; sd > ci 0].
End Def.
Arguments t T : clear implicits.
End Normal.

Module HalfNormal.
Section Def.
Context {T : Type} `{Numeric T}.
Definition tv : T -> tensor := as_tensor_variable.
Local Coercion tv : T >-> tensor.
Local Open Scope tensor_scope.

Record t : Type := { tau : T; sd : T }.

Definition logp (self : t) (value : tensor) : tensor :=
  let tau := tau self in
  let sd := sd self in
  bound (cf (-0.5) * tau * value ** ci 2
         + cf 0.5 * tt.log (tau * cf 2.0 / pi))
        [value >= ci 0; tau > ci 0; sd > ci 0].
End Def.
Arguments t T : clear implicits.
End HalfNormal.

Module Wald.
Section Def.
Context {T : Type} `{Numeric T}.
Definition ret : T -> result T := @Ok T.
Local Coercion ret : T >-> result.
Definition tv : T -> tensor := as_tensor_variable.
Local Coercion tv : T >-> tensor.

Record t : Type := {
  mu : T; lam : T; phi : T; alpha : T;
  mean : T; mode : tensor; variance : T
}.

(** [get_mu_lam_phi(self, mu, lam, phi)] *)
Definition get_mu_lam_phi (mu lam phi : option T) : result (T * T * T) :=
  let otherwise : result (T * T * T) :=
    Raise (ValueError
      "Wald distribution must specify either mu only, mu and lam, mu and phi, or lam and phi.") in
  match mu with
  | None =>
      match lam, phi with
      | Some lam, Some phi =>
          m <- (lam / phi)%py ;; Ok (m, lam, phi)
      | _, _ => otherwise
      end
  | Some mu =>
      match lam with
      | None =>
          match phi with
          | None =>
              l <- pyfloat 1.0 ;;
              p <- (pyfloat 1.0 / mu)%py ;; Ok (mu, l, p)
          | Some phi =>
              l <- (mu * phi)%py ;; Ok (mu, l, phi)
          end
      | Some lam =>
          match phi with
          | None => p <- (lam / mu)%py ;; Ok (mu, lam, p)
          | Some _ => otherwise
          end
      end
  end.

(** [__init__(self, mu=None, lam=None, phi=None, alpha=0.)] *)
Definition __init__ (mu lam phi : option T) (alpha : T) : result t :=
  '(mu, lam, phi) <- get_mu_lam_phi mu lam phi ;;
  mean <- (mu + alpha)%py ;;
  r <- (pyfloat 1.0 + (pyfloat 1.5 * mu / lam) ** pyint 2)%py ;;
  s <- (pyfloat 1.5 * mu / lam)%py ;;
  let mode := (mu * (tt.sqrt r - s) + alpha)%tensor in
  variance <- (mu ** pyint 3 / lam)%py ;;
  Ok {| mu := mu; lam := lam; phi := phi; alpha := alpha;
        mean := mean; mode := mode; variance := variance |}.

Local Open Scope tensor_scope.

Definition logp (self : t) (value : tensor) : tensor :=
  let mu := mu self in
  let lam := lam self in
  let alpha := alpha self in
  bound (logpow (lam / (cf 2.0 * pi)) (cf 0.5)
         - logpow (value - alpha) (cf 1.5)
         - (cf 0.5 * lam / (value - alpha)
            * ((value - alpha - mu) / mu) ** ci 2))
        [value > ci 0; value - alpha > ci 0;
         mu > ci 0; lam > ci 0; alpha >= ci 0].
End Def.
Arguments t T : clear implicits.
End Wald.

Module Beta.
Section Def.
Context {T : Type} `{Numeric T}.
Definition ret : T -> result T := @Ok T.
Local Coercion ret : T >-> result.
Definition tv : T -> tensor := as_tensor_variable.
Local Coercion tv : T >-> tensor.

Record t : Type := { alpha : T; beta : T; mean : T; variance : T }.

(** [get_alpha_beta(self, alpha=None, beta=None, mu=None, sd=None)] *)
Definition get_alpha_beta (alpha beta mu sd : option T) : result (T * T) :=
  match alpha, beta with
  | Some alpha, Some beta => Ok (alpha, beta)
  | _, _ =>
      match mu, sd with
      | Some mu, Some sd =>
          kappa <- (mu * (pyint 1 - mu) / sd ** pyint 2 - pyint 1)%py ;;
          alpha <- (mu * kappa)%py ;;
          beta <- ((pyint 1 - mu) * kappa)%py ;;
          Ok (alpha, beta)
      | _, _ =>
          Raise (ValueError
            "Incompatible parameterization. Either use alpha and beta, or mu and sd to specify distribution.")
      end
  end.

(** [__init__(self, alpha=None, beta=None, mu=None, sd=None)] *)
Definition __init__ (alpha beta mu sd : option T) : result t :=
  '(alpha, beta) <- get_alpha_beta alpha beta mu sd ;;
  mean <- (alpha / (alpha + beta))%py ;;
  variance <- (alpha * beta
               / ((alpha + beta) ** pyint 2 * (alpha + beta + pyint 1)))%py ;;
  Ok {| alpha := alpha; beta := beta; mean := mean; variance := variance |}.

Local Open Scope tensor_scope.

Definition logp (self : t) (value : tensor) : tensor :=
  let alpha := alpha self in
  let beta := beta self in
  bound (logpow value (alpha - ci 1) + logpow (ci 1 - value) (beta - ci 1)
         - betaln alpha beta)
        [value >= ci 0; value <= ci 1;
         alpha > ci 0; beta > ci 0].
End Def.
Arguments t T : clear implicits.
End Beta.

Module Exponential.
Section Def.
Context {T : Type} `{Numeric T}.
Definition tv : T -> tensor := as_tensor_variable.
Local Coercion tv : T >-> tensor.
Local Open Scope tensor_scope.

Record t : Type := { lam : T }.

Definition logp (self : t) (value : tensor) : tensor :=
  let lam := lam self in
  bound (tt.log lam - lam * value) [value > ci 0; lam > ci 0].
End Def.
Arguments t T : clear implicits.
End Exponential.

Module Laplace.
Section Def.
Context {T : Type} `{Numeric T}.
Definition tv : T -> tensor := as_tensor_variable.
Local Coercion tv : T >-> tensor.
Local Open Scope tensor_scope.

Record t : Type := { mu : T; b : T }.

Definition logp (self : t) (value : tensor) : tensor :=
  let mu := mu self in
  let b := b self in
  - tt.log (ci 2 * b) - tt.abs (value - mu) / b.
End Def.
Arguments t T : clear implicits.
End Laplace.

Module Lognormal.
Section Def.
Context {T : Type} `{Numeric T}.
Definition tv : T -> tensor := as_tensor_variable.
Local Coercion tv : T >-> tensor.
Local Open Scope tensor_scope.

Record t : Type := { mu : T; tau : T }.

Definition logp (self : t) (value : tensor) : tensor :=
  let mu := mu self in
  let tau := tau self in
  bound (cf (-0.5) * tau * (tt.log value - mu) ** ci 2
         + cf 0.5 * tt.log (tau / (cf 2.0 * pi))
         - tt.log value)
        [tau > ci 0].
End Def.
Arguments t T : clear implicits.
End Lognormal.

Module StudentT.
Section Def.
Context {T : Type} `{Numeric T}.
Definition tv : T -> tensor := as_tensor_variable.
Local Coercion tv : T >-> tensor.
Local Open Scope tensor_scope.

(** [nu] is stored through [tt.as_tensor_variable] *)
Record t : Type := { nu : tensor; mu : T; lam : T; sd : T }.

Definition logp (self : t) (value : tensor) : tensor :=
  let nu := nu self in
  let mu := mu self in
  let lam := lam self in
  let sd := sd self in
  bound (gammaln ((nu + cf 1.0) / cf 2.0)
         + cf 0.5 * tt.log (lam / (nu * pi))
         - gammaln (nu / cf 2.0)
         - (nu + cf 1.0) / cf 2.0
           * tt.log1p (lam * (value - mu) ** ci 2 / nu))
        [lam > ci 0; nu > ci 0; sd > ci 0].
End Def.
Arguments t T : clear implicits.
End StudentT.

Module Pareto.
Section Def.
Context {T : Type} `{Numeric T}.
Definition tv : T -> tensor := as_tensor_variable.
Local Coercion tv : T >-> tensor.
Local Open Scope tensor_scope.

Record t : Type := { alpha : T; m : T }.

Definition logp (self : t) (value : tensor) : tensor :=
  let alpha := alpha self in
  let m := m self in
  bound (tt.log alpha + logpow m alpha
         - logpow value (alpha + ci 1))
        [value >= m; alpha > ci 0; m > ci 0].
End Def.
Arguments t T : clear implicits.

(** [_random(self, alpha, m, size=None)]; [u] is what
    [np.random.uniform(size=size)] returned *)
Definition _random (alpha m u : pyval) : result pyval :=
  (Ok m * (pyfloat 1.0 - Ok u) ** (pyfloat (-1.0) / Ok alpha))%py.
End Pareto.

Module Cauchy.
Section Def.
Context {T : Type} `{Numeric T}.
Definition tv : T -> tensor := as_tensor_variable.
Local Coercion tv : T >-> tensor.
Local Open Scope tensor_scope.

Record t : Type := { alpha : T; beta : T }.

Definition logp (self : t) (value : tensor) : tensor :=
  let alpha := alpha self in
  let beta := beta self in
  bound (- tt.log pi - tt.log beta
         - tt.log1p (((value - alpha) / beta) ** ci 2))
        [beta > ci 0].
End Def.
Arguments t T : clear implicits.
End Cauchy.

Module HalfCauchy.
Section Def.
Context {T : Type} `{Numeric T}.
Definition tv : T -> tensor := as_tensor_variable.
Local Coercion tv : T >-> tensor.
Local Open Scope tensor_scope.

Record t : Type := { beta : T }.

Definition logp (self : t) (value : tensor) : tensor :=
  let beta := beta self in
  bound (tt.log (ci 2) - tt.log pi - tt.log beta
         - tt.log1p ((value / beta) ** ci 2))
        [value >= ci 0; beta > ci 0].
End Def.
Arguments t T : clear implicits.
End HalfCauchy.

Module Gamma.
Section Def.
Context {T : Type} `{Numeric T}.
Definition ret : T -> result T := @Ok T.
Local Coercion ret : T >-> result.
Definition tv : T -> tensor := as_tensor_variable.
Local Coercion tv : T >-> tensor.

Record t : Type := {
  alpha : T; beta : T;
  mean : T; mode : tensor; variance : T
}.

(** [get_alpha_beta(self, alpha=None, beta=None, mu=None, sd=None)] *)
Definition get_alpha_beta (alpha beta mu sd : option T) : result (T * T) :=
  match alpha, beta with
  | Some alpha, Some beta => Ok (alpha, beta)
  | _, _ =>
      match mu, sd with
      | Some mu, Some sd =>
          alpha <- (mu ** pyint 2 / sd ** pyint 2)%py ;;
          beta <- (mu / sd ** pyint 2)%py ;;
          Ok (alpha, beta)
      | _, _ =>
          Raise (ValueError
            "Incompatible parameterization. Either use alpha and beta, or mu and sd to specify distribution.")
      end
  end.

(** [__init__(self, alpha=None, beta=None, mu=None, sd=None)] *)
Definition __init__ (alpha beta mu sd : option T) : result t :=
  '(alpha, beta) <- get_alpha_beta alpha beta mu sd ;;
  mean <- (alpha / beta)%py ;;
  q <- ((alpha - pyint 1) / beta)%py ;;
  let mode := tt.maximum q (ci 0) in
  variance <- (alpha / beta ** pyint 2)%py ;;
  Ok {| alpha := alpha; beta := beta;
        mean := mean; mode := mode; variance := variance |}.

(** what [random] hands to [generate_samples]: the generator
    [stats.gamma.rvs], its shape argument and its [scale]; the draw
    itself is scipy's *)
Record sampler : Type := { rvs : string; a : T; scale : T }.

Definition random (self : t) : result sampler :=
  let alpha := alpha self in
  let beta := beta self in
  scale <- (pyfloat 1.0 / beta)%py ;;
  Ok {| rvs := "stats.gamma.rvs"; a := alpha; scale := scale |}.

Local Open Scope tensor_scope.

Definition logp (self : t) (value : tensor) : tensor :=
  let alpha := alpha self in
  let beta := beta self in
  bound (- gammaln alpha + logpow beta alpha - beta * value
         + logpow value (alpha - ci 1))
        [value >= ci 0; alpha > ci 0; beta > ci 0].
End Def.
Arguments t T : clear implicits.
Arguments sampler T : clear implicits.
End Gamma.

Module InverseGamma.
Section Def.
Context {T : Type} `{Numeric T}.
Definition tv : T -> tensor := as_tensor_variable.
Local Coercion tv : T >-> tensor.

Record t : Type := {
  alpha : T; beta : T;
  mean : T; mode : T; variance : tensor
}.

Local Open Scope tensor_scope.

Definition logp (self : t) (value : tensor) : tensor :=
  let alpha := alpha self in
  let beta := beta self in
  bound (logpow beta alpha - gammaln alpha - beta / value
         + logpow value (- alpha - ci 1))
        [value > ci 0; alpha > ci 0; beta > ci 0].
End Def.
Arguments t T : clear implicits.

(** [(alpha > 1) * beta / (alpha - 1.) or np.inf], on Python scalars and
    numpy arrays: [>] and [or] need the values themselves *)
Definition mean_expr (alpha beta : pyval) : result pyval :=
  c <- Py.gt alpha (PyInt 1) ;;
  m <- Py.mul c beta ;;
  d <- Py.sub alpha (PyFloat (Fin 1.0)) ;;
  q <- Py.truediv m d ;;
  Py.or_ q Py.np_inf.

(** [__init__(self, alpha, beta=1)] *)
Definition __init__ (alpha beta : pyval) : result (t pyval) :=
  mean <- mean_expr alpha beta ;;
  mode <- (Ok beta / (Ok alpha + pyfloat 1.0))%py ;;
  let c := tt.gt (Const alpha) (ci 2) in
  v <- (Ok beta ** pyint 2
        / (Ok alpha * (Ok alpha - pyfloat 1.0) ** pyint 2))%py ;;
  let variance := tt.switch c (Const v) (Const Py.np_inf) in
  Ok {| alpha := alpha; beta := beta;
        mean := mean; mode := mode; variance := variance |}.

End InverseGamma.

Module ChiSquared.
Section Def.
Context {T : Type} `{Numeric T}.
Definition ret : T -> result T := @Ok T.
Local Coercion ret : T >-> result.

(** [class ChiSquared(Gamma)]: the object is a [Gamma] with one more
    attribute, [nu] *)
Record t : Type := { nu : T; super : Gamma.t T }.

(** [__init__(self, nu)] *)
Definition __init__ (nu : T) : result t :=
  alpha <- (nu / pyfloat 2.0)%py ;;
  beta <- pyfloat 0.5 ;;
  g <- Gamma.__init__ (Some alpha) (Some beta) None None ;;
  Ok {| nu := nu; super := g |}.

(** inherited from [Gamma] *)
Definition logp (self : t) (value : tensor) : tensor :=
  Gamma.logp (super self) value.

Definition random (self : t) : result (Gamma.sampler T) :=
  Gamma.random (super self).
End Def.
Arguments t T : clear implicits.
End ChiSquared.

Module Weibull.
Section Def.
Context {T : Type} `{Numeric T}.
Definition tv : T -> tensor := as_tensor_variable.
Local Coercion tv : T >-> tensor.
Local Open Scope tensor_scope.

Record t : Type := { alpha : T; beta : T }.

Definition logp (self : t) (value : tensor) : tensor :=
  let alpha := alpha self in
  let beta := beta self in
  bound (tt.log alpha - tt.log beta
         + (alpha - ci 1) * tt.log (value / beta)
         - (value / beta) ** alpha)
        [value >= ci 0; alpha > ci 0; beta > ci 0].
End Def.
Arguments t T : clear implicits.
End Weibull.

Module ExGaussian.
Section Def.
Context {T : Type} `{Numeric T}.
Definition tv : T -> tensor := as_tensor_variable.
Local Coercion tv : T >-> tensor.
Local Open Scope tensor_scope.

Record t : Type := { mu : T; sigma : T; nu : T }.

(** The operands that are attributes only are computed in the numeric
    type, in the order Python meets them: [0.05 * sigma], then
    [0.5 * (sigma / nu)**2], then [sigma / nu] once more. *)
Definition logp (self : t) (value : tensor) : result tensor :=
  let mu := mu self in
  let sigma := sigma self in
  let nu := nu self in
  c <- (pyfloat 0.05 * Ok sigma)%py ;;
  h <- (pyfloat 0.5 * (Ok sigma / Ok nu) ** pyint 2)%py ;;
  q <- (Ok sigma / Ok nu)%py ;;
  let lp :=
    tt.switch (tt.gt nu c)
      (- tt.log nu + (mu - value) / nu + h
       + logpow (std_cdf ((value - mu) / sigma - q)) (cf 1.0))
      (- tt.log (sigma * tt.sqrt (ci 2 * pi))
       - cf 0.5 * ((value - mu) / sigma) ** ci 2) in
  Ok (bound lp [sigma > cf 0.0; nu > cf 0.0]).
End Def.
Arguments t T : clear implicits.
End ExGaussian.

Module VonMises.
Section Def.
Context {T : Type} `{Numeric T}.
Definition tv : T -> tensor := as_tensor_variable.
Local Coercion tv : T >-> tensor.
Local Open Scope tensor_scope.

Record t : Type := { mu : T; kappa : T }.

Definition logp (self : t) (value : tensor) : tensor :=
  let mu := mu self in
  let kappa := kappa self in
  bound (kappa * tt.cos (mu - value) - tt.log (ci 2 * pi * i0 kappa))
        [value >= - pi; value <= pi; kappa >= ci 0].
End Def.
Arguments t T : clear implicits.
End VonMises.

Module Bounded.

(** the [size] argument: [None], an int or a tuple of ints *)
Inductive size : Type :=
| SizeNone
| SizeInt (n : nat)
| SizeTuple (dims : list nat).

(** a numpy array: its shape and its elements in row-major order *)
Record ndarray : Type := { shape : list nat; data : list float }.

(** [np.zeros(size).flatten()]; [None] as a shape is the empty shape, so
    the flat array has one element *)
Definition zeros_flat (sz : size) : list float :=
  match sz with
  | SizeNone => [Fin 0]
  | SizeInt n => repeat (Fin 0) n
  | SizeTuple dims => repeat (Fin 0) (fold_right Nat.mul 1%nat dims)
  end.

(** [np.logical_and(x > lower, x <= upper)] at one element *)
Definition in_range (lower upper x : float) : bool :=
  fgt x lower && fle x upper.

(** [samples[i:j] = select[:]] for [j = i + len(select)] and [i] inside the
    array: the slice is clipped to the array, and numpy refuses to write
    [select] into a shorter slice *)
Definition assign_slice (samples : list float) (i : nat) (select : list float)
  : result (list float) :=
  if (i + List.length select <=? List.length samples)%nat
  then Ok (firstn i samples ++ select
           ++ skipn (i + List.length select) samples)
  else Raise (ValueError "could not broadcast input array").

Record t (D T : Type) : Type := { dist : D; lower : T; upper : T }.
Arguments dist {D T} _.
Arguments lower {D T} _.
Arguments upper {D T} _.

Section Def.
Context {D T : Type} `{Distribution D} `{Numeric T}.
Definition tv : T -> tensor := as_tensor_variable.
Local Coercion tv : T >-> tensor.
Local Open Scope tensor_scope.

Definition logp (self : t D T) (value : tensor) : tensor :=
  bound (@logp D _ (dist self) value)
        [value >= lower self; value <= upper self].
End Def.

Section Sampler.
Context {D T Point RNG : Type}.

(** [self.dist.random(point=point, size=n)]: the inner distribution's
    draw, which reads and advances the state of the random generator *)
Variable dist_random :
  D -> option Point -> nat -> RNG -> result (list float) * RNG.

(** The [while] loop.  [fuel] bounds the number of iterations the model
    follows; [None] says the loop was still running.  [n] is an int that
    the loop decreases by what it has just stored, so it cannot drop
    below zero. *)
Fixpoint loop (fuel : nat) (self : t D T) (lower upper : float)
    (point : option Point) (samples : list float) (i n : nat) (g : RNG)
  : option (result (list float) * RNG) :=
  if (i <? List.length samples)%nat then
    match fuel with
    | O => None
    | S fuel' =>
        match dist_random (dist self) point n g with
        | (Raise e, g') => Some (Raise e, g')
        | (Ok sample, g') =>
            let select := filter (in_range lower upper) sample in
            match assign_slice samples i select with
            | Raise e => Some (Raise e, g')
            | Ok samples' =>
                loop fuel' self lower upper point samples'
                     (i + List.length select) (n - List.length select) g'
            end
        end
    end
  else Some (Ok samples, g).

(** [_random(self, lower, upper, point=None, size=None)] *)
Definition _random (fuel : nat) (self : t D T) (lower upper : float)
    (point : option Point) (sz : size) (g : RNG)
  : option (result ndarray * RNG) :=
  let samples := zeros_flat sz in
  let i := 0%nat in
  let n := List.length samples in
  match loop fuel self lower upper point samples i n g with
  | None => None
  | Some (Raise e, g') => Some (Raise e, g')
  | Some (Ok samples, g') =>
      Some (Ok match sz with
               | SizeNone =>
                   {| shape := [List.length samples]; data := samples |}
               | SizeInt k => {| shape := [k]; data := samples |}
               | SizeTuple dims => {| shape := dims; data := samples |}
               end, g')
  end.
End Sampler.

(** The [transform] attribute: the string ['infer'], a transform object
    handed in, or one of the objects of [transforms] that [__init__]
    builds. *)
Inductive transform (O : Type) : Type :=
| infer
| object (o : O)
| interval (lower upper : float)
| lowerbound (lower : float)
| upperbound (upper : float).
Arguments infer {O}.
Arguments object {O} o.
Arguments interval {O} lower upper.
Arguments lowerbound {O} lower.
Arguments upperbound {O} upper.

(** what [__init__] itself assigns: the bounded object, its [transform]
    and, when it sets one, its [testval] (the attributes copied wholesale
    from the inner distribution's [__dict__] are not listed) *)
Record constructed (D O : Type) : Type := {
  self : t D pyval;
  transform_attr : transform O;
  testval : option float
}.
Arguments self {D O} _.
Arguments transform_attr {D O} _.
Arguments testval {D O} _.

(** [__init__(self, distribution, lower, upper, transform='infer')].
    [dist] is the inner distribution already built by
    [distribution.dist(...)] and [default] is [self.dist.default()]; the
    bounds and the default are read as floats. *)
Definition __init__ {D O : Type} (dist : D) (default : float)
    (lower upper : float) (transform : transform O) : constructed D O :=
  let st : Bounded.transform O * option float := (transform, None) in
  let st :=
    match transform with
    | infer =>
        let st :=
          if negb (isinf lower) && negb (isinf upper)
          then (interval lower upper,
                if fle default lower || fge default upper
                then Some (fmul (Fin 0.5) (fadd upper lower))
                else snd st)
          else st in
        let st :=
          if negb (isinf lower) && isinf upper
          then (lowerbound lower,
                if fle default lower
                then Some (fadd lower (Fin 1))
                else snd st)
          else st in
        let st :=
          if isinf lower && negb (isinf upper)
          then (upperbound upper,
                if fge default upper
                then Some (fsub upper (Fin 1))
                else snd st)
          else st in
        st
    | _ => st
    end in
  {| self := {| dist := dist; lower := PyFloat lower;
                upper := PyFloat upper |};
     transform_attr := fst st;
     testval := snd st |}.

End Bounded.

(** *** The distributions as instances of the interface *)

#[export] Instance Uniform_dist {T} `{Numeric T} : Distribution (Uniform.t T) :=
  {| logp := Uniform.logp |}.
#[export] Instance Flat_dist : Distribution Flat.t :=
  {| logp := Flat.logp |}.
#[export] Instance Normal_dist {T} `{Numeric T} : Distribution (Normal.t T) :=
  {| logp := Normal.logp |}.
#[export] Instance HalfNormal_dist {T} `{Numeric T}
  : Distribution (HalfNormal.t T) := {| logp := HalfNormal.logp |}.
#[export] Instance Wald_dist {T} `{Numeric T} : Distribution (Wald.t T) :=
  {| logp := Wald.logp |}.
#[export] Instance Beta_dist {T} `{Numeric T} : Distribution (Beta.t T) :=
  {| logp := Beta.logp |}.
#[export] Instance Exponential_dist {T} `{Numeric T}
  : Distribution (Exponential.t T) := {| logp := Exponential.logp |}.
#[export] Instance Laplace_dist {T} `{Numeric T} : Distribution (Laplace.t T) :=
  {| logp := Laplace.logp |}.
#[export] Instance Lognormal_dist {T} `{Numeric T}
  : Distribution (Lognormal.t T) := {| logp := Lognormal.logp |}.
#[export] Instance StudentT_dist {T} `{Numeric T}
  : Distribution (StudentT.t T) := {| logp := StudentT.logp |}.
#[export] Instance Pareto_dist {T} `{Numeric T} : Distribution (Pareto.t T) :=
  {| logp := Pareto.logp |}.
#[export] Instance Cauchy_dist {T} `{Numeric T} : Distribution (Cauchy.t T) :=
  {| logp := Cauchy.logp |}.
#[export] Instance HalfCauchy_dist {T} `{Numeric T}
  : Distribution (HalfCauchy.t T) := {| logp := HalfCauchy.logp |}.
#[export] Instance Gamma_dist {T} `{Numeric T} : Distribution (Gamma.t T) :=
  {| logp := Gamma.logp |}.
#[export] Instance InverseGamma_dist {T} `{Numeric T}
  : Distribution (InverseGamma.t T) := {| logp := InverseGamma.logp |}.
#[export] Instance ChiSquared_dist {T} `{Numeric T}
  : Distribution (ChiSquared.t T) := {| logp := ChiSquared.logp |}.
#[export] Instance Weibull_dist {T} `{Numeric T} : Distribution (Weibull.t T) :=
  {| logp := Weibull.logp |}.
#[export] Instance Bounded_dist {D T} `{Distribution D} `{Numeric T}
  : Distribution (Bounded.t D T) := {| logp := Bounded.logp |}.
#[export] Instance VonMises_dist {T} `{Numeric T}
  : Distribution (VonMises.t T) := {| logp := VonMises.logp |}.

(* ================================================================== *)
(** ** What the documentation promises, written down independently *)

(** a Python float holding the finite real [x] *)
Abbreviation pyf x := (PyFloat (Fin x)).

(** a positive Python number and its value: an [int] or a finite [float]
    above zero *)
Inductive positive_scalar : pyval -> R -> Prop :=
| positive_int (n : Z) : (0 < n)%Z -> positive_scalar (PyInt n) (IZR n)
| positive_float (x : R) : 0 < x -> positive_scalar (PyFloat (Fin x)) x.

Definition incompatible_msg : string :=
  "Incompatible parameterization. Either use alpha and beta, or mu and sd to specify distribution.".

Definition wald_msg : string :=
  "Wald distribution must specify either mu only, mu and lam, mu and phi, or lam and phi.".

(** Wald: the four accepted combinations, as the class documentation lists
    them; everything else is an error *)
Definition mu_lam_phi_spec {T : Type} `{Numeric T} (mu lam phi : option T)
  : result (T * T * T) :=
  match mu, lam, phi with
  | Some mu, None, None =>
      p <- ndiv (lit (PyFloat (Fin 1.0))) mu ;;
      Ok (mu, lit (PyFloat (Fin 1.0)), p)
  | Some mu, Some lam, None => p <- ndiv lam mu ;; Ok (mu, lam, p)
  | Some mu, None, Some phi => l <- nmul mu phi ;; Ok (mu, l, phi)
  | None, Some lam, Some phi => m <- ndiv lam phi ;; Ok (m, lam, phi)
  | _, _, _ => Raise (ValueError wald_msg)
  end.

(** Beta: kappa = mu (1 - mu) / sd^2 - 1, alpha = mu kappa,
    beta = (1 - mu) kappa *)
Definition Beta_from_mu_sd (mu sd : R) : R * R :=
  let kappa := mu * (1 - mu) / sd ^ 2 - 1 in
  (mu * kappa, (1 - mu) * kappa).

(** Gamma: alpha = mu^2 / sd^2, beta = mu / sd^2 *)
Definition Gamma_from_mu_sd (mu sd : R) : R * R :=
  (mu ^ 2 / sd ^ 2, mu / sd ^ 2).

(** InverseGamma: "mean = beta / (alpha - 1) if alpha > 1 else +inf", at
    one element, and applied elementwise *)
Definition InverseGamma_mean_at (alpha beta : float) : float :=
  if fgt alpha (Fin 1) then fdiv beta (fsub alpha (Fin 1)) else PInf.

Definition InverseGamma_mean_spec (alpha beta : pyval) : result pyval :=
  Py.binop (fun m n => Ok (PyFloat (InverseGamma_mean_at (Fin (IZR m))
                                                         (Fin (IZR n)))))
           (Py.total InverseGamma_mean_at)
           InverseGamma_mean_at
           alpha beta.

(** the guard of a log-density, when it has one: the guarded expression and
    the conditions *)
Definition guard_of (t : tensor) : option (tensor * list tensor) :=
  match t with
  | Switch (AllTrue cs) e (Const (PyFloat NInf)) => Some (e, cs)
  | _ => None
  end.

Definition is_bound (t : tensor) : bool :=
  match guard_of t with Some _ => true | None => false end.

Definition constraints_of (t : tensor) : list tensor :=
  match guard_of t with Some (_, cs) => cs | None => [] end.

(** a distribution whose [logp] is always a guarded expression *)
Class Guarded (D : Type) `{Distribution D} : Prop := {
  logp_is_bound : forall (self : D) (value : tensor),
    is_bound (logp self value) = true
}.

(** a stand-in for the inner distribution's sampler in examples: the
    random state is a tape of numbers and a draw of size [n] takes the next
    [n] of them *)
Definition tape_random (d : unit) (point : option unit) (n : nat)
    (g : list float) : result (list float) * list float :=
  (Ok (firstn n g), skipn n g).

(** the inner sampler answers every request for [n > 0] draws with [n]
    draws of which one at least is accepted *)
Definition productive {D Point RNG : Type}
    (dist_random : D -> option Point -> nat -> RNG
                   -> result (list float) * RNG)
    (lower upper : float) : Prop :=
  forall (d : D) (point : option Point) (n : nat) (g : RNG),
    (0 < n)%nat ->
    exists (sample : list float) (g' : RNG),
      dist_random d point n g = (Ok sample, g')
      /\ List.length sample = n
      /\ existsb (Bounded.in_range lower upper) sample = true.

(** a bounded distribution over the tape, on [0, +inf) *)
Definition half_line : Bounded.t unit pyval :=
  {| Bounded.dist := tt; Bounded.lower := pyf 0; Bounded.upper := Py.np_inf |}.

(** an interpretation of the special functions for examples that do not
    reach them *)
Definition no_special : tt.special :=
  {| tt.sp_gammaln := fun _ => NaN;
     tt.sp_betaln := fun _ _ => NaN;
     tt.sp_logpow := fun _ _ => NaN;
     tt.sp_std_cdf := fun _ => NaN;
     tt.sp_i0 := fun _ => NaN |}.

(** the expression under the guard of a log-density (the log-density itself
    when it has no guard) *)
Definition formula_of (t : tensor) : tensor :=
  match guard_of t with Some (e, _) => e | None => t end.

(** an inner sampler that draws the same number every time *)
Definition constant_random (x : float) (d : unit) (point : option unit)
    (n : nat) (g : unit) : result (list float) * unit :=
  (Ok (repeat x n), g).

(** [Flat.random] as the inner sampler of a bounded distribution *)
Definition flat_random (d : Flat.t) (point : option unit) (n : nat)
    (g : unit) : result (list float) * unit :=
  (Flat.random d, g).

(** the test value in force after [Bounded.__init__]: the one it set, or
    else the inner distribution's default *)
Definition testval_in_force {D O : Type} (c : Bounded.constructed D O)
    (default : float) : float :=
  match Bounded.testval c with Some v => v | None => default end.

(* ================================================================== *)
(** * Properties *)

#[local] Arguments Q2R _ : simpl never.

(** ** Deciding comparisons of reals *)

Lemma Rltb_true (x y : R) : x < y -> Rltb x y = true.
Proof. intros Hxy; unfold Rltb; destruct (Rlt_dec x y); [reflexivity | lra]. Qed.

Lemma Rltb_false (x y : R) : ~ x < y -> Rltb x y = false.
Proof. intros Hxy; unfold Rltb; destruct (Rlt_dec x y); [lra | reflexivity]. Qed.

Lemma Rleb_true (x y : R) : x <= y -> Rleb x y = true.
Proof. intros Hxy; unfold Rleb; destruct (Rle_dec x y); [reflexivity | lra]. Qed.

Lemma Rleb_false (x y : R) : ~ x <= y -> Rleb x y = false.
Proof. intros Hxy; unfold Rleb; destruct (Rle_dec x y); [lra | reflexivity]. Qed.

Lemma Reqb_true (x y : R) : x = y -> Reqb x y = true.
Proof.
  intros Hxy; unfold Reqb; destruct (Req_dec_T x y); [reflexivity | contradiction].
Qed.

Lemma Reqb_false (x y : R) : x <> y -> Reqb x y = false.
Proof.
  intros Hxy; unfold Reqb; destruct (Req_dec_T x y); [contradiction | reflexivity].
Qed.

Lemma Rltb_spec (x y : R) : Rltb x y = true <-> x < y.
Proof.
  unfold Rltb; destruct (Rlt_dec x y); split; intros; auto; discriminate.
Qed.

Lemma Rleb_spec (x y : R) : Rleb x y = true <-> x <= y.
Proof.
  unfold Rleb; destruct (Rle_dec x y); split; intros; auto; discriminate.
Qed.

(** settles an order or an equation between explicit reals *)
Ltac Rsolve := solve [ lra | ring | field; lra | unfold Rdiv; nra ].

(** rewrites every comparison of the goal that [Rsolve] settles *)
Ltac Rdecide :=
  repeat match goal with
    | |- context [Rltb ?a ?b] =>
        first [ rewrite (Rltb_true a b) by Rsolve
              | rewrite (Rltb_false a b) by Rsolve ]
    | |- context [Rleb ?a ?b] =>
        first [ rewrite (Rleb_true a b) by Rsolve
              | rewrite (Rleb_false a b) by Rsolve ]
    | |- context [Reqb ?a ?b] =>
        first [ rewrite (Reqb_true a b) by Rsolve
              | rewrite (Reqb_false a b) by Rsolve ]
    end.

Lemma Int_part_IZR (n : Z) : Int_part (IZR n) = n.
Proof. symmetry; apply Int_part_spec; lra. Qed.

Lemma integral_IZR (n : Z) : integral (IZR n) = true.
Proof. unfold integral; rewrite Int_part_IZR; apply Reqb_true; reflexivity. Qed.

Lemma integral_between (y : R) (n : Z) :
  IZR n < y < IZR n + 1 -> integral y = false.
Proof.
  intros Hy; unfold integral.
  assert (Hn : n = Int_part y) by (apply Int_part_spec; lra).
  rewrite <- Hn; apply Reqb_false; lra.
Qed.

(** the two powers [get_tau_sd] takes, on a positive base *)
Lemma pow_fin_minus_two (x : R) :
  0 < x -> pow_fin x (-2.0) = Fin (Rpower x (-2)).
Proof.
  intros Hx; unfold pow_fin.
  replace (-2.0) with (IZR (-2)) by lra.
  rewrite integral_IZR, Int_part_IZR.
  rewrite (Reqb_false x 0) by lra; cbn [andb].
  now rewrite powerRZ_Rpower.
Qed.

Lemma pow_fin_minus_half (x : R) :
  0 < x -> pow_fin x (-0.5) = Fin (Rpower x (-0.5)).
Proof.
  intros Hx; unfold pow_fin.
  rewrite (integral_between (-0.5) (-1)) by lra.
  now rewrite Rltb_true.
Qed.

Lemma Rpower_pos (x y : R) : 0 < Rpower x y.
Proof. unfold Rpower; apply exp_pos. Qed.

Lemma Rpower_half_two (x : R) :
  0 < x -> Rpower (Rpower x (-0.5)) (-2) = x.
Proof.
  intros Hx; rewrite Rpower_mult.
  replace (-0.5 * -2) with 1 by lra.
  now apply Rpower_1.
Qed.

Lemma Rpower_two_half (x : R) :
  0 < x -> Rpower (Rpower x (-2)) (-0.5) = x.
Proof.
  intros Hx; rewrite Rpower_mult.
  replace (-2 * -0.5) with 1 by lra.
  now apply Rpower_1.
Qed.

(** [x ** -2.] and [x ** -.5] on a positive Python float *)
Lemma float_pow_minus_two (x : R) :
  0 < x ->
  Py.float_pow (Fin x) (Fin (-2.0)) = Ok (Fin (Rpower x (-2))).
Proof.
  intros Hx; unfold Py.float_pow; cbn [nonzero negb andb Float.flt fpow].
  rewrite (Reqb_false x 0) by lra; cbn [negb andb].
  rewrite (Rltb_false x 0) by lra; cbn [andb].
  rewrite (Reqb_false (-2.0) 0) by lra.
  now rewrite pow_fin_minus_two.
Qed.

Lemma float_pow_minus_half (x : R) :
  0 < x ->
  Py.float_pow (Fin x) (Fin (-0.5)) = Ok (Fin (Rpower x (-0.5))).
Proof.
  intros Hx; unfold Py.float_pow; cbn [nonzero negb andb Float.flt fpow].
  rewrite (Reqb_false x 0) by lra; cbn [negb andb].
  rewrite (Rltb_false x 0) by lra; cbn [andb].
  rewrite (Reqb_false (-0.5) 0) by lra.
  now rewrite pow_fin_minus_half.
Qed.

(** ** [get_tau_sd] *)

Lemma positive_scalar_pos (v : pyval) (x : R) : positive_scalar v x -> 0 < x.
Proof. intros [n Hn | y Hy]; [now apply IZR_lt | assumption]. Qed.

Lemma pow_positive_scalar (v : pyval) (x e : R) (r : R) :
  positive_scalar v x ->
  Py.float_pow (Fin x) (Fin e) = Ok (Fin r) ->
  Py.pow v (PyFloat (Fin e)) = Ok (PyFloat (Fin r)).
Proof.
  intros [n Hn | y Hy] Hpow; unfold Py.pow, Py.binop; cbn; now rewrite Hpow.
Qed.

Lemma one_times_positive_scalar (v : pyval) (x : R) :
  positive_scalar v x ->
  Py.mul (PyFloat (Fin 1.0)) v = Ok (PyFloat (Fin x)).
Proof.
  intros [n Hn | y Hy]; cbn; unfold Py.total; cbn; do 2 f_equal; f_equal; lra.
Qed.

(** C8: [get_tau_sd] raises an error when both [tau] and [sd] are
    supplied, whatever they are, and returns the default pair (1., 1.)
    when neither is. *)
Theorem get_tau_sd_both_and_neither :
  (forall (T : Type) (N : Numeric T) (tau sd : T),
      get_tau_sd (Some tau) (Some sd)
      = Raise (ValueError "Can't pass both tau and sd"))
  /\ get_tau_sd (T := pyval) None None
     = Ok (PyFloat (Fin 1), PyFloat (Fin 1)).
Proof.
  split.
  - reflexivity.
  - cbn; unfold Py.total; cbn.
    replace (1.0 * 1.0) with 1 by lra.
    reflexivity.
Qed.

(** what the call computes from a positive number *)
Lemma get_tau_sd_of_tau (v : pyval) (x : R) :
  positive_scalar v x ->
  get_tau_sd (Some v) None = Ok (pyf x, pyf (Rpower x (-0.5))).
Proof.
  intros Hv; pose proof (positive_scalar_pos v x Hv) as Hx.
  unfold get_tau_sd.
  cbn [bind op2 ret pyfloat lit npow nmul Numeric_pyval].
  rewrite (pow_positive_scalar v x (-0.5) _ Hv (float_pow_minus_half x Hx)).
  cbn [bind].
  rewrite (one_times_positive_scalar v x Hv).
  cbn; unfold Py.total; cbn.
  do 3 f_equal; f_equal; lra.
Qed.

Lemma get_tau_sd_of_sd (v : pyval) (x : R) :
  positive_scalar v x ->
  get_tau_sd None (Some v) = Ok (pyf (Rpower x (-2)), pyf x).
Proof.
  intros Hv; pose proof (positive_scalar_pos v x Hv) as Hx.
  unfold get_tau_sd.
  cbn [bind op2 ret pyfloat lit npow nmul Numeric_pyval].
  rewrite (pow_positive_scalar v x (-2.0) _ Hv (float_pow_minus_two x Hx)).
  cbn [bind].
  rewrite (one_times_positive_scalar v x Hv).
  cbn; unfold Py.total; cbn.
  do 3 f_equal; f_equal; lra.
Qed.

(** C9: for a successful call with exactly one of [tau] and [sd]
    supplied, a positive number: both results are floats (also for an int
    argument), the supplied value is kept, and the other one is the value
    the relation of the pair gives for it: sd = tau ** -0.5 when [tau] is
    supplied, tau = sd ** -2 when [sd] is. *)
Theorem get_tau_sd_consistent (v t s : pyval) (x : R) :
  positive_scalar v x ->
  (get_tau_sd (Some v) None = Ok (t, s) ->
     exists tau sd : R,
       t = PyFloat (Fin tau) /\ s = PyFloat (Fin sd)
       /\ tau = x /\ sd = Rpower tau (-0.5))
  /\ (get_tau_sd None (Some v) = Ok (t, s) ->
        exists tau sd : R,
          t = PyFloat (Fin tau) /\ s = PyFloat (Fin sd)
          /\ sd = x /\ tau = Rpower sd (-2)).
Proof.
  intros Hv; split; intros E.
  - rewrite (get_tau_sd_of_tau v x Hv) in E.
    injection E as <- <-.
    exists x, (Rpower x (-0.5)); repeat split; reflexivity.
  - rewrite (get_tau_sd_of_sd v x Hv) in E.
    injection E as <- <-.
    exists (Rpower x (-2)), x; repeat split; reflexivity.
Qed.

(** the int 4 as [tau] *)
Lemma get_tau_sd_consistent_witness :
  positive_scalar (PyInt 4) 4
  /\ get_tau_sd (Some (PyInt 4)) None = Ok (pyf 4, pyf (Rpower 4 (-0.5)))
  /\ exists tau sd : R,
      pyf 4 = PyFloat (Fin tau) /\ pyf (Rpower 4 (-0.5)) = PyFloat (Fin sd)
      /\ tau = 4 /\ sd = Rpower tau (-0.5).
Proof.
  assert (H4 : positive_scalar (PyInt 4) 4) by (constructor; lia).
  assert (E : get_tau_sd (Some (PyInt 4)) None
              = Ok (pyf 4, pyf (Rpower 4 (-0.5))))
    by exact (get_tau_sd_of_tau (PyInt 4) 4 H4).
  split; [exact H4 | split; [exact E |]].
  exact (proj1 (get_tau_sd_consistent (PyInt 4) (pyf 4)
                  (pyf (Rpower 4 (-0.5))) 4 H4) E).
Defined.

(** ** Python arithmetic on finite floats *)

Lemma float_truediv_fin (x y : R) :
  y <> 0 -> Py.float_truediv (Fin x) (Fin y) = Ok (Fin (x / y)).
Proof.
  intros Hy; unfold Py.float_truediv; cbn.
  now rewrite (Reqb_false y 0) by assumption.
Qed.

Lemma float_pow_two (x : R) : Py.float_pow (Fin x) (Fin 2) = Ok (Fin (x ^ 2)).
Proof.
  unfold Py.float_pow; cbn [nonzero Float.flt].
  rewrite (Rltb_false 2 0) by lra; rewrite andb_false_r.
  change 2 with (IZR 2) at 1; rewrite integral_IZR; cbn [negb].
  rewrite andb_false_r.
  cbn [fpow]; rewrite (Reqb_false 2 0) by lra.
  unfold pow_fin; change 2 with (IZR 2) at 1 2 3.
  rewrite integral_IZR, Int_part_IZR.
  rewrite (Rltb_false (IZR 2) 0) by lra; rewrite andb_false_r.
  reflexivity.
Qed.

Lemma sqr_nonzero (x : R) : x <> 0 -> x ^ 2 <> 0.
Proof. intros Hx; apply pow_nonzero; assumption. Qed.

(** ** Wald: [get_mu_lam_phi] *)

(** C4: the resolver accepts exactly the four documented combinations and
    derives the triple as documented: [mu] alone gives lam = 1 (and
    phi = 1 / mu), [mu] and [lam] give phi = lam / mu, [mu] and [phi] give
    lam = mu * phi, [lam] and [phi] give mu = lam / phi; every other
    combination raises the ValueError; and inputs that describe the same
    distribution, such as (mu = 2, lam = 3) and (mu = 2, phi = 3/2),
    resolve to the same triple. *)
Theorem Wald_get_mu_lam_phi_resolves :
  (forall (T : Type) (N : Numeric T) (mu lam phi : option T),
      Wald.get_mu_lam_phi mu lam phi = mu_lam_phi_spec mu lam phi)
  /\ (forall mu lam phi : R, mu <> 0 -> phi <> 0 ->
        Wald.get_mu_lam_phi (Some (pyf mu)) None None
        = Ok (pyf mu, pyf 1, pyf (1 / mu))
        /\ Wald.get_mu_lam_phi (Some (pyf mu)) (Some (pyf lam)) None
           = Ok (pyf mu, pyf lam, pyf (lam / mu))
        /\ Wald.get_mu_lam_phi (Some (pyf mu)) None (Some (pyf phi))
           = Ok (pyf mu, pyf (mu * phi), pyf phi)
        /\ Wald.get_mu_lam_phi None (Some (pyf lam)) (Some (pyf phi))
           = Ok (pyf (lam / phi), pyf lam, pyf phi)
        /\ Wald.get_mu_lam_phi (Some (pyf mu)) None (Some (pyf (lam / mu)))
           = Wald.get_mu_lam_phi (Some (pyf mu)) (Some (pyf lam)) None)
  /\ Wald.get_mu_lam_phi (Some (pyf 2)) (Some (pyf 3)) None
     = Ok (pyf 2, pyf 3, pyf 1.5)
  /\ Wald.get_mu_lam_phi (Some (pyf 2)) None (Some (pyf 1.5))
     = Ok (pyf 2, pyf 3, pyf 1.5).
Proof.
  assert (Htable : forall mu lam phi : R, mu <> 0 -> phi <> 0 ->
        Wald.get_mu_lam_phi (Some (pyf mu)) None None
        = Ok (pyf mu, pyf 1, pyf (1 / mu))
        /\ Wald.get_mu_lam_phi (Some (pyf mu)) (Some (pyf lam)) None
           = Ok (pyf mu, pyf lam, pyf (lam / mu))
        /\ Wald.get_mu_lam_phi (Some (pyf mu)) None (Some (pyf phi))
           = Ok (pyf mu, pyf (mu * phi), pyf phi)
        /\ Wald.get_mu_lam_phi None (Some (pyf lam)) (Some (pyf phi))
           = Ok (pyf (lam / phi), pyf lam, pyf phi)).
  { intros mu lam phi Hmu Hphi; repeat split; cbn.
    - rewrite float_truediv_fin by assumption; cbn.
      do 2 f_equal; [do 3 f_equal | do 2 f_equal]; lra.
    - now rewrite float_truediv_fin by assumption.
    - now rewrite float_truediv_fin by assumption. }
  split; [| split; [| split]].
  - intros T N [mu|] [lam|] [phi|]; reflexivity.
  - intros mu lam phi Hmu Hphi.
    destruct (Htable mu lam phi Hmu Hphi) as (E1 & E2 & E3 & E4).
    repeat split; try assumption.
    rewrite E2; cbn; unfold Py.total; cbn.
    do 3 f_equal; do 2 f_equal; field; assumption.
  - destruct (Htable 2 3 1 ltac:(lra) ltac:(lra)) as (_ & E2 & _).
    rewrite E2; do 3 f_equal; f_equal; lra.
  - cbn; unfold Py.total; cbn.
    do 3 f_equal; do 2 f_equal; lra.
Qed.

(** mu = 4, lam = 6, phi = 2 *)
Lemma Wald_get_mu_lam_phi_resolves_witness :
  4 <> 0 /\ 2 <> 0
  /\ Wald.get_mu_lam_phi (Some (pyf 4)) (Some (pyf 6)) None
     = Ok (pyf 4, pyf 6, pyf (6 / 4))
  /\ Wald.get_mu_lam_phi None (Some (pyf 6)) (Some (pyf 2))
     = Ok (pyf (6 / 2), pyf 6, pyf 2).
Proof.
  assert (H4 : 4 <> 0) by lra.
  assert (H2 : 2 <> 0) by lra.
  destruct Wald_get_mu_lam_phi_resolves as (_ & Htable & _).
  destruct (Htable 4 6 2 H4 H2) as (_ & E2 & _ & E4 & _).
  repeat split; assumption.
Defined.

(** the combinations outside the four *)
Lemma Wald_get_mu_lam_phi_rejects (T : Type) (N : Numeric T) (mu lam phi : T) :
  Wald.get_mu_lam_phi (T := T) None None None = Raise (ValueError wald_msg)
  /\ Wald.get_mu_lam_phi None (Some lam) None = Raise (ValueError wald_msg)
  /\ Wald.get_mu_lam_phi None None (Some phi) = Raise (ValueError wald_msg)
  /\ Wald.get_mu_lam_phi (Some mu) (Some lam) (Some phi)
     = Raise (ValueError wald_msg).
Proof. repeat split. Qed.

(** ** Beta and Gamma: [get_alpha_beta] *)

(** C2: when neither {alpha, beta} nor {mu, sd} is complete,
    [get_alpha_beta] raises the ValueError and so does the constructor, as
    claimed.  When both groups are complete no error is raised: alpha and
    beta are returned as they are and mu and sd are never looked at, so
    the constructor builds the same object whatever is passed for them.
    [Beta(alpha=2, beta=3, mu=0.5, sd=0.25)] is constructed with alpha = 2
    and beta = 3, although mu and sd alone describe alpha = beta = 1.5.
    The sibling resolvers do raise when they are given too much:
    [get_tau_sd] for [tau] with [sd], [Wald.get_mu_lam_phi] for all
    three. *)
Theorem get_alpha_beta_conflict_unchecked :
  (forall (T : Type) (N : Numeric T) (alpha beta mu sd : option T),
      (alpha = None \/ beta = None) -> (mu = None \/ sd = None) ->
      Beta.get_alpha_beta alpha beta mu sd
      = Raise (ValueError incompatible_msg)
      /\ Gamma.get_alpha_beta alpha beta mu sd
         = Raise (ValueError incompatible_msg)
      /\ Beta.__init__ alpha beta mu sd = Raise (ValueError incompatible_msg)
      /\ Gamma.__init__ alpha beta mu sd
         = Raise (ValueError incompatible_msg))
  /\ (forall (T : Type) (N : Numeric T) (a b : T) (mu sd mu' sd' : option T),
         Beta.get_alpha_beta (Some a) (Some b) mu sd = Ok (a, b)
         /\ Gamma.get_alpha_beta (Some a) (Some b) mu sd = Ok (a, b)
         /\ Beta.__init__ (Some a) (Some b) mu sd
            = Beta.__init__ (Some a) (Some b) mu' sd'
         /\ Gamma.__init__ (Some a) (Some b) mu sd
            = Gamma.__init__ (Some a) (Some b) mu' sd')
  /\ (exists b : Beta.t pyval,
         Beta.__init__ (Some (pyf 2)) (Some (pyf 3))
                       (Some (pyf 0.5)) (Some (pyf 0.25)) = Ok b
         /\ Beta.alpha b = pyf 2 /\ Beta.beta b = pyf 3)
  /\ (exists g : Gamma.t pyval,
         Gamma.__init__ (Some (pyf 2)) (Some (pyf 3))
                        (Some (pyf 0.5)) (Some (pyf 0.25)) = Ok g
         /\ Gamma.alpha g = pyf 2 /\ Gamma.beta g = pyf 3)
  /\ Beta.get_alpha_beta None None (Some (pyf 0.5)) (Some (pyf 0.25))
     = Ok (pyf 1.5, pyf 1.5)
  /\ (forall (T : Type) (N : Numeric T) (tau sd : T),
         get_tau_sd (Some tau) (Some sd)
         = Raise (ValueError "Can't pass both tau and sd"))
  /\ (forall (T : Type) (N : Numeric T) (mu lam phi : T),
         Wald.get_mu_lam_phi (Some mu) (Some lam) (Some phi)
         = Raise (ValueError wald_msg)).
Proof.
  split; [| split; [| split; [| split; [| split; [| split]]]]].
  - intros T N alpha beta mu sd Hab Hms.
    destruct alpha, beta, mu, sd, Hab, Hms; try discriminate;
      repeat split; reflexivity.
  - intros T N a b mu sd mu' sd'.
    split; [reflexivity | split; [reflexivity | split; reflexivity]].
  - eexists; split.
    + cbn; unfold Py.total; cbn.
      rewrite float_truediv_fin by lra; cbn.
      rewrite float_pow_two; cbn.
      rewrite float_truediv_fin by lra.
      reflexivity.
    + split; reflexivity.
  - eexists; split.
    + cbn; unfold Py.total; cbn.
      rewrite !float_truediv_fin by lra; cbn.
      rewrite float_pow_two; cbn.
      rewrite float_truediv_fin by lra.
      reflexivity.
    + split; reflexivity.
  - cbn; unfold Py.total; cbn.
    rewrite float_pow_two; cbn.
    rewrite float_truediv_fin by lra; cbn.
    do 2 f_equal; do 2 f_equal; lra.
  - reflexivity.
  - reflexivity.
Qed.

(** C7: a complete {mu, sd} group, met when {alpha, beta} is not complete,
    is converted by the documented closed forms, for mu and sd in the
    legal ranges: for Beta (0 < mu < 1, sd > 0) kappa = mu (1 - mu) / sd^2
    - 1, alpha = mu kappa and beta = (1 - mu) kappa; for Gamma (mu > 0,
    sd > 0) alpha = mu^2 / sd^2 and beta = mu / sd^2. *)
Theorem get_alpha_beta_from_mu_sd (mu sd : R) (alpha beta : option pyval) :
  0 < sd -> (alpha = None \/ beta = None) ->
  (0 < mu < 1 ->
     Beta.get_alpha_beta alpha beta (Some (pyf mu)) (Some (pyf sd))
     = Ok (pyf (fst (Beta_from_mu_sd mu sd)),
           pyf (snd (Beta_from_mu_sd mu sd))))
  /\ (0 < mu ->
        Gamma.get_alpha_beta alpha beta (Some (pyf mu)) (Some (pyf sd))
        = Ok (pyf (fst (Gamma_from_mu_sd mu sd)),
              pyf (snd (Gamma_from_mu_sd mu sd)))).
Proof.
  intros Hsd Hab.
  assert (Hsd2 : sd ^ 2 <> 0) by (apply sqr_nonzero; lra).
  cbn in Hsd2.
  split; intros Hmu.
  - assert (E : Beta.get_alpha_beta None None (Some (pyf mu)) (Some (pyf sd))
                = Ok (pyf (fst (Beta_from_mu_sd mu sd)),
                      pyf (snd (Beta_from_mu_sd mu sd)))).
    { unfold Beta.get_alpha_beta, Beta_from_mu_sd; cbn.
      rewrite float_pow_two; cbn; unfold Py.total; cbn.
      rewrite float_truediv_fin by exact Hsd2.
      reflexivity. }
    destruct Hab as [-> | ->]; [| destruct alpha]; exact E.
  - assert (E : Gamma.get_alpha_beta None None (Some (pyf mu)) (Some (pyf sd))
                = Ok (pyf (fst (Gamma_from_mu_sd mu sd)),
                      pyf (snd (Gamma_from_mu_sd mu sd)))).
    { unfold Gamma.get_alpha_beta, Gamma_from_mu_sd; cbn.
      rewrite !float_pow_two; cbn.
      rewrite !float_truediv_fin by exact Hsd2.
      reflexivity. }
    destruct Hab as [-> | ->]; [| destruct alpha]; exact E.
Qed.

(** mu = 1/2, sd = 1/4: Beta gets kappa = 3, alpha = beta = 3/2; Gamma gets
    alpha = 4, beta = 8 *)
Lemma get_alpha_beta_from_mu_sd_witness :
  0 < / 4 /\ 0 < / 2 < 1
  /\ Beta.get_alpha_beta None None (Some (pyf (/ 2))) (Some (pyf (/ 4)))
     = Ok (pyf (3 / 2), pyf (3 / 2))
  /\ Gamma.get_alpha_beta None None (Some (pyf (/ 2))) (Some (pyf (/ 4)))
     = Ok (pyf 4, pyf 8).
Proof.
  assert (Hsd : 0 < / 4) by lra.
  assert (Hmu : 0 < / 2 < 1) by lra.
  destruct (get_alpha_beta_from_mu_sd (/ 2) (/ 4) None None Hsd
              (or_introl eq_refl)) as [HB HG].
  split; [exact Hsd | split; [exact Hmu | split]].
  - rewrite (HB Hmu); unfold Beta_from_mu_sd; cbn [fst snd].
    do 2 f_equal; do 2 f_equal; field.
  - rewrite (HG (proj1 Hmu)); unfold Gamma_from_mu_sd; cbn [fst snd].
    do 2 f_equal; do 2 f_equal; field.
Defined.

(** ** ChiSquared *)

Lemma truediv_positive_scalar (v : pyval) (x y : R) :
  positive_scalar v x -> y <> 0 ->
  Py.truediv v (pyf y) = Ok (pyf (x / y)).
Proof.
  intros [n Hn | z Hz] Hy; unfold Py.truediv, Py.binop;
    cbn [Py.as_int Py.to_float]; now rewrite float_truediv_fin.
Qed.

(** whatever the numbers are (Python scalars, arrays or tensors), a
    ChiSquared that was constructed holds the Gamma object that
    [Gamma(alpha=nu / 2., beta=0.5)] constructs, and its [logp] and [random]
    are that object's *)
Lemma ChiSquared_init_inv (T : Type) (N : Numeric T) (nu : T)
    (c : ChiSquared.t T) :
  ChiSquared.__init__ nu = Ok c ->
  exists alpha : T,
    ndiv nu (lit (PyFloat (Fin 2.0))) = Ok alpha
    /\ Gamma.__init__ (Some alpha) (Some (lit (PyFloat (Fin 0.5)))) None None
       = Ok (ChiSquared.super c)
    /\ ChiSquared.nu c = nu
    /\ (forall value : tensor,
           ChiSquared.logp c value = Gamma.logp (ChiSquared.super c) value)
    /\ ChiSquared.random c = Gamma.random (ChiSquared.super c).
Proof.
  unfold ChiSquared.__init__, op2, pyfloat, ChiSquared.ret; cbn [bind].
  destruct (ndiv nu (lit (PyFloat (Fin 2.0)))) as [alpha | e]; cbn [bind];
    [| discriminate].
  destruct (Gamma.__init__ (Some alpha) (Some (lit (PyFloat (Fin 0.5)))) None None)
    as [g | e] eqn:Hg; cbn [bind]; [| discriminate].
  intros [= <-]; exists alpha; repeat split; assumption.
Qed.

(** C3: for every nu > 0, [ChiSquared(nu)] is constructed, so is
    [Gamma(alpha = nu / 2, beta = 1 / 2)], and at every value the two
    log-densities are the same expression: the Gamma formula under the
    Gamma guard, with alpha = nu / 2 and beta = 1 / 2.  The sampler is the
    Gamma sampler with these parameters. *)
Theorem ChiSquared_is_Gamma (v : pyval) (x : R) :
  positive_scalar v x ->
  exists (c : ChiSquared.t pyval) (g : Gamma.t pyval),
    ChiSquared.__init__ v = Ok c
    /\ Gamma.__init__ (Some (pyf (x / 2))) (Some (pyf (/ 2))) None None = Ok g
    /\ Gamma.alpha g = pyf (x / 2) /\ Gamma.beta g = pyf (/ 2)
    /\ (forall value : tensor,
           ChiSquared.logp c value = Gamma.logp g value
           /\ ChiSquared.logp c value
              = let alpha := Const (pyf (x / 2)) in
                let beta := Const (pyf (/ 2)) in
                bound (- gammaln alpha + logpow beta alpha - beta * value
                       + logpow value (alpha - ci 1))%tensor
                      [(value >= ci 0)%tensor; (alpha > ci 0)%tensor;
                       (beta > ci 0)%tensor])
    /\ ChiSquared.random c = Gamma.random g
    /\ Gamma.random g
       = Ok {| Gamma.rvs := "stats.gamma.rvs";
               Gamma.a := pyf (x / 2); Gamma.scale := pyf (1.0 / / 2) |}.
Proof.
  intros Hv.
  assert (Hdiv : Py.truediv v (pyf 2.0) = Ok (pyf (x / 2))).
  { rewrite (truediv_positive_scalar v x 2.0 Hv) by lra.
    do 3 f_equal; lra. }
  assert (Hhalf : pyf 0.5 = pyf (/ 2)) by (do 2 f_equal; lra).
  assert (Hg : exists g,
             Gamma.__init__ (Some (pyf (x / 2))) (Some (pyf (/ 2))) None None
             = Ok g
             /\ Gamma.alpha g = pyf (x / 2) /\ Gamma.beta g = pyf (/ 2)).
  { assert (H2 : / 2 <> 0) by lra.
    assert (H4 : / 2 * (/ 2 * 1) <> 0) by lra.
    unfold Gamma.__init__; cbn.
    rewrite float_truediv_fin by exact H2; cbn; unfold Py.total; cbn.
    rewrite float_truediv_fin by exact H2; cbn.
    rewrite float_pow_two; cbn; rewrite float_truediv_fin by exact H4; cbn.
    eexists; repeat split. }
  destruct Hg as (g & Hg & Ha & Hb).
  exists {| ChiSquared.nu := v; ChiSquared.super := g |}, g.
  split; [| split; [exact Hg | split; [exact Ha | split; [exact Hb |]]]].
  - unfold ChiSquared.__init__, op2, pyfloat, ChiSquared.ret.
    cbn [bind lit ndiv Numeric_pyval].
    change (PyFloat (Fin 2.0)) with (pyf 2.0).
    rewrite Hdiv; cbn [bind]; rewrite Hhalf, Hg; reflexivity.
  - split; [| split].
    + intros value; split; [reflexivity |].
      unfold ChiSquared.logp, Gamma.logp; cbn [ChiSquared.super].
      rewrite Ha, Hb; reflexivity.
    + reflexivity.
    + unfold Gamma.random; rewrite Ha, Hb.
      cbn [bind op2 pyfloat lit ndiv Numeric_pyval Gamma.ret].
      change (Py.truediv (PyFloat (Fin 1.0)) (pyf (/ 2)))
        with (Py.truediv (pyf 1.0) (pyf (/ 2))).
      cbn; rewrite float_truediv_fin by lra; reflexivity.
Qed.

(** nu = 4: [ChiSquared(nu=4)] against [Gamma(alpha=2, beta=0.5)] *)
Lemma ChiSquared_is_Gamma_witness :
  positive_scalar (PyInt 4) 4
  /\ exists (c : ChiSquared.t pyval) (g : Gamma.t pyval),
      ChiSquared.__init__ (PyInt 4) = Ok c
      /\ Gamma.__init__ (Some (pyf (4 / 2))) (Some (pyf (/ 2))) None None = Ok g
      /\ ChiSquared.logp c (Var "value") = Gamma.logp g (Var "value").
Proof.
  assert (H4 : positive_scalar (PyInt 4) 4) by (constructor; lia).
  split; [exact H4 |].
  destruct (ChiSquared_is_Gamma (PyInt 4) 4 H4)
    as (c & g & Hc & Hg & _ & _ & Hlogp & _).
  exists c, g; repeat split; try assumption.
  apply Hlogp.
Defined.

(** ** InverseGamma: the mean set by [__init__] *)

(** C5 at the inputs where the code departs from it.  For alpha = 1 (and
    beta = 1, the default) the documented mean is +inf, but the expression
    divides 0 by 0.0 and the constructor raises ZeroDivisionError.  For the
    array alpha = [2., 3.] the documented mean is [1., 0.5], but [or] asks
    for the truth value of an array and the constructor raises ValueError.
    For alpha = 2 and beta = 0 the documented mean is 0, but [or] takes the
    zero for false and the mean is +inf. *)
Theorem InverseGamma_mean_defect :
  InverseGamma.mean_expr (PyInt 1) (PyInt 1) = Raise ZeroDivisionError
  /\ InverseGamma.__init__ (PyInt 1) (PyInt 1) = Raise ZeroDivisionError
  /\ InverseGamma_mean_spec (PyInt 1) (PyInt 1) = Ok (PyFloat PInf)
  /\ InverseGamma.mean_expr (NdArray [Fin 2; Fin 3]) (PyInt 1)
     = Raise (ValueError Py.ambiguous_msg)
  /\ InverseGamma_mean_spec (NdArray [Fin 2; Fin 3]) (PyInt 1)
     = Ok (NdArray [Fin 1; Fin (/ 2)])
  /\ InverseGamma.mean_expr (pyf 2) (pyf 0) = Ok (PyFloat PInf)
  /\ InverseGamma_mean_spec (pyf 2) (pyf 0) = Ok (pyf 0).
Proof.
  assert (E1 : InverseGamma.mean_expr (PyInt 1) (PyInt 1)
               = Raise ZeroDivisionError).
  { unfold InverseGamma.mean_expr; cbn.
    unfold Py.float_truediv; cbn.
    Rdecide; reflexivity. }
  assert (E2 : InverseGamma.__init__ (PyInt 1) (PyInt 1) = Raise ZeroDivisionError).
  { unfold InverseGamma.__init__; rewrite E1; reflexivity. }
  assert (E3 : InverseGamma_mean_spec (PyInt 1) (PyInt 1) = Ok (PyFloat PInf)).
  { cbn; unfold InverseGamma_mean_at; cbn; Rdecide; reflexivity. }
  assert (E4 : InverseGamma.mean_expr (NdArray [Fin 2; Fin 3]) (PyInt 1)
               = Raise (ValueError Py.ambiguous_msg)).
  { reflexivity. }
  assert (E5 : InverseGamma_mean_spec (NdArray [Fin 2; Fin 3]) (PyInt 1)
               = Ok (NdArray [Fin 1; Fin (/ 2)])).
  { cbn; unfold InverseGamma_mean_at; cbn; Rdecide; cbn; Rdecide.
    replace (1 / (2 + - (1))) with 1 by field.
    replace (1 / (3 + - (1))) with (/ 2) by field.
    reflexivity. }
  assert (E6 : InverseGamma.mean_expr (pyf 2) (pyf 0) = Ok (PyFloat PInf)).
  { unfold InverseGamma.mean_expr; cbn.
    unfold Py.total, Py.float_truediv; cbn.
    Rdecide; cbn; Rdecide; cbn; Rdecide; reflexivity. }
  assert (E7 : InverseGamma_mean_spec (pyf 2) (pyf 0) = Ok (pyf 0)).
  { cbn; unfold Py.total, InverseGamma_mean_at; cbn; Rdecide; cbn; Rdecide.
    do 3 f_equal; lra. }
  repeat split; assumption.
Qed.

(** away from these inputs, on Python floats, the expression is the
    documented mean *)
Lemma InverseGamma_mean_agrees (a b : R) :
  a <> 1 -> b <> 0 ->
  InverseGamma.mean_expr (pyf a) (pyf b)
  = InverseGamma_mean_spec (pyf a) (pyf b).
Proof.
  intros Ha Hb.
  unfold InverseGamma.mean_expr, InverseGamma_mean_spec; cbn.
  unfold Py.total, Py.float_truediv, InverseGamma_mean_at; cbn.
  Rdecide.
  destruct (Rlt_dec 1 a) as [H1 | H1].
  - rewrite (Rltb_true 1 a) by assumption; cbn; Rdecide; cbn.
    assert (Hq : 1 * b / (a + - (1.0)) <> 0).
    { unfold Rdiv; apply Rmult_integral_contrapositive_currified;
        [lra | apply Rinv_neq_0_compat; lra]. }
    rewrite (Reqb_false _ 0 Hq); cbn.
    replace 1.0 with 1 by lra.
    replace (1 * b / (a + - (1))) with (b / (a + - (1))) by (field; lra).
    reflexivity.
  - rewrite (Rltb_false 1 a) by assumption; cbn; Rdecide; cbn.
    rewrite Reqb_true; [reflexivity |].
    replace 1.0 with 1 by lra; field; lra.
Qed.

(** ** The guard around the log-densities *)

Lemma guard_of_inv (t e : tensor) (cs : list tensor) :
  guard_of t = Some (e, cs) -> t = bound e cs.
Proof.
  destruct t as [| | | | c a b |]; try discriminate.
  destruct c as [| | | | | cs']; try discriminate.
  destruct b as [v | | | | |]; try discriminate.
  destruct v as [| | f |]; try discriminate.
  destruct f; try discriminate.
  cbn; intros [= <- <-]; reflexivity.
Qed.

(** [bound] does what the design says of it: the expression where every
    condition holds, the sentinel elsewhere *)
Lemma eval_bound (S : tt.special) (pos : nat) (env : string -> pyval)
    (e : tensor) (cs : list tensor) :
  tt.eval S pos env (bound e cs)
  = if forallb (fun c => nonzero (tt.eval S pos env c)) cs
    then tt.eval S pos env e else sentinel.
Proof.
  cbn [bound tt.switch tt.eval].
  destruct (forallb _ cs); cbn; Rdecide; reflexivity.
Qed.

#[export] Instance Uniform_guarded {T} `{Numeric T} : Guarded (Uniform.t T).
Proof. constructor; reflexivity. Qed.
#[export] Instance Normal_guarded {T} `{Numeric T} : Guarded (Normal.t T).
Proof. constructor; reflexivity. Qed.
#[export] Instance HalfNormal_guarded {T} `{Numeric T}
  : Guarded (HalfNormal.t T).
Proof. constructor; reflexivity. Qed.
#[export] Instance Wald_guarded {T} `{Numeric T} : Guarded (Wald.t T).
Proof. constructor; reflexivity. Qed.
#[export] Instance Beta_guarded {T} `{Numeric T} : Guarded (Beta.t T).
Proof. constructor; reflexivity. Qed.
#[export] Instance Exponential_guarded {T} `{Numeric T}
  : Guarded (Exponential.t T).
Proof. constructor; reflexivity. Qed.
#[export] Instance Lognormal_guarded {T} `{Numeric T}
  : Guarded (Lognormal.t T).
Proof. constructor; reflexivity. Qed.
#[export] Instance StudentT_guarded {T} `{Numeric T} : Guarded (StudentT.t T).
Proof. constructor; reflexivity. Qed.
#[export] Instance Pareto_guarded {T} `{Numeric T} : Guarded (Pareto.t T).
Proof. constructor; reflexivity. Qed.
#[export] Instance Cauchy_guarded {T} `{Numeric T} : Guarded (Cauchy.t T).
Proof. constructor; reflexivity. Qed.
#[export] Instance HalfCauchy_guarded {T} `{Numeric T}
  : Guarded (HalfCauchy.t T).
Proof. constructor; reflexivity. Qed.
#[export] Instance Gamma_guarded {T} `{Numeric T} : Guarded (Gamma.t T).
Proof. constructor; reflexivity. Qed.
#[export] Instance InverseGamma_guarded {T} `{Numeric T}
  : Guarded (InverseGamma.t T).
Proof. constructor; reflexivity. Qed.
#[export] Instance ChiSquared_guarded {T} `{Numeric T}
  : Guarded (ChiSquared.t T).
Proof. constructor; reflexivity. Qed.
#[export] Instance Weibull_guarded {T} `{Numeric T} : Guarded (Weibull.t T).
Proof. constructor; reflexivity. Qed.
#[export] Instance Bounded_guarded {D T} `{Distribution D} `{Numeric T}
  : Guarded (Bounded.t D T).
Proof. constructor; reflexivity. Qed.
#[export] Instance VonMises_guarded {T} `{Numeric T}
  : Guarded (VonMises.t T).
Proof. constructor; reflexivity. Qed.

(** [ExGaussian.logp], whenever it returns, returns a guarded expression *)
Lemma ExGaussian_logp_guarded (T : Type) (N : Numeric T)
    (self : ExGaussian.t T) (value e : tensor) :
  ExGaussian.logp self value = Ok e -> is_bound e = true.
Proof.
  unfold ExGaussian.logp.
  repeat match goal with
         | |- context [bind ?m _] =>
             destruct m; cbn [bind]; [| discriminate]
         end.
  intros [= <-]; reflexivity.
Qed.

(** for every guarded distribution, a violated condition gives the
    sentinel, whatever the formula would evaluate to *)
Lemma guarded_sentinel (D : Type) (H : Distribution D) (G : Guarded D)
    (S : tt.special) (pos : nat) (env : string -> pyval)
    (self : D) (value c : tensor) :
  In c (constraints_of (logp self value)) ->
  nonzero (tt.eval S pos env c) = false ->
  tt.eval S pos env (logp self value) = sentinel.
Proof.
  intros Hin Hc.
  pose proof (logp_is_bound self value) as Hb.
  unfold is_bound, constraints_of in *.
  destruct (guard_of (logp self value)) as [[e cs] |] eqn:Hg; [| discriminate].
  rewrite (guard_of_inv _ _ _ Hg), eval_bound.
  replace (forallb _ cs) with false; [reflexivity |].
  symmetry; apply not_true_is_false; intros Hall.
  rewrite forallb_forall in Hall; rewrite (Hall c Hin) in Hc; discriminate.
Qed.

(** the conditions the design document quotes *)
Lemma constraints_quoted (T : Type) (N : Numeric T) (value : tensor) :
  (forall self : Normal.t T,
      constraints_of (logp self value)
      = [(as_tensor_variable (Normal.tau self) > ci 0)%tensor;
         (as_tensor_variable (Normal.sd self) > ci 0)%tensor])
  /\ (forall self : Beta.t T,
         constraints_of (logp self value)
         = [(value >= ci 0)%tensor; (value <= ci 1)%tensor;
            (as_tensor_variable (Beta.alpha self) > ci 0)%tensor;
            (as_tensor_variable (Beta.beta self) > ci 0)%tensor])
  /\ (forall self : Pareto.t T,
         constraints_of (logp self value)
         = [(value >= as_tensor_variable (Pareto.m self))%tensor;
            (as_tensor_variable (Pareto.alpha self) > ci 0)%tensor;
            (as_tensor_variable (Pareto.m self) > ci 0)%tensor]).
Proof. repeat split. Qed.

(** [Normal(mu=0, tau=-1, sd=1).logp(0)] is the sentinel *)
Example Normal_logp_negative_tau (S : tt.special) (pos : nat)
    (env : string -> pyval) :
  tt.eval S pos env
    (logp {| Normal.mean := pyf 0; Normal.median := pyf 0;
             Normal.mode := pyf 0; Normal.mu := pyf 0;
             Normal.tau := pyf (-1); Normal.sd := pyf 1;
             Normal.variance := pyf (-1) |}
          (Const (pyf 0)))
  = sentinel.
Proof.
  apply (guarded_sentinel _ _ _ S pos env _ _
           (Const (pyf (-1)) > ci 0)%tensor).
  - left; reflexivity.
  - cbn; Rdecide; cbn; Rdecide; reflexivity.
Qed.

(** [Flat.logp] carries no guard and has nothing to guard: it is zero *)
Lemma Flat_logp_zero (S : tt.special) (pos : nat) (env : string -> pyval)
    (self : Flat.t) (value : tensor) :
  is_bound (logp self value) = false
  /\ tt.eval S pos env (logp self value) = Fin 0.
Proof. split; reflexivity. Qed.

(** C1 at [Laplace]: whatever the parameters and the value, [Laplace.logp]
    returns its formula bare, not an expression built by [bound]; with the
    scale b = -1, outside b > 0, [Laplace(mu=0, b=-1).logp(0)] evaluates
    to NaN, which is not the sentinel. *)
Theorem Laplace_logp_unguarded :
  (forall (T : Type) (N : Numeric T) (self : Laplace.t T) (value : tensor),
      is_bound (logp self value) = false
      /\ forall e cs, logp self value <> bound e cs)
  /\ (forall (S : tt.special) (pos : nat) (env : string -> pyval),
        tt.eval S pos env
          (logp {| Laplace.mu := pyf 0; Laplace.b := pyf (-1) |}
                (Const (pyf 0)))
        = NaN)
  /\ NaN <> sentinel.
Proof.
  split; [| split].
  - intros T N self value; split; [reflexivity | intros e cs; discriminate].
  - intros S pos env; cbn; Rdecide; cbn; Rdecide; reflexivity.
  - discriminate.
Qed.

(** ** Bounded: the acceptance test and the rejection sampler *)

Lemma flt_irrefl (x : float) : Float.flt x x = false.
Proof. destruct x; cbn; try reflexivity; apply Rltb_false; lra. Qed.

Lemma flt_fle (x y : float) : Float.flt x y = true -> fle x y = true.
Proof.
  destruct x, y; cbn; try discriminate; try reflexivity.
  rewrite Rltb_spec, Rleb_spec; lra.
Qed.

Lemma in_range_spec (lower upper x : float) :
  Bounded.in_range lower upper x = true
  <-> Float.flt lower x = true /\ fle x upper = true.
Proof. unfold Bounded.in_range, fgt; apply andb_true_iff. Qed.

Lemma in_range_lower (lower upper : float) :
  Bounded.in_range lower upper lower = false.
Proof. unfold Bounded.in_range, fgt; now rewrite flt_irrefl. Qed.

Lemma assign_slice_inv (samples select samples' : list float) (i : nat) :
  Bounded.assign_slice samples i select = Ok samples' ->
  (i + List.length select <= List.length samples)%nat
  /\ samples' = firstn i samples ++ select
                ++ skipn (i + List.length select) samples.
Proof.
  unfold Bounded.assign_slice.
  destruct (Nat.leb_spec (i + List.length select) (List.length samples));
    [| discriminate].
  intros [= <-]; auto.
Qed.

Lemma assign_slice_length (samples select samples' : list float) (i : nat) :
  Bounded.assign_slice samples i select = Ok samples' ->
  List.length samples' = List.length samples.
Proof.
  intros H; apply assign_slice_inv in H as [Hle ->].
  rewrite !length_app, length_firstn, length_skipn; lia.
Qed.

Lemma assign_slice_prefix (samples select samples' : list float) (i : nat) :
  Bounded.assign_slice samples i select = Ok samples' ->
  firstn (i + List.length select) samples' = firstn i samples ++ select.
Proof.
  intros H; apply assign_slice_inv in H as [Hle ->].
  rewrite app_assoc, firstn_app.
  rewrite length_app, length_firstn.
  replace (i + List.length select
           - (Nat.min i (List.length samples) + List.length select))%nat
    with 0%nat by lia.
  rewrite firstn_O, app_nil_r.
  apply firstn_all2; rewrite length_app, length_firstn; lia.
Qed.

Section Sampler.

Context {D T Point RNG : Type}.
Variable dist_random :
  D -> option Point -> nat -> RNG -> result (list float) * RNG.

(** the loop invariant: the first [i] cells hold accepted draws *)
Lemma loop_in_range (lower upper : float) (self : Bounded.t D T)
    (point : option Point) (fuel : nat) :
  forall (samples : list float) (i n : nat) (g g' : RNG) (out : list float),
    Forall (fun x => Bounded.in_range lower upper x = true)
           (firstn i samples) ->
    Bounded.loop dist_random fuel self lower upper point samples i n g
    = Some (Ok out, g') ->
    Forall (fun x => Bounded.in_range lower upper x = true) out
    /\ List.length out = List.length samples.
Proof.
  induction fuel as [| fuel IH]; intros samples i n g g' out Hpre;
    cbn [Bounded.loop].
  - destruct (Nat.ltb_spec i (List.length samples)) as [Hlt | Hge];
      [discriminate |].
    intros [= <- <-]; split; [| reflexivity].
    now rewrite firstn_all2 in Hpre by lia.
  - destruct (Nat.ltb_spec i (List.length samples)) as [Hlt | Hge].
    + destruct (dist_random (Bounded.dist self) point n g)
        as [[sample | e] g1]; [| discriminate].
      destruct (Bounded.assign_slice samples i
                  (filter (Bounded.in_range lower upper) sample))
        as [samples' | e] eqn:Ha; [| discriminate].
      intros Hloop; apply IH in Hloop.
      * rewrite (assign_slice_length _ _ _ _ Ha) in Hloop; exact Hloop.
      * rewrite (assign_slice_prefix _ _ _ _ Ha).
        apply Forall_app; split; [exact Hpre |].
        apply Forall_forall; intros x Hx; apply filter_In in Hx; tauto.
    + intros [= <- <-]; split; [| reflexivity].
      now rewrite firstn_all2 in Hpre by lia.
Qed.

(** what a round has stored, the later rounds leave in place *)
Lemma loop_keeps_prefix (lower upper : float) (self : Bounded.t D T)
    (point : option Point) (fuel : nat) :
  forall (samples : list float) (i n : nat) (g g' : RNG) (out : list float),
    (i <= List.length samples)%nat ->
    Bounded.loop dist_random fuel self lower upper point samples i n g
    = Some (Ok out, g') ->
    firstn i out = firstn i samples.
Proof.
  induction fuel as [| fuel IH]; intros samples i n g g' out Hi;
    cbn [Bounded.loop].
  - destruct (Nat.ltb_spec i (List.length samples)) as [Hlt | Hge];
      [discriminate |].
    now intros [= <- <-].
  - destruct (Nat.ltb_spec i (List.length samples)) as [Hlt | Hge];
      [| now intros [= <- <-]].
    destruct (dist_random (Bounded.dist self) point n g)
      as [[sample | e] g1]; [| discriminate].
    destruct (Bounded.assign_slice samples i
                (filter (Bounded.in_range lower upper) sample))
      as [samples' | e] eqn:Ha; [| discriminate].
    intros Hloop.
    pose proof (assign_slice_inv _ _ _ _ Ha) as [Hfit _].
    apply IH in Hloop;
      [| rewrite (assign_slice_length _ _ _ _ Ha); exact Hfit].
    rewrite (assign_slice_prefix _ _ _ _ Ha) in Hloop.
    apply (f_equal (firstn i)) in Hloop.
    rewrite firstn_firstn in Hloop.
    replace (Nat.min i (i + List.length
                              (filter (Bounded.in_range lower upper) sample)))
      with i in Hloop by lia.
    rewrite Hloop, firstn_app, firstn_firstn, length_firstn.
    replace (i - Nat.min i (List.length samples))%nat with 0%nat by lia.
    rewrite firstn_O, app_nil_r; f_equal; lia.
Qed.

Lemma random_in_range (lower upper : float) (self : Bounded.t D T)
    (point : option Point) (fuel : nat) (sz : Bounded.size) (g g' : RNG)
    (out : Bounded.ndarray) :
  Bounded._random dist_random fuel self lower upper point sz g
  = Some (Ok out, g') ->
  Forall (fun x => Bounded.in_range lower upper x = true) (Bounded.data out)
  /\ List.length (Bounded.data out) = List.length (Bounded.zeros_flat sz).
Proof.
  unfold Bounded._random.
  destruct (Bounded.loop dist_random fuel self lower upper point
              (Bounded.zeros_flat sz) 0
              (List.length (Bounded.zeros_flat sz)) g)
    as [[[samples | e] g1] |] eqn:Hloop; try discriminate.
  intros [= <- <-].
  apply loop_in_range in Hloop; [| constructor].
  destruct sz; exact Hloop.
Qed.

Lemma filter_nonempty (f : float -> bool) (l : list float) :
  existsb f l = true -> (0 < List.length (filter f l))%nat.
Proof.
  induction l as [| x l IH]; cbn; [discriminate |].
  destruct (f x); cbn; [lia | exact IH].
Qed.

(** with such an inner sampler the loop ends within as many rounds as
    there are cells to fill *)
Lemma loop_terminates (lower upper : float) (self : Bounded.t D T)
    (point : option Point) :
  productive dist_random lower upper ->
  forall (fuel : nat) (samples : list float) (i n : nat) (g : RNG),
    (i <= List.length samples)%nat ->
    n = (List.length samples - i)%nat ->
    (n <= fuel)%nat ->
    exists (out : list float) (g' : RNG),
      Bounded.loop dist_random fuel self lower upper point samples i n g
      = Some (Ok out, g').
Proof.
  intros Hprod fuel; induction fuel as [| fuel IH];
    intros samples i n g Hi Hn Hfuel; cbn [Bounded.loop].
  - destruct (Nat.ltb_spec i (List.length samples)) as [Hlt | Hge]; [lia |].
    eauto.
  - destruct (Nat.ltb_spec i (List.length samples)) as [Hlt | Hge];
      [| eauto].
    destruct (Hprod (Bounded.dist self) point n g) as (sample & g1 & -> & Hlen & Hex);
      [lia |].
    pose proof (filter_length_le (Bounded.in_range lower upper) sample) as Hle.
    pose proof (filter_nonempty _ _ Hex) as Hpos.
    unfold Bounded.assign_slice at 1.
    destruct (Nat.leb_spec
                (i + List.length (filter (Bounded.in_range lower upper) sample))
                (List.length samples)) as [Hfit | Hfit]; [| lia].
    apply IH.
    + rewrite !length_app, length_firstn, length_skipn; lia.
    + rewrite !length_app, length_firstn, length_skipn; lia.
    + lia.
Qed.

End Sampler.

(** C6: whenever [_random] returns an array, for whatever the inner
    distribution drew, the array has the requested number of elements and
    every one of them passed the acceptance test, so it lies inside the
    bounds: lower <= x <= upper (indeed lower < x); with lower = 0 every
    element is >= 0. *)
Theorem Bounded_random_in_bounds (D T Point RNG : Type)
    (dist_random : D -> option Point -> nat -> RNG -> result (list float) * RNG)
    (fuel : nat) (self : Bounded.t D T) (lower upper : float)
    (point : option Point) (sz : Bounded.size) (g g' : RNG)
    (out : Bounded.ndarray) :
  Bounded._random dist_random fuel self lower upper point sz g
  = Some (Ok out, g') ->
  Forall (fun x => fle lower x = true /\ fle x upper = true)
         (Bounded.data out)
  /\ Forall (fun x => Bounded.in_range lower upper x = true)
            (Bounded.data out)
  /\ (lower = Fin 0 ->
      Forall (fun x => fge x (Fin 0) = true) (Bounded.data out))
  /\ List.length (Bounded.data out) = List.length (Bounded.zeros_flat sz).
Proof.
  intros Hrun.
  destruct (random_in_range dist_random _ _ _ _ _ _ _ _ _ Hrun) as [Hall Hlen].
  assert (Hin : Forall (fun x => fle lower x = true /\ fle x upper = true)
                       (Bounded.data out)).
  { eapply Forall_impl; [| exact Hall].
    intros x Hx; apply in_range_spec in Hx as [Hlo Hup].
    split; [now apply flt_fle | exact Hup]. }
  repeat split; try assumption.
  intros ->; eapply Forall_impl; [| exact Hin].
  intros x [Hlo _]; exact Hlo.
Qed.

(** runs the sampler on explicit draws *)
Ltac run_sampler :=
  repeat progress
    (cbn; unfold Bounded.in_range, fgt, Bounded.assign_slice; cbn; Rdecide).

(** two cells to fill from the tape -1, 0, 2, 3 with bounds (0, +inf]: the
    first batch, -1 and 0, is rejected whole; the second fills the array *)
Lemma Bounded_random_in_bounds_witness :
  Bounded._random tape_random 2 half_line (Fin 0) PInf None
                  (Bounded.SizeInt 2) [Fin (-1); Fin 0; Fin 2; Fin 3]
  = Some (Ok {| Bounded.shape := [2%nat];
                Bounded.data := [Fin 2; Fin 3] |}, [])
  /\ Forall (fun x => fle (Fin 0) x = true /\ fle x PInf = true)
            [Fin 2; Fin 3].
Proof.
  assert (Hrun :
    Bounded._random tape_random 2 half_line (Fin 0) PInf None
                    (Bounded.SizeInt 2) [Fin (-1); Fin 0; Fin 2; Fin 3]
    = Some (Ok {| Bounded.shape := [2%nat];
                  Bounded.data := [Fin 2; Fin 3] |}, [])).
  { unfold Bounded._random; run_sampler; reflexivity. }
  split; [exact Hrun |].
  exact (proj1 (Bounded_random_in_bounds _ _ _ _ _ _ _ _ _ _ _ _ _ _ Hrun)).
Defined.

(** the loop does end when the inner sampler keeps producing accepted
    draws *)
Lemma Bounded_random_returns (D T Point RNG : Type)
    (dist_random : D -> option Point -> nat -> RNG -> result (list float) * RNG)
    (self : Bounded.t D T) (lower upper : float)
    (point : option Point) (sz : Bounded.size) (g : RNG) :
  productive dist_random lower upper ->
  exists (out : Bounded.ndarray) (g' : RNG),
    Bounded._random dist_random (List.length (Bounded.zeros_flat sz))
                    self lower upper point sz g
    = Some (Ok out, g').
Proof.
  intros Hprod; unfold Bounded._random.
  destruct (loop_terminates dist_random lower upper self point Hprod
              (List.length (Bounded.zeros_flat sz)) (Bounded.zeros_flat sz)
              0 (List.length (Bounded.zeros_flat sz)) g)
    as (out & g' & ->); [lia | lia | lia |].
  eauto.
Qed.

(** C10: the sampler's acceptance test is lower < x <= upper, so a draw
    equal to [lower] is never kept and never returned, while the guard
    that [Bounded.logp] builds is value >= lower, value <= upper, which a
    value equal to a finite [lower] (with lower <= upper) passes: there
    [logp] is the inner distribution's log-density, not the sentinel. *)
Theorem Bounded_sampler_strict_at_lower :
  (forall lower upper x : float,
      Bounded.in_range lower upper x = true
      <-> Float.flt lower x = true /\ fle x upper = true)
  /\ (forall lower upper : float,
         Bounded.in_range lower upper lower = false)
  /\ (forall (D T Point RNG : Type)
        (dist_random : D -> option Point -> nat -> RNG
                       -> result (list float) * RNG)
        (fuel : nat) (self : Bounded.t D T) (lower upper : float)
        (point : option Point) (sz : Bounded.size) (g g' : RNG)
        (out : Bounded.ndarray),
         Bounded._random dist_random fuel self lower upper point sz g
         = Some (Ok out, g') ->
         ~ In lower (Bounded.data out))
  /\ (forall (D T : Type) (H : Distribution D) (N : Numeric T)
        (self : Bounded.t D T) (value : tensor),
         constraints_of (logp self value)
         = [(value >= as_tensor_variable (Bounded.lower self))%tensor;
            (value <= as_tensor_variable (Bounded.upper self))%tensor])
  /\ (forall (D : Type) (H : Distribution D) (d : D) (l u : R)
        (S : tt.special) (pos : nat) (env : string -> pyval),
         l <= u ->
         tt.eval S pos env
           (logp {| Bounded.dist := d; Bounded.lower := pyf l;
                    Bounded.upper := pyf u |} (Const (pyf l)))
         = tt.eval S pos env (logp d (Const (pyf l)))).
Proof.
  split; [exact in_range_spec |].
  split; [exact in_range_lower |].
  split; [| split].
  - intros D T Point RNG dist_random fuel self lower upper point sz g g' out
      Hrun Hin.
    destruct (random_in_range dist_random _ _ _ _ _ _ _ _ _ Hrun) as [Hall _].
    rewrite Forall_forall in Hall.
    specialize (Hall lower Hin); rewrite in_range_lower in Hall; discriminate.
  - reflexivity.
  - intros D H d l u S pos env Hlu.
    change (logp {| Bounded.dist := d; Bounded.lower := pyf l;
                    Bounded.upper := pyf u |} (Const (pyf l)))
      with (bound (logp d (Const (pyf l)))
                  [(Const (pyf l) >= Const (pyf l))%tensor;
                   (Const (pyf l) <= Const (pyf u))%tensor]).
    rewrite eval_bound; cbn.
    rewrite (Rleb_true l l) by lra; rewrite (Rleb_true l u) by lra; cbn.
    Rdecide; reflexivity.
Qed.

(** bounds (0, 1]: the draw 0 is refused; the tape 0, 1/2 fills one cell
    with 1/2; the guard lets the value 0 through *)
Lemma Bounded_sampler_strict_at_lower_witness :
  Bounded.in_range (Fin 0) (Fin 1) (Fin 0) = false
  /\ ~ In (Fin 0) [Fin (/ 2)]
  /\ 0 <= 1
  /\ tt.eval no_special 0 (fun _ => PyInt 0)
        (logp {| Bounded.dist := Flat.__init__; Bounded.lower := pyf 0;
                 Bounded.upper := pyf 1 |} (Const (pyf 0)))
     = tt.eval no_special 0 (fun _ => PyInt 0)
         (logp Flat.__init__ (Const (pyf 0))).
Proof.
  destruct Bounded_sampler_strict_at_lower as (_ & Hlow & Hout & _ & Hlogp).
  split; [apply Hlow | split].
  - assert (Hrun :
      Bounded._random tape_random 2 half_line (Fin 0) (Fin 1) None
                      (Bounded.SizeInt 1) [Fin 0; Fin (/ 2)]
      = Some (Ok {| Bounded.shape := [1%nat];
                    Bounded.data := [Fin (/ 2)] |}, [])).
    { unfold Bounded._random; run_sampler; reflexivity. }
    exact (Hout _ _ _ _ _ _ _ _ _ _ _ _ _ _ Hrun).
  - assert (H01 : 0 <= 1) by lra.
    split; [exact H01 | apply Hlogp; exact H01].
Defined.

(* ===================================================================== *)
(** * Further properties of the module *)

(** ** More on [get_tau_sd] and [Normal.__init__] *)

(** a Python number that is zero *)
Lemma pow_zero_negative (v : pyval) (e : R) :
  v = PyInt 0 \/ v = pyf 0 -> e < 0 ->
  Py.pow v (pyf e) = Raise ZeroDivisionError.
Proof.
  intros [-> | ->] He; unfold Py.pow, Py.binop; cbn [Py.as_int Py.to_float];
    unfold Py.float_pow; cbn [nonzero negb Float.flt];
    rewrite (Reqb_true _ 0) by reflexivity; cbn [negb andb];
    rewrite (Rltb_true e 0) by assumption; reflexivity.
Qed.

(** X2: a zero [tau] or a zero [sd], int or float, makes [get_tau_sd]
    raise ZeroDivisionError (zero to a negative power), and with it
    [Normal.__init__].  On a tensor nothing is raised: the call returns
    expressions, and where the tensor evaluates to zero the other
    parameter evaluates to +inf. *)
Theorem get_tau_sd_zero (v mu : pyval) :
  v = PyInt 0 \/ v = pyf 0 ->
  get_tau_sd (Some v) None = Raise ZeroDivisionError
  /\ get_tau_sd None (Some v) = Raise ZeroDivisionError
  /\ Normal.__init__ mu (Some v) None = Raise ZeroDivisionError
  /\ Normal.__init__ mu None (Some v) = Raise ZeroDivisionError
  /\ forall (t : tensor) (S : tt.special) (pos : nat)
            (env : string -> pyval),
      tt.eval S pos env t = Fin 0 ->
      (exists tau sd : tensor,
          get_tau_sd (Some t) None = Ok (tau, sd)
          /\ tt.eval S pos env tau = Fin 0
          /\ tt.eval S pos env sd = PInf)
      /\ (exists tau sd : tensor,
             get_tau_sd None (Some t) = Ok (tau, sd)
             /\ tt.eval S pos env tau = PInf
             /\ tt.eval S pos env sd = Fin 0).
Proof.
  intros Hv.
  assert (E1 : get_tau_sd (Some v) None = Raise ZeroDivisionError).
  { unfold get_tau_sd.
    cbn [bind op2 ret pyfloat lit npow nmul Numeric_pyval].
    rewrite (pow_zero_negative v (-0.5) Hv) by lra; reflexivity. }
  assert (E2 : get_tau_sd None (Some v) = Raise ZeroDivisionError).
  { unfold get_tau_sd.
    cbn [bind op2 ret pyfloat lit npow nmul Numeric_pyval].
    rewrite (pow_zero_negative v (-2.0) Hv) by lra; reflexivity. }
  split; [exact E1 | split; [exact E2 | split; [| split]]].
  - unfold Normal.__init__; rewrite E1; reflexivity.
  - unfold Normal.__init__; rewrite E2; reflexivity.
  - intros t S pos env Ht.
    assert (Hzero : Fin (1.0 * 0) = Fin 0) by (f_equal; lra).
    split; eexists; eexists; (split; [reflexivity |]);
      cbn [tt.eval tt.eval_bin tt.elem Py.to_float lit Numeric_tensor];
      rewrite Ht; cbn [fmul fpow]; unfold pow_fin.
    + split; [exact Hzero |].
      rewrite (Reqb_false (-0.5) 0) by lra.
      rewrite (integral_between (-0.5) (-1)) by lra.
      rewrite (Rltb_false 0 0) by lra.
      rewrite (Reqb_true 0 0) by reflexivity.
      rewrite (Rltb_false 0 (-0.5)) by lra.
      cbn [fmul]; unfold inf_times.
      rewrite (Reqb_false 1.0 0) by lra.
      rewrite (Rltb_true 0 1.0) by lra.
      reflexivity.
    + split; [| exact Hzero].
      rewrite (Reqb_false (-2.0) 0) by lra.
      replace (-2.0) with (IZR (-2)) by lra.
      rewrite integral_IZR.
      rewrite (Reqb_true 0 0) by reflexivity.
      rewrite (Rltb_true (IZR (-2)) 0) by lra.
      cbn [andb fmul]; unfold inf_times.
      rewrite (Reqb_false 1.0 0) by lra.
      rewrite (Rltb_true 0 1.0) by lra.
      reflexivity.
Qed.

Lemma get_tau_sd_zero_witness :
  (PyInt 0 = PyInt 0 \/ PyInt 0 = pyf 0)
  /\ get_tau_sd None (Some (PyInt 0)) = Raise ZeroDivisionError
  /\ Normal.__init__ (pyf 0) None (Some (PyInt 0)) = Raise ZeroDivisionError.
Proof.
  assert (H0 : PyInt 0 = PyInt 0 \/ PyInt 0 = pyf 0) by (left; reflexivity).
  split; [exact H0 |].
  destruct (get_tau_sd_zero (PyInt 0) (pyf 0) H0) as (_ & E2 & _ & E4 & _).
  split; assumption.
Defined.

Lemma Rpower_minus_two (x : R) : 0 < x -> Rpower x (-2) = / x ^ 2.
Proof.
  intros Hx; replace (-2) with (- INR 2) by (simpl; lra).
  rewrite Rpower_Ropp; f_equal; now apply Rpower_pow.
Qed.

(** ** More on Wald *)

(** X5: an accepted combination can still fail.  A zero [mu] given alone
    or with [lam], and a zero [phi] given with [lam], raise
    ZeroDivisionError in the resolver; [mu] with [phi] never raises there,
    but with phi = 0 it yields lam = 0 and the constructor raises
    ZeroDivisionError when it divides by [lam] for the mode. *)
Theorem Wald_zero_divisor (mu lam phi alpha : R) :
  Wald.get_mu_lam_phi (Some (pyf 0)) None None = Raise ZeroDivisionError
  /\ Wald.get_mu_lam_phi (Some (pyf 0)) (Some (pyf lam)) None
     = Raise ZeroDivisionError
  /\ Wald.get_mu_lam_phi None (Some (pyf lam)) (Some (pyf 0))
     = Raise ZeroDivisionError
  /\ Wald.get_mu_lam_phi (Some (pyf mu)) None (Some (pyf phi))
     = Ok (pyf mu, pyf (mu * phi), pyf phi)
  /\ Wald.__init__ (Some (pyf mu)) None (Some (pyf 0)) (pyf alpha)
     = Raise ZeroDivisionError.
Proof.
  assert (Hz : forall x : float, Py.float_truediv x (Fin 0)
                                 = Raise ZeroDivisionError).
  { intros x; unfold Py.float_truediv; cbn [nonzero].
    now rewrite (Reqb_true 0 0) by reflexivity. }
  assert (E4 : forall p : R,
             Wald.get_mu_lam_phi (Some (pyf mu)) None (Some (pyf p))
             = Ok (pyf mu, pyf (mu * p), pyf p)) by reflexivity.
  split; [| split; [| split; [| split]]].
  - cbn; now rewrite Hz.
  - cbn; now rewrite Hz.
  - cbn; now rewrite Hz.
  - apply E4.
  - unfold Wald.__init__; rewrite E4.
    cbn; unfold Py.total, Py.float_truediv; cbn.
    now rewrite (Reqb_true (mu * 0) 0) by ring.
Qed.

(** ** More on Gamma, Beta, ChiSquared and InverseGamma *)

Lemma sub_pf_int (a : R) (n : Z) :
  Py.sub (pyf a) (PyInt n) = Ok (pyf (a - IZR n)).
Proof. reflexivity. Qed.

Lemma sub_int_pf (n : Z) (a : R) :
  Py.sub (PyInt n) (pyf a) = Ok (pyf (IZR n - a)).
Proof. reflexivity. Qed.

Lemma add_pf (a b : R) : Py.add (pyf a) (pyf b) = Ok (pyf (a + b)).
Proof. reflexivity. Qed.

Lemma add_pf_int (a : R) (n : Z) :
  Py.add (pyf a) (PyInt n) = Ok (pyf (a + IZR n)).
Proof. reflexivity. Qed.

Lemma mul_pf (a b : R) : Py.mul (pyf a) (pyf b) = Ok (pyf (a * b)).
Proof. reflexivity. Qed.

Lemma truediv_pf (a b : R) :
  b <> 0 -> Py.truediv (pyf a) (pyf b) = Ok (pyf (a / b)).
Proof.
  intros Hb; unfold Py.truediv, Py.binop; cbn [Py.as_int Py.to_float].
  now rewrite float_truediv_fin.
Qed.

Lemma truediv_pf_zero (a b : R) :
  b = 0 -> Py.truediv (pyf a) (pyf b) = Raise ZeroDivisionError.
Proof.
  intros ->; unfold Py.truediv, Py.binop; cbn [Py.as_int Py.to_float].
  unfold Py.float_truediv; cbn [nonzero].
  now rewrite (Reqb_true 0 0) by reflexivity.
Qed.

Lemma pow_pf_two (a : R) : Py.pow (pyf a) (PyInt 2) = Ok (pyf (a ^ 2)).
Proof.
  unfold Py.pow, Py.binop; cbn [Py.as_int Py.to_float].
  now rewrite float_pow_two.
Qed.

(** the arithmetic of the module on Python floats, step by step *)
Ltac py_step :=
  repeat first
    [ rewrite sub_pf_int | rewrite sub_int_pf | rewrite add_pf | rewrite add_pf_int
    | rewrite mul_pf | rewrite pow_pf_two
    | rewrite truediv_pf by (assumption || lra)
    | progress cbn [bind op2 pyint pyfloat lit nadd nsub nmul ndiv npow
                    Numeric_pyval] ].

Lemma Beta_init_given (T : Type) (N : Numeric T)
    (alpha beta mu sd : option T) (a b : T) :
  Beta.get_alpha_beta alpha beta mu sd = Ok (a, b) ->
  Beta.__init__ alpha beta mu sd = Beta.__init__ (Some a) (Some b) None None.
Proof. unfold Beta.__init__; intros ->; reflexivity. Qed.

Lemma Gamma_init_floats (a b : R) :
  b <> 0 ->
  Gamma.__init__ (Some (pyf a)) (Some (pyf b)) None None
  = Ok {| Gamma.alpha := pyf a; Gamma.beta := pyf b;
          Gamma.mean := pyf (a / b);
          Gamma.mode := tt.maximum (Const (pyf ((a - 1) / b))) (ci 0);
          Gamma.variance := pyf (a / b ^ 2) |}.
Proof.
  intros Hb.
  assert (Hb2 : b ^ 2 <> 0) by (apply pow_nonzero; exact Hb).
  unfold Gamma.__init__, Gamma.get_alpha_beta, Gamma.ret, Gamma.tv.
  py_step.
  reflexivity.
Qed.


Lemma Beta_get_alpha_beta_mu_sd (mu sd : R) :
  sd <> 0 ->
  Beta.get_alpha_beta None None (Some (pyf mu)) (Some (pyf sd))
  = Ok (pyf (mu * (mu * (1 - mu) / sd ^ 2 - 1)),
        pyf ((1 - mu) * (mu * (1 - mu) / sd ^ 2 - 1))).
Proof.
  intros Hsd.
  assert (Hsd2 : sd ^ 2 <> 0) by (apply pow_nonzero; exact Hsd).
  unfold Beta.get_alpha_beta, Beta.ret.
  py_step.
  reflexivity.
Qed.

(** X8: with s^2 = m (1 - m), the largest standard deviation a variable on
    [0, 1] with mean m can have, [Beta(mu=m, sd=s)] resolves to
    alpha = beta = 0 and the constructor raises ZeroDivisionError when it
    divides by alpha + beta for the mean. *)
Theorem Beta_mu_sd_degenerate (mu sd : R) :
  0 < sd -> sd ^ 2 = mu * (1 - mu) ->
  Beta.get_alpha_beta None None (Some (pyf mu)) (Some (pyf sd))
  = Ok (pyf 0, pyf 0)
  /\ Beta.__init__ None None (Some (pyf mu)) (Some (pyf sd))
     = Raise ZeroDivisionError.
Proof.
  intros Hsd Hdeg.
  assert (Hsd0 : sd <> 0) by lra.
  assert (Hsd2 : sd ^ 2 <> 0) by (apply pow_nonzero; exact Hsd0).
  assert (Hk : mu * (1 - mu) / sd ^ 2 - 1 = 0).
  { rewrite <- Hdeg; field; exact Hsd0. }
  assert (E : Beta.get_alpha_beta None None (Some (pyf mu)) (Some (pyf sd))
              = Ok (pyf 0, pyf 0)).
  { rewrite (Beta_get_alpha_beta_mu_sd mu sd Hsd0), Hk.
    now rewrite !Rmult_0_r. }
  split; [exact E |].
  rewrite (Beta_init_given _ _ _ _ _ _ _ _ E).
  unfold Beta.__init__, Beta.get_alpha_beta, Beta.ret.
  py_step.
  rewrite truediv_pf_zero by lra.
  reflexivity.
Qed.

(** mean 1/2, standard deviation 1/2 *)
Lemma Beta_mu_sd_degenerate_witness :
  0 < / 2 /\ (/ 2) ^ 2 = / 2 * (1 - / 2)
  /\ Beta.__init__ None None (Some (pyf (/ 2))) (Some (pyf (/ 2)))
     = Raise ZeroDivisionError.
Proof.
  assert (Hsd : 0 < / 2) by lra.
  assert (Hd : (/ 2) ^ 2 = / 2 * (1 - / 2)) by lra.
  split; [exact Hsd | split; [exact Hd |]].
  exact (proj2 (Beta_mu_sd_degenerate (/ 2) (/ 2) Hsd Hd)).
Defined.

Lemma nonzero_of_bool (b : bool) : nonzero (of_bool b) = b.
Proof.
  destruct b; cbn;
    [rewrite (Reqb_false 1 0) by lra | rewrite (Reqb_true 0 0) by reflexivity];
    reflexivity.
Qed.


Lemma fmax_fin_zero (a : R) : fmax (Fin a) (Fin 0) = Fin (Rmax a 0).
Proof.
  unfold fmax, fle, Rleb, Rmax; destruct (Rle_dec a 0); reflexivity.
Qed.

(** X10: [ChiSquared(nu)] for a positive [nu] has the moments the class
    documents: mean nu and variance 2 nu; its mode evaluates to
    max(nu - 2, 0); and its sampler is scipy's gamma sampler with shape
    nu / 2 and scale 2. *)
Theorem ChiSquared_moments (v : pyval) (x : R) :
  positive_scalar v x ->
  exists c : ChiSquared.t pyval,
    ChiSquared.__init__ v = Ok c
    /\ ChiSquared.nu c = v
    /\ Gamma.mean (ChiSquared.super c) = pyf x
    /\ Gamma.variance (ChiSquared.super c) = pyf (2 * x)
    /\ (forall (S : tt.special) (pos : nat) (env : string -> pyval),
           tt.eval S pos env (Gamma.mode (ChiSquared.super c))
           = Fin (Rmax (x - 2) 0))
    /\ ChiSquared.random c
       = Ok {| Gamma.rvs := "stats.gamma.rvs"; Gamma.a := pyf (x / 2);
               Gamma.scale := pyf 2 |}.
Proof.
  intros Hv.
  assert (Hdiv : Py.truediv v (pyf 2.0) = Ok (pyf (x / 2.0)))
    by (apply truediv_positive_scalar; [exact Hv | lra]).
  assert (Hhalf : 0.5 <> 0) by lra.
  unfold ChiSquared.__init__, op2, pyfloat, ChiSquared.ret.
  cbn [bind lit ndiv Numeric_pyval].
  change (PyFloat (Fin 2.0)) with (pyf 2.0).
  rewrite Hdiv; cbn [bind].
  rewrite (Gamma_init_floats (x / 2.0) 0.5 Hhalf); cbn [bind].
  eexists; split; [reflexivity |].
  cbn [ChiSquared.nu ChiSquared.super Gamma.mean Gamma.variance Gamma.mode].
  split; [reflexivity |].
  split; [do 2 f_equal; lra |].
  split; [do 2 f_equal; lra |].
  split.
  - intros S pos env.
    cbn [tt.maximum tt.eval tt.eval_bin tt.elem Py.to_float ci].
    rewrite fmax_fin_zero; do 2 f_equal; lra.
  - unfold ChiSquared.random, Gamma.random, op2, pyfloat, Gamma.ret.
    cbn [ChiSquared.super Gamma.alpha Gamma.beta bind lit ndiv
         Numeric_pyval].
    rewrite truediv_pf by exact Hhalf; cbn [bind].
    replace (x / 2.0) with (x / 2) by lra.
    replace (1.0 / 0.5) with 2 by lra.
    reflexivity.
Qed.

(** nu = 4: mean 4, variance 8 *)
Lemma ChiSquared_moments_witness :
  positive_scalar (PyInt 4) 4
  /\ exists c : ChiSquared.t pyval,
      ChiSquared.__init__ (PyInt 4) = Ok c
      /\ Gamma.mean (ChiSquared.super c) = pyf 4
      /\ Gamma.variance (ChiSquared.super c) = pyf (2 * 4).
Proof.
  assert (H4 : positive_scalar (PyInt 4) 4) by (constructor; lia).
  split; [exact H4 |].
  destruct (ChiSquared_moments (PyInt 4) 4 H4) as (c & E & _ & Hm & Hv & _ & _).
  exists c; repeat split; assumption.
Defined.

(** X11: for alpha > 0 other than 1 and beta > 0, [InverseGamma(alpha,
    beta)] is constructed; its mean is beta / (alpha - 1) when alpha > 1
    and +inf otherwise, its mode is beta / (alpha + 1), and its variance
    evaluates to beta^2 / (alpha (alpha - 1)^2) when alpha > 2 and to +inf
    otherwise. *)
Theorem InverseGamma_init_moments (a b : R) :
  0 < a -> a <> 1 -> 0 < b ->
  exists g : InverseGamma.t pyval,
    InverseGamma.__init__ (pyf a) (pyf b) = Ok g
    /\ InverseGamma.alpha g = pyf a /\ InverseGamma.beta g = pyf b
    /\ InverseGamma.mean g
       = PyFloat (if Rltb 1 a then Fin (b / (a - 1)) else PInf)
    /\ InverseGamma.mode g = pyf (b / (a + 1))
    /\ forall (S : tt.special) (pos : nat) (env : string -> pyval),
        tt.eval S pos env (InverseGamma.variance g)
        = if Rltb 2 a then Fin (b ^ 2 / (a * (a - 1) ^ 2)) else PInf.
Proof.
  intros Ha Ha1 Hb.
  assert (Hb0 : b <> 0) by lra.
  assert (Hmean : InverseGamma.mean_expr (pyf a) (pyf b)
                  = Ok (PyFloat (if Rltb 1 a then Fin (b / (a - 1))
                                 else PInf))).
  { rewrite (InverseGamma_mean_agrees a b Ha1 Hb0).
    unfold InverseGamma_mean_spec, Py.binop, Py.total, InverseGamma_mean_at.
    cbn [Py.as_int Py.to_float bind fgt Float.flt fsub fadd fneg fdiv].
    destruct (Rltb 1 a) eqn:E; [| reflexivity].
    apply Rltb_spec in E.
    rewrite (Reqb_false (a + - (1)) 0) by lra; reflexivity. }
  assert (Hden : a * (a - 1.0) ^ 2 <> 0).
  { apply Rmult_integral_contrapositive_currified; [lra |].
    apply pow_nonzero; lra. }
  assert (Hsub : Py.sub (pyf a) (pyf 1.0) = Ok (pyf (a - 1.0)))
    by reflexivity.
  unfold InverseGamma.__init__; rewrite Hmean; cbn [bind].
  repeat first [ rewrite Hsub | progress py_step ].
  eexists; split; [reflexivity |].
  cbn [InverseGamma.alpha InverseGamma.beta InverseGamma.mean
       InverseGamma.mode InverseGamma.variance].
  replace 1.0 with 1 by lra.
  split; [reflexivity | split; [reflexivity | split; [reflexivity |]]].
  split; [reflexivity |].
  intros S pos env.
  cbn [tt.switch tt.gt tt.eval tt.eval_bin tt.elem Py.to_float ci Py.np_inf].
  rewrite nonzero_of_bool; cbn [fgt Float.flt].
  reflexivity.
Qed.

(** alpha = 3, beta = 2: mean 1, mode 1/2 *)
Lemma InverseGamma_init_moments_witness :
  0 < 3 /\ 3 <> 1 /\ 0 < 2
  /\ exists g : InverseGamma.t pyval,
      InverseGamma.__init__ (pyf 3) (pyf 2) = Ok g
      /\ InverseGamma.mode g = pyf (2 / (3 + 1)).
Proof.
  assert (Ha : 0 < 3) by lra.
  assert (Ha1 : 3 <> 1) by lra.
  assert (Hb : 0 < 2) by lra.
  split; [exact Ha | split; [exact Ha1 | split; [exact Hb |]]].
  destruct (InverseGamma_init_moments 3 2 Ha Ha1 Hb)
    as (g & E & _ & _ & _ & Hmode & _).
  exists g; split; assumption.
Defined.
(** ** The log-densities, evaluated *)

Lemma ln_quot (x y : R) : 0 < x -> 0 < y -> ln (x / y) = ln x - ln y.
Proof.
  intros Hx Hy; unfold Rdiv.
  rewrite ln_mult by (try apply Rinv_0_lt_compat; assumption).
  rewrite ln_Rinv by assumption; ring.
Qed.

Lemma ln_sqrt_half (x : R) : 0 < x -> ln (sqrt x) = ln x / 2.
Proof.
  intros Hx.
  assert (Hs : 0 < sqrt x) by (apply sqrt_lt_R0; exact Hx).
  assert (E : ln x = ln (sqrt x) + ln (sqrt x)).
  { rewrite <- ln_mult by assumption.
    now rewrite sqrt_sqrt by lra. }
  lra.
Qed.

Lemma ln_sqr (x : R) : 0 < x -> ln (x ^ 2) = 2 * ln x.
Proof.
  intros Hx; replace (x ^ 2) with (x * x) by ring.
  rewrite ln_mult by assumption; ring.
Qed.

Lemma fpow_two (x : R) : fpow (Fin x) (Fin 2) = Fin (x ^ 2).
Proof.
  cbn [fpow]; rewrite (Reqb_false 2 0) by lra.
  unfold pow_fin; change 2 with (IZR 2) at 1 2 3.
  rewrite integral_IZR, Int_part_IZR.
  rewrite (Rltb_false (IZR 2) 0) by lra; rewrite andb_false_r.
  reflexivity.
Qed.

Lemma flog_pos (x : R) : 0 < x -> flog (Fin x) = Fin (ln x).
Proof. intros Hx; cbn [flog]; now rewrite Rltb_true. Qed.

Lemma fdiv_fin (x y : R) : y <> 0 -> fdiv (Fin x) (Fin y) = Fin (x / y).
Proof. intros Hy; cbn [fdiv]; now rewrite Reqb_false. Qed.

(** the arithmetic of an evaluated expression on finite floats *)
Ltac eval_step :=
  repeat first
    [ rewrite fpow_two
    | rewrite flog_pos by (assumption || lra)
    | rewrite fdiv_fin by (assumption || lra)
    | progress unfold flog1p
    | progress cbn [tt.eval tt.eval_un tt.eval_bin tt.elem Py.to_float
                    tt.log tt.log1p tt.abs tt.sqrt tt.gt tt.switch
                    flog1p fadd fsub fneg fmul fabs
                    ci cf pi Py.np_pi as_tensor_variable Numeric_pyval ] ].

(** X12: [Uniform(l, u).logp] is the constant -ln(u - l) on the closed
    interval [l, u], both ends included, and the sentinel outside it; when
    l = u it is +inf at the single point of the interval. *)
Theorem Uniform_logp_value (l u : R) (value : tensor)
    (S : tt.special) (pos : nat) (env : string -> pyval) :
  tt.eval S pos env
    (logp {| Uniform.lower := pyf l; Uniform.upper := pyf u |} value)
  = if fle (Fin l) (tt.eval S pos env value)
       && fle (tt.eval S pos env value) (Fin u)
    then (if Rltb l u then Fin (- ln (u - l)) else PInf)
    else sentinel.
Proof.
  cbn [logp Uniform_dist]; unfold Uniform.logp, Uniform.tv;
    cbn [Uniform.lower Uniform.upper].
  rewrite eval_bound; cbn [forallb andb].
  set (V := tt.eval S pos env value).
  cbn [tt.eval tt.eval_un tt.eval_bin tt.elem Py.to_float
       as_tensor_variable Numeric_pyval tt.log]; fold V.
  unfold fge.
  destruct (fle (Fin l) V) eqn:E1; cbn [of_bool nonzero];
    [rewrite (Reqb_false 1 0) by lra | rewrite (Reqb_true 0 0) by reflexivity];
    cbn [negb andb]; [| reflexivity].
  destruct (fle V (Fin u)) eqn:E2; cbn [of_bool nonzero];
    [rewrite (Reqb_false 1 0) by lra | rewrite (Reqb_true 0 0) by reflexivity];
    cbn [negb andb]; [| reflexivity].
  assert (Hlu : l <= u).
  { destruct V as [v | | |]; cbn in E1, E2; try discriminate.
    apply Rleb_spec in E1; apply Rleb_spec in E2; lra. }
  cbn [fsub fneg fadd].
  destruct (Rltb l u) eqn:E.
  - apply Rltb_spec in E.
    rewrite flog_pos by lra; reflexivity.
  - assert (l = u).
    { destruct (Rle_lt_or_eq_dec l u Hlu) as [Hlt | Heq]; [| exact Heq].
      rewrite (Rltb_true l u Hlt) in E; discriminate. }
    subst u; cbn [flog].
    rewrite (Rltb_false 0 (l + - l)) by lra.
    rewrite (Reqb_true (l + - l) 0) by lra; reflexivity.
Qed.

Lemma Normal_logp_closed (n : Normal.t pyval) (m t s v : R) (value : tensor)
    (S : tt.special) (pos : nat) (env : string -> pyval) :
  Normal.mu n = pyf m -> Normal.tau n = pyf t -> Normal.sd n = pyf s ->
  0 < t -> 0 < s ->
  tt.eval S pos env value = Fin v ->
  tt.eval S pos env (Normal.logp n value)
  = Fin ((- t * (v - m) ^ 2 + ln (t / PI / 2)) / 2).
Proof.
  intros Hm Ht Hs Htpos Hspos Hv.
  pose proof PI_RGT_0 as Hpi.
  unfold Normal.logp, Normal.tv; rewrite Hm, Ht, Hs, eval_bound.
  cbn [forallb tt.eval tt.eval_bin tt.elem Py.to_float ci
       as_tensor_variable Numeric_pyval].
  rewrite !nonzero_of_bool; cbn [fgt Float.flt].
  rewrite !Rltb_true by assumption; cbn [andb].
  assert (Hq : 0 < t / PI / 2.0).
  { apply Rdiv_lt_0_compat; [apply Rdiv_lt_0_compat |]; lra. }
  rewrite Hv; eval_step.
  replace 2.0 with 2 by lra.
  reflexivity.
Qed.

Lemma Normal_init_of_sd (mu s : R) :
  0 < s ->
  exists n : Normal.t pyval,
    Normal.__init__ (pyf mu) None (Some (pyf s)) = Ok n
    /\ Normal.mu n = pyf mu /\ Normal.tau n = pyf (/ s ^ 2)
    /\ Normal.sd n = pyf s.
Proof.
  intros Hs.
  assert (Hp : positive_scalar (pyf s) s) by (constructor; exact Hs).
  assert (Hs2 : s ^ 2 <> 0) by (apply pow_nonzero; lra).
  unfold Normal.__init__.
  rewrite (get_tau_sd_of_sd (pyf s) s Hp), (Rpower_minus_two s Hs).
  cbn [bind op2 Normal.ret pyfloat lit ndiv Numeric_pyval].
  rewrite truediv_pf by (apply Rinv_neq_0_compat; exact Hs2).
  cbn [bind].
  eexists; repeat split.
Qed.

(** X13: the log-density of [Normal(mu, sd=s)], s > 0, at a finite value
    v is the textbook one:
    -(v - mu)^2 / (2 s^2) - ln s - ln sqrt(2 pi). *)
Theorem Normal_logp_density (mu s v : R) (n : Normal.t pyval)
    (value : tensor) (S : tt.special) (pos : nat) (env : string -> pyval) :
  0 < s ->
  Normal.__init__ (pyf mu) None (Some (pyf s)) = Ok n ->
  tt.eval S pos env value = Fin v ->
  tt.eval S pos env (logp n value)
  = Fin (- (v - mu) ^ 2 / (2 * s ^ 2) - ln s - ln (sqrt (2 * PI))).
Proof.
  intros Hs Hinit Hv.
  pose proof PI_RGT_0 as Hpi.
  destruct (Normal_init_of_sd mu s Hs) as (n' & E & Hm & Ht & Hsd).
  rewrite Hinit in E; injection E as <-.
  assert (Hs2 : 0 < s ^ 2) by (apply pow_lt; exact Hs).
  assert (Ht0 : 0 < / s ^ 2) by (apply Rinv_0_lt_compat; exact Hs2).
  cbn [logp Normal_dist].
  rewrite (Normal_logp_closed n mu (/ s ^ 2) s v value S pos env
             Hm Ht Hsd Ht0 Hs Hv).
  f_equal.
  rewrite ln_sqrt_half by lra.
  rewrite !ln_quot by (try apply Rdiv_lt_0_compat; lra).
  rewrite ln_Rinv, ln_sqr, ln_mult by lra.
  field; lra.
Qed.

(** the standard normal at 0 *)
Lemma Normal_logp_density_witness :
  0 < 1
  /\ exists n : Normal.t pyval,
      Normal.__init__ (pyf 0) None (Some (pyf 1)) = Ok n
      /\ tt.eval no_special 0 (fun _ => PyInt 0) (logp n (Const (pyf 0)))
         = Fin (- (0 - 0) ^ 2 / (2 * 1 ^ 2) - ln 1 - ln (sqrt (2 * PI))).
Proof.
  assert (H1 : 0 < 1) by lra.
  split; [exact H1 |].
  destruct (Normal_init_of_sd 0 1 H1) as (n & E & _).
  exists n; split; [exact E |].
  apply (Normal_logp_density 0 1 0 n (Const (pyf 0)) no_special 0%nat
           (fun _ => PyInt 0) H1 E).
  reflexivity.
Defined.

(** X14: [Laplace(mu, b).logp] at a finite value v is
    -ln(2 b) - |v - mu| / b when b > 0, and NaN for every b <= 0: outside
    its range the scale is not caught. *)
Theorem Laplace_logp_value (m b v : R) (value : tensor)
    (S : tt.special) (pos : nat) (env : string -> pyval) :
  tt.eval S pos env value = Fin v ->
  tt.eval S pos env (logp {| Laplace.mu := pyf m; Laplace.b := pyf b |} value)
  = if Rltb 0 b then Fin (- ln (2 * b) - Rabs (v - m) / b) else NaN.
Proof.
  intros Hv.
  cbn [logp Laplace_dist]; unfold Laplace.logp, Laplace.tv;
    cbn [Laplace.mu Laplace.b].
  cbn [tt.eval tt.eval_un tt.eval_bin tt.elem Py.to_float ci tt.log tt.abs
       as_tensor_variable Numeric_pyval].
  rewrite Hv; cbn [fsub fneg fadd fmul fabs].
  destruct (Rltb 0 b) eqn:E.
  - apply Rltb_spec in E.
    rewrite flog_pos by lra.
    rewrite fdiv_fin by lra.
    reflexivity.
  - assert (Hb : b <= 0).
    { destruct (Rle_or_lt b 0) as [Hle | Hlt]; [exact Hle |].
      rewrite (Rltb_true 0 b Hlt) in E; discriminate. }
    destruct (Rle_lt_or_eq_dec b 0 Hb) as [Hneg | Hzero].
    + cbn [flog].
      rewrite (Rltb_false 0 (2 * b)) by lra.
      rewrite (Reqb_false (2 * b) 0) by lra.
      reflexivity.
    + subst b; cbn [flog fdiv].
      rewrite (Rltb_false 0 (2 * 0)) by lra.
      rewrite (Reqb_true (2 * 0) 0) by lra.
      rewrite (Reqb_true 0 0) by reflexivity.
      destruct (Req_dec_T (Rabs (v + - m)) 0) as [Hz | Hnz].
      * rewrite (Reqb_true _ _ Hz); reflexivity.
      * rewrite (Reqb_false _ _ Hnz).
        pose proof (Rabs_pos (v + - m)) as Habs.
        rewrite (Rltb_true 0 (Rabs (v + - m))) by lra.
        reflexivity.
Qed.

(** b = 1 at the location: -ln 2 *)
Lemma Laplace_logp_value_witness :
  tt.eval no_special 0 (fun _ => PyInt 0)
    (logp {| Laplace.mu := pyf 0; Laplace.b := pyf 1 |} (Const (pyf 0)))
  = if Rltb 0 1 then Fin (- ln (2 * 1) - Rabs (0 - 0) / 1) else NaN.
Proof.
  apply (Laplace_logp_value 0 1 0 (Const (pyf 0)) no_special 0%nat
           (fun _ => PyInt 0)).
  reflexivity.
Defined.

(** X15: [Exponential(lam).logp] at a finite value v is ln lam - lam v
    when v > 0 and lam > 0 and the sentinel otherwise; v = 0 is on the
    sentinel side. *)
Theorem Exponential_logp_value (lam v : R) (value : tensor)
    (S : tt.special) (pos : nat) (env : string -> pyval) :
  tt.eval S pos env value = Fin v ->
  tt.eval S pos env (logp {| Exponential.lam := pyf lam |} value)
  = if Rltb 0 v && Rltb 0 lam then Fin (ln lam - lam * v) else sentinel.
Proof.
  intros Hv.
  cbn [logp Exponential_dist]; unfold Exponential.logp, Exponential.tv;
    cbn [Exponential.lam].
  rewrite eval_bound.
  cbn [forallb tt.eval tt.eval_un tt.eval_bin tt.elem Py.to_float ci tt.log
       as_tensor_variable Numeric_pyval].
  rewrite Hv, !nonzero_of_bool; cbn [fgt Float.flt].
  rewrite andb_true_r.
  destruct (Rltb 0 v); cbn [andb]; [| reflexivity].
  destruct (Rltb 0 lam) eqn:E; [| reflexivity].
  apply Rltb_spec in E.
  rewrite flog_pos by lra; reflexivity.
Qed.

(** rate 2 at v = 0: the sentinel *)
Lemma Exponential_logp_value_witness :
  tt.eval no_special 0 (fun _ => PyInt 0)
    (logp {| Exponential.lam := pyf 2 |} (Const (pyf 0)))
  = if Rltb 0 0 && Rltb 0 2 then Fin (ln 2 - 2 * 0) else sentinel.
Proof.
  apply (Exponential_logp_value 2 0 (Const (pyf 0)) no_special 0%nat
           (fun _ => PyInt 0)).
  reflexivity.
Defined.

(** X16: the half distributions are their parents folded at the origin.
    At a finite v >= 0, [HalfCauchy(beta).logp] is [Cauchy(0, beta).logp]
    plus ln 2 and [HalfNormal(tau).logp] is [Normal(0, tau).logp] plus
    ln 2; at v < 0 both are the sentinel. *)
Theorem Half_logp_folded (b t s v : R) (n : Normal.t pyval) (value : tensor)
    (S : tt.special) (pos : nat) (env : string -> pyval) :
  0 < b -> 0 < t -> 0 < s ->
  Normal.mu n = pyf 0 -> Normal.tau n = pyf t -> Normal.sd n = pyf s ->
  tt.eval S pos env value = Fin v ->
  (0 <= v ->
   tt.eval S pos env (logp {| HalfCauchy.beta := pyf b |} value)
   = fadd (Fin (ln 2))
       (tt.eval S pos env
          (logp {| Cauchy.alpha := pyf 0; Cauchy.beta := pyf b |} value))
   /\ tt.eval S pos env
        (logp {| HalfNormal.tau := pyf t; HalfNormal.sd := pyf s |} value)
      = fadd (Fin (ln 2)) (tt.eval S pos env (logp n value)))
  /\ (v < 0 ->
      tt.eval S pos env (logp {| HalfCauchy.beta := pyf b |} value)
      = sentinel
      /\ tt.eval S pos env
           (logp {| HalfNormal.tau := pyf t; HalfNormal.sd := pyf s |} value)
         = sentinel).
Proof.
  intros Hb Ht Hs Hm Htau Hsd Hv.
  pose proof PI_RGT_0 as Hpi.
  assert (HC : tt.eval S pos env (logp {| HalfCauchy.beta := pyf b |} value)
               = if Rleb 0 v
                 then Fin (ln 2 - ln PI - ln b - ln (1 + (v / b) ^ 2))
                 else sentinel).
  { cbn [logp HalfCauchy_dist]; unfold HalfCauchy.logp, HalfCauchy.tv;
      cbn [HalfCauchy.beta].
    rewrite eval_bound.
    cbn [forallb tt.eval tt.eval_bin tt.elem Py.to_float ci
         as_tensor_variable Numeric_pyval].
    rewrite Hv, !nonzero_of_bool; cbn [fgt fge Float.flt fle].
    rewrite (Rltb_true 0 b Hb), andb_true_r.
    destruct (Rleb 0 v); [| reflexivity].
    assert (H1 : 0 < 1 + (v / b) ^ 2) by (pose proof (pow2_ge_0 (v / b)); lra).
    eval_step; rewrite ?Hv; eval_step.
    reflexivity. }
  assert (HN : tt.eval S pos env
                 (logp {| HalfNormal.tau := pyf t; HalfNormal.sd := pyf s |}
                       value)
               = if Rleb 0 v
                 then Fin (-0.5 * t * v ^ 2 + 0.5 * ln (t * 2 / PI))
                 else sentinel).
  { cbn [logp HalfNormal_dist]; unfold HalfNormal.logp, HalfNormal.tv;
      cbn [HalfNormal.tau HalfNormal.sd].
    rewrite eval_bound.
    cbn [forallb tt.eval tt.eval_bin tt.elem Py.to_float ci
         as_tensor_variable Numeric_pyval].
    rewrite Hv, !nonzero_of_bool; cbn [fgt fge Float.flt fle].
    rewrite (Rltb_true 0 t Ht), (Rltb_true 0 s Hs), !andb_true_r.
    destruct (Rleb 0 v); [| reflexivity].
    assert (H1 : 0 < t * 2.0 / PI) by (apply Rdiv_lt_0_compat; lra).
    eval_step; rewrite ?Hv; eval_step.
    replace 2.0 with 2 by lra.
    reflexivity. }
  split.
  - intros Hv0; rewrite HC, HN, (Rleb_true 0 v Hv0).
    split.
    + cbn [logp Cauchy_dist]; unfold Cauchy.logp, Cauchy.tv;
        cbn [Cauchy.alpha Cauchy.beta].
      rewrite eval_bound.
      cbn [forallb tt.eval tt.eval_bin tt.elem Py.to_float ci
           as_tensor_variable Numeric_pyval].
      rewrite nonzero_of_bool; cbn [fgt Float.flt].
      rewrite (Rltb_true 0 b Hb); cbn [andb].
      assert (H1 : 0 < 1 + ((v + - 0) / b) ^ 2)
        by (pose proof (pow2_ge_0 ((v + - 0) / b)); lra).
      eval_step; rewrite ?Hv; eval_step.
      f_equal.
      replace (v + - 0) with v by ring.
      ring.
    + cbn [logp Normal_dist].
      rewrite (Normal_logp_closed n 0 t s v value S pos env
                 Hm Htau Hsd Ht Hs Hv).
      cbn [fadd]; f_equal.
      rewrite !ln_quot by (try apply Rdiv_lt_0_compat; lra).
      rewrite ln_mult by lra.
      lra.
  - intros Hv0; rewrite HC, HN, (Rleb_false 0 v) by lra.
    split; reflexivity.
Qed.

(** scale 1, v = 1 *)
Lemma Half_logp_folded_witness :
  0 < 1 /\ 0 <= 1
  /\ tt.eval no_special 0 (fun _ => PyInt 0)
       (logp {| HalfCauchy.beta := pyf 1 |} (Const (pyf 1)))
     = fadd (Fin (ln 2))
         (tt.eval no_special 0 (fun _ => PyInt 0)
            (logp {| Cauchy.alpha := pyf 0; Cauchy.beta := pyf 1 |}
                  (Const (pyf 1)))).
Proof.
  assert (H1 : 0 < 1) by lra.
  assert (H01 : 0 <= 1) by lra.
  split; [exact H1 | split; [exact H01 |]].
  destruct (Half_logp_folded 1 1 1 1
              {| Normal.mean := pyf 0; Normal.median := pyf 0;
                 Normal.mode := pyf 0; Normal.mu := pyf 0;
                 Normal.tau := pyf 1; Normal.sd := pyf 1;
                 Normal.variance := pyf 1 |}
              (Const (pyf 1)) no_special 0%nat (fun _ => PyInt 0)
              H1 H1 H1 eq_refl eq_refl eq_refl eq_refl) as [Hfold _].
  exact (proj1 (Hfold H01)).
Defined.

(** X17: [Lognormal(mu, tau).logp] at a finite v > 0 is the normal
    log-density of ln v, minus ln v: [Normal(mu, tau).logp] applied to the
    tensor [log value].  At v <= 0 it is NaN, not the sentinel: the value is
    not among the conditions. *)
Theorem Lognormal_logp_of_Normal (m t s v : R) (n : Normal.t pyval)
    (value : tensor) (S : tt.special) (pos : nat) (env : string -> pyval) :
  0 < t -> 0 < s ->
  Normal.mu n = pyf m -> Normal.tau n = pyf t -> Normal.sd n = pyf s ->
  tt.eval S pos env value = Fin v ->
  (0 < v ->
   tt.eval S pos env
     (logp {| Lognormal.mu := pyf m; Lognormal.tau := pyf t |} value)
   = fsub (tt.eval S pos env (logp n (tt.log value))) (Fin (ln v)))
  /\ (v <= 0 ->
      tt.eval S pos env
        (logp {| Lognormal.mu := pyf m; Lognormal.tau := pyf t |} value)
      = NaN).
Proof.
  intros Ht Hs Hm Htau Hsd Hv.
  pose proof PI_RGT_0 as Hpi.
  assert (E : tt.eval S pos env
                (logp {| Lognormal.mu := pyf m; Lognormal.tau := pyf t |}
                      value)
              = fsub (fadd (fmul (Fin (-0.5 * t))
                              (fpow (fsub (flog (Fin v)) (Fin m)) (Fin 2)))
                        (Fin (0.5 * ln (t / (2 * PI)))))
                  (flog (Fin v))).
  { cbn [logp Lognormal_dist]; unfold Lognormal.logp, Lognormal.tv;
      cbn [Lognormal.mu Lognormal.tau].
    rewrite eval_bound.
    cbn [forallb tt.eval tt.eval_un tt.eval_bin tt.elem Py.to_float ci cf
         tt.log pi Py.np_pi as_tensor_variable Numeric_pyval].
    rewrite nonzero_of_bool; cbn [fgt Float.flt].
    rewrite (Rltb_true 0 t Ht); cbn [andb].
    rewrite Hv.
    assert (H1 : 0 < t / (2.0 * PI)) by (apply Rdiv_lt_0_compat; lra).
    cbn [fmul]; rewrite fdiv_fin by lra;
      rewrite (flog_pos (t / (2.0 * PI))) by exact H1.
    cbn [fmul]; replace 2.0 with 2 by lra.
    reflexivity. }
  split.
  - intros Hv0; rewrite E.
    assert (Hl : tt.eval S pos env (tt.log value) = Fin (ln v)).
    { cbn [tt.log tt.eval tt.eval_un]; rewrite Hv; now apply flog_pos. }
    cbn [logp Normal_dist].
    rewrite (Normal_logp_closed n m t s (ln v) (tt.log value) S pos env
               Hm Htau Hsd Ht Hs Hl).
    rewrite flog_pos by exact Hv0.
    cbn [fsub fneg fadd]; rewrite fpow_two; cbn [fmul fadd].
    replace (t / PI / 2) with (t / (2 * PI)) by (field; lra).
    cbn [fsub fneg fadd]; f_equal.
    replace (-0.5) with (- / 2) by lra; replace 0.5 with (/ 2) by lra.
    field.
  - intros Hv0; rewrite E.
    destruct (Rle_lt_or_eq_dec v 0 Hv0) as [Hneg | Hzero].
    + cbn [flog].
      rewrite (Rltb_false 0 v) by lra.
      rewrite (Reqb_false v 0) by lra.
      cbn [fsub fneg fadd fpow].
      rewrite (Reqb_false 2 0) by lra.
      reflexivity.
    + subst v; cbn [flog].
      rewrite (Rltb_false 0 0) by lra.
      rewrite (Reqb_true 0 0) by reflexivity.
      cbn [fsub fneg fadd fpow].
      rewrite (Reqb_false 2 0) by lra.
      rewrite (Rltb_true 0 2) by lra.
      replace (odd_integral 2) with false.
      2:{ unfold odd_integral; change 2 with (IZR 2).
          now rewrite integral_IZR, Int_part_IZR. }
      cbn [fmul]; unfold inf_times.
      rewrite (Reqb_false (-0.5 * t) 0) by lra.
      rewrite (Rltb_false 0 (-0.5 * t)) by lra.
      reflexivity.
Qed.

(** mu = 0, tau = 1 at v = 1 *)
Lemma Lognormal_logp_of_Normal_witness :
  0 < 1
  /\ tt.eval no_special 0 (fun _ => PyInt 0)
       (logp {| Lognormal.mu := pyf 0; Lognormal.tau := pyf 1 |}
             (Const (pyf 1)))
     = fsub (tt.eval no_special 0 (fun _ => PyInt 0)
               (logp {| Normal.mean := pyf 0; Normal.median := pyf 0;
                        Normal.mode := pyf 0; Normal.mu := pyf 0;
                        Normal.tau := pyf 1; Normal.sd := pyf 1;
                        Normal.variance := pyf 1 |}
                     (tt.log (Const (pyf 1)))))
          (Fin (ln 1)).
Proof.
  assert (H1 : 0 < 1) by lra.
  split; [exact H1 |].
  destruct (Lognormal_logp_of_Normal 0 1 1 1
              {| Normal.mean := pyf 0; Normal.median := pyf 0;
                 Normal.mode := pyf 0; Normal.mu := pyf 0;
                 Normal.tau := pyf 1; Normal.sd := pyf 1;
                 Normal.variance := pyf 1 |}
              (Const (pyf 1)) no_special 0%nat (fun _ => PyInt 0)
              H1 H1 eq_refl eq_refl eq_refl eq_refl) as [Hpos _].
  exact (Hpos H1).
Defined.

(** between plain numbers the quotient [sigma / nu] is computed when the
    expression is built: a zero [nu] raises there *)
Lemma ExGaussian_logp_zero_nu (m sg : R) (value : tensor) :
  ExGaussian.logp {| ExGaussian.mu := pyf m; ExGaussian.sigma := pyf sg;
                     ExGaussian.nu := pyf 0 |} value
  = Raise ZeroDivisionError.
Proof.
  unfold ExGaussian.logp; cbn [ExGaussian.sigma ExGaussian.nu].
  py_step.
  rewrite truediv_pf_zero by reflexivity.
  reflexivity.
Qed.

(** X18: for 0 < nu <= 0.05 sigma, [ExGaussian(mu, sigma, nu).logp]
    returns an expression that takes the second branch of its switch and
    is the log-density of [Normal(mu, sd=sigma)]: the exponential component
    is dropped. *)
Theorem ExGaussian_small_nu_is_Normal (m sg nu v : R) (n : Normal.t pyval)
    (value : tensor) (S : tt.special) (pos : nat) (env : string -> pyval) :
  0 < sg -> 0 < nu <= 0.05 * sg ->
  Normal.__init__ (pyf m) None (Some (pyf sg)) = Ok n ->
  tt.eval S pos env value = Fin v ->
  exists e : tensor,
    ExGaussian.logp {| ExGaussian.mu := pyf m; ExGaussian.sigma := pyf sg;
                       ExGaussian.nu := pyf nu |} value
    = Ok e
    /\ tt.eval S pos env e = tt.eval S pos env (logp n value).
Proof.
  intros Hsg Hnu Hinit Hv.
  pose proof PI_RGT_0 as Hpi.
  destruct (Normal_init_of_sd m sg Hsg) as (n' & E & Hm & Ht & Hsd).
  rewrite Hinit in E; injection E as <-.
  assert (Hs2 : 0 < sg ^ 2) by (apply pow_lt; exact Hsg).
  assert (Ht0 : 0 < / sg ^ 2) by (apply Rinv_0_lt_compat; exact Hs2).
  assert (Hsq : 0 < sqrt (2 * PI)) by (apply sqrt_lt_R0; lra).
  assert (Hprod : 0 < sg * sqrt (2 * PI)) by (apply Rmult_lt_0_compat; lra).
  assert (Hnu0 : nu <> 0) by lra.
  unfold ExGaussian.logp, ExGaussian.tv;
    cbn [ExGaussian.mu ExGaussian.sigma ExGaussian.nu].
  py_step.
  eexists; split; [reflexivity |].
  cbn [logp Normal_dist].
  rewrite (Normal_logp_closed n m (/ sg ^ 2) sg v value S pos env
             Hm Ht Hsd Ht0 Hsg Hv).
  rewrite eval_bound.
  cbn [forallb tt.eval tt.eval_un tt.eval_bin tt.elem Py.to_float ci cf
       tt.gt tt.switch tt.log tt.sqrt pi Py.np_pi
       as_tensor_variable Numeric_pyval].
  rewrite !nonzero_of_bool; cbn [fgt Float.flt fmul].
  rewrite (Rltb_true 0.0 sg) by lra.
  rewrite (Rltb_true 0.0 nu) by lra.
  rewrite (Rltb_false (0.05 * sg) nu) by lra.
  cbn [andb]; rewrite Hv.
  cbn [fsqrt]; rewrite (Rleb_true 0 (2 * PI)) by lra.
  cbn [fmul fsub fneg fadd].
  rewrite (flog_pos (sg * sqrt (2 * PI))) by exact Hprod.
  rewrite fdiv_fin by lra; rewrite fpow_two.
  cbn [fmul fsub fneg fadd]; f_equal.
  rewrite ln_mult, ln_sqrt_half by lra.
  rewrite !ln_quot by (try apply Rdiv_lt_0_compat; lra).
  rewrite ln_Rinv, ln_sqr, ln_mult by lra.
  replace 0.5 with (/ 2) by lra.
  field; lra.
Qed.

(** sigma = 1, nu = 0.05 at v = 0 *)
Lemma ExGaussian_small_nu_is_Normal_witness :
  0 < 1 /\ 0 < 0.05 <= 0.05 * 1
  /\ exists (n : Normal.t pyval) (e : tensor),
      Normal.__init__ (pyf 0) None (Some (pyf 1)) = Ok n
      /\ ExGaussian.logp {| ExGaussian.mu := pyf 0; ExGaussian.sigma := pyf 1;
                            ExGaussian.nu := pyf 0.05 |} (Const (pyf 0))
         = Ok e
      /\ tt.eval no_special 0 (fun _ => PyInt 0) e
         = tt.eval no_special 0 (fun _ => PyInt 0) (logp n (Const (pyf 0))).
Proof.
  assert (H1 : 0 < 1) by lra.
  assert (Hnu : 0 < 0.05 <= 0.05 * 1) by lra.
  split; [exact H1 | split; [exact Hnu |]].
  destruct (Normal_init_of_sd 0 1 H1) as (n & E & _).
  destruct (ExGaussian_small_nu_is_Normal 0 1 0.05 0 n (Const (pyf 0))
              no_special 0%nat (fun _ => PyInt 0) H1 Hnu E eq_refl)
    as (e & He & Hev).
  exists n, e; split; [exact E | split; [exact He | exact Hev]].
Defined.

(** X19: of the two conditions on the value in [Wald.logp] the first,
    value > 0, is redundant: with alpha >= 0 it follows from
    value - alpha > 0, so dropping it changes no evaluation, whatever the
    parameters and the value are (infinities and NaN included).  The second
    is not: it fails at value = 1, alpha = 2 where value > 0 holds. *)
Theorem Wald_logp_redundant_condition :
  (forall (T : Type) (N : Numeric T) (self : Wald.t T) (value : tensor)
          (S : tt.special) (pos : nat) (env : string -> pyval),
      tt.eval S pos env (logp self value)
      = tt.eval S pos env
          (bound (formula_of (logp self value))
                 (tl (constraints_of (logp self value)))))
  /\ (forall (T : Type) (N : Numeric T) (self : Wald.t T) (value : tensor),
         constraints_of (logp self value)
         = [(value > ci 0)%tensor;
            (value - as_tensor_variable (Wald.alpha self) > ci 0)%tensor;
            (as_tensor_variable (Wald.mu self) > ci 0)%tensor;
            (as_tensor_variable (Wald.lam self) > ci 0)%tensor;
            (as_tensor_variable (Wald.alpha self) >= ci 0)%tensor])
  /\ nonzero (tt.eval no_special 0 (fun _ => PyInt 0)
                (Const (pyf 1) > ci 0)%tensor) = true
  /\ nonzero (tt.eval no_special 0 (fun _ => PyInt 0)
                (Const (pyf 1) - Const (pyf 2) > ci 0)%tensor) = false.
Proof.
  split; [| split; [reflexivity | split]].
  - intros T N self value S pos env.
    cbn [logp Wald_dist]; unfold Wald.logp, Wald.tv.
    cbn [formula_of constraints_of guard_of bound tt.switch tl].
    fold (bound
            (logpow (as_tensor_variable (Wald.lam self) / (cf 2.0 * pi))
                    (cf 0.5)
             - logpow (value - as_tensor_variable (Wald.alpha self)) (cf 1.5)
             - cf 0.5 * as_tensor_variable (Wald.lam self)
               / (value - as_tensor_variable (Wald.alpha self))
               * ((value - as_tensor_variable (Wald.alpha self)
                   - as_tensor_variable (Wald.mu self))
                  / as_tensor_variable (Wald.mu self)) ** ci 2)%tensor).
    rewrite !eval_bound.
    match goal with
    | |- (if ?a then _ else _) = (if ?b then _ else _) =>
        replace a with b; [reflexivity |]
    end.
    cbn [forallb tt.eval tt.eval_bin tt.elem Py.to_float ci].
    rewrite !nonzero_of_bool.
    set (V := tt.eval S pos env value).
    set (A := tt.eval S pos env (as_tensor_variable (Wald.alpha self))).
    destruct (fgt (tt.eval S pos env (as_tensor_variable (Wald.mu self)))
                  (Fin 0)); [| now rewrite !andb_false_r].
    destruct (fgt (tt.eval S pos env (as_tensor_variable (Wald.lam self)))
                  (Fin 0)); [| now rewrite !andb_false_r].
    cbn [andb]; rewrite !andb_true_r.
    unfold fgt, fge.
    destruct V as [v | | |], A as [a | | |]; cbn; try reflexivity;
      rewrite ?andb_false_r; try reflexivity.
    + destruct (Rltb 0 (v + - a)) eqn:E1; cbn [andb];
        [| now rewrite andb_false_r].
      destruct (Rleb 0 a) eqn:E2; [| now rewrite andb_false_r].
      apply Rltb_spec in E1; apply Rleb_spec in E2.
      rewrite (Rltb_true 0 v) by lra; reflexivity.
  - cbn [tt.eval tt.eval_bin tt.elem Py.to_float ci].
    rewrite nonzero_of_bool; cbn [fgt Float.flt]; Rdecide; reflexivity.
  - cbn [tt.eval tt.eval_bin tt.elem Py.to_float ci fsub fneg fadd].
    rewrite nonzero_of_bool; cbn [fgt Float.flt]; Rdecide; reflexivity.
Qed.

(** ** [Bounded.logp] *)

Lemma Bounded_logp_eval (D : Type) (H : Distribution D) (d : D)
    (l u : float) (value : tensor)
    (S : tt.special) (pos : nat) (env : string -> pyval) :
  tt.eval S pos env
    (logp {| Bounded.dist := d; Bounded.lower := PyFloat l;
             Bounded.upper := PyFloat u |} value)
  = if fle l (tt.eval S pos env value) && fle (tt.eval S pos env value) u
    then tt.eval S pos env (logp d value)
    else sentinel.
Proof.
  cbn [logp Bounded_dist]; unfold Bounded.logp, Bounded.tv;
    cbn [Bounded.dist Bounded.lower Bounded.upper].
  rewrite eval_bound.
  cbn [forallb tt.eval tt.eval_bin tt.elem Py.to_float
       as_tensor_variable Numeric_pyval].
  rewrite !nonzero_of_bool, andb_true_r.
  reflexivity.
Qed.

(** X20: [Bounded.logp] is the inner log-density where
    lower <= value <= upper, both ends included, and the sentinel
    elsewhere.  With the bounds [Bound] has by default, -inf and +inf, it
    is the inner log-density at every value but NaN.  Bounding twice is
    bounding by the intersection, in either order. *)
Theorem Bounded_logp_value (D : Type) (H : Distribution D) (d : D)
    (value : tensor) (S : tt.special) (pos : nat) (env : string -> pyval) :
  (forall l u : float,
      tt.eval S pos env
        (logp {| Bounded.dist := d; Bounded.lower := PyFloat l;
                 Bounded.upper := PyFloat u |} value)
      = if fle l (tt.eval S pos env value) && fle (tt.eval S pos env value) u
        then tt.eval S pos env (logp d value)
        else sentinel)
  /\ tt.eval S pos env
       (logp {| Bounded.dist := d; Bounded.lower := PyFloat NInf;
                Bounded.upper := PyFloat PInf |} value)
     = match tt.eval S pos env value with
       | NaN => sentinel
       | _ => tt.eval S pos env (logp d value)
       end
  /\ forall l1 u1 l2 u2 : float,
      tt.eval S pos env
        (logp {| Bounded.dist :=
                   {| Bounded.dist := d; Bounded.lower := PyFloat l1;
                      Bounded.upper := PyFloat u1 |};
                 Bounded.lower := PyFloat l2;
                 Bounded.upper := PyFloat u2 |} value)
      = tt.eval S pos env
          (logp {| Bounded.dist :=
                     {| Bounded.dist := d; Bounded.lower := PyFloat l2;
                        Bounded.upper := PyFloat u2 |};
                   Bounded.lower := PyFloat l1;
                   Bounded.upper := PyFloat u1 |} value)
      /\ tt.eval S pos env
           (logp {| Bounded.dist :=
                      {| Bounded.dist := d; Bounded.lower := PyFloat l1;
                         Bounded.upper := PyFloat u1 |};
                    Bounded.lower := PyFloat l2;
                    Bounded.upper := PyFloat u2 |} value)
         = if fle l1 (tt.eval S pos env value)
              && fle (tt.eval S pos env value) u1
              && (fle l2 (tt.eval S pos env value)
                  && fle (tt.eval S pos env value) u2)
           then tt.eval S pos env (logp d value)
           else sentinel.
Proof.
  split; [| split].
  - intros l u; apply Bounded_logp_eval.
  - rewrite Bounded_logp_eval.
    destruct (tt.eval S pos env value); reflexivity.
  - intros l1 u1 l2 u2.
    rewrite !(Bounded_logp_eval (Bounded.t D pyval)).
    rewrite !Bounded_logp_eval.
    set (V := tt.eval S pos env value).
    destruct (fle l1 V), (fle V u1), (fle l2 V), (fle V u2);
      split; reflexivity.
Qed.

(** ** More on the rejection sampler *)

Lemma in_range_empty (lower upper x : float) :
  fle upper lower = true -> Bounded.in_range lower upper x = false.
Proof.
  unfold Bounded.in_range, fgt; intros H.
  destruct lower as [l | | |], upper as [u | | |], x as [x | | |];
    cbn in *; try discriminate; try reflexivity; rewrite ?andb_false_r;
    try reflexivity.
  apply Rleb_spec in H.
  destruct (Rltb l x) eqn:E1; [| reflexivity].
  apply Rltb_spec in E1; cbn [andb].
  apply Rleb_false; lra.
Qed.

Lemma filter_none (f : float -> bool) (l : list float) :
  (forall x, f x = false) -> filter f l = [].
Proof.
  intros Hf; induction l as [| x l IH]; cbn; [reflexivity |].
  now rewrite Hf.
Qed.

Lemma assign_slice_nothing (samples : list float) :
  Bounded.assign_slice samples 0 [] = Ok samples.
Proof.
  unfold Bounded.assign_slice; cbn [List.length Nat.add].
  destruct (Nat.leb_spec 0 (List.length samples)) as [_ | Hlt]; [| lia].
  reflexivity.
Qed.

Lemma filter_length_le (f : float -> bool) (l : list float) :
  (List.length (filter f l) <= List.length l)%nat.
Proof.
  induction l as [| x l IH]; cbn; [lia |].
  destruct (f x); cbn; lia.
Qed.

Lemma zeros_flat_tuple_zero (dims : list nat) :
  In 0%nat dims -> Bounded.zeros_flat (Bounded.SizeTuple dims) = [].
Proof.
  intros Hin; cbn [Bounded.zeros_flat].
  assert (E : fold_right Nat.mul 1%nat dims = 0%nat).
  { induction dims as [| d dims IH]; [destruct Hin |].
    cbn [fold_right]; destruct Hin as [Hd | Hin].
    - subst d; reflexivity.
    - rewrite (IH Hin); lia. }
  rewrite E; reflexivity.
Qed.

Section SamplerRuns.

Context {D T Point RNG : Type}.
Variable dist_random :
  D -> option Point -> nat -> RNG -> result (list float) * RNG.

(** with an empty acceptance interval nothing is ever stored *)
Lemma loop_empty_interval (lower upper : float) (self : Bounded.t D T)
    (point : option Point) :
  (forall (d : D) (p : option Point) (n : nat) (g : RNG),
      exists (sample : list float) (g' : RNG),
        dist_random d p n g = (Ok sample, g')) ->
  fle upper lower = true ->
  forall (fuel : nat) (samples : list float) (n : nat) (g : RNG),
    (0 < List.length samples)%nat ->
    Bounded.loop dist_random fuel self lower upper point samples 0 n g = None.
Proof.
  intros Hok Hempty fuel; induction fuel as [| fuel IH];
    intros samples n g Hlen; cbn [Bounded.loop];
    destruct (Nat.ltb_spec 0 (List.length samples)) as [_ | Hge];
    try lia; [reflexivity |].
  destruct (Hok (Bounded.dist self) point n g) as (sample & g' & ->).
  rewrite (filter_none _ sample (fun x => in_range_empty lower upper x Hempty)).
  rewrite assign_slice_nothing; cbn [List.length].
  rewrite Nat.add_0_r, Nat.sub_0_r.
  apply IH; exact Hlen.
Qed.

(** when the inner sampler hands back no more draws than it was asked for,
    the slice assignment never fails: an error is the inner sampler's *)
Lemma loop_errors_from_inner (lower upper : float) (self : Bounded.t D T)
    (point : option Point) :
  (forall (d : D) (p : option Point) (n : nat) (g g' : RNG)
          (sample : list float),
      dist_random d p n g = (Ok sample, g') ->
      (List.length sample <= n)%nat) ->
  forall (fuel : nat) (samples : list float) (i n : nat) (g g' : RNG)
         (e : exn),
    (i + n <= List.length samples)%nat ->
    Bounded.loop dist_random fuel self lower upper point samples i n g
    = Some (Raise e, g') ->
    exists (m : nat) (g0 : RNG),
      dist_random (Bounded.dist self) point m g0 = (Raise e, g').
Proof.
  intros Hsize fuel; induction fuel as [| fuel IH];
    intros samples i n g g' e Hin; cbn [Bounded.loop];
    destruct (Nat.ltb_spec i (List.length samples)) as [Hlt | Hge];
    try discriminate.
  destruct (dist_random (Bounded.dist self) point n g)
    as [[sample | e1] g1] eqn:Hdraw.
  - pose proof (Hsize _ _ _ _ _ _ Hdraw) as Hlen.
    pose proof (filter_length_le (Bounded.in_range lower upper) sample) as Hf.
    destruct (Bounded.assign_slice samples i
                (filter (Bounded.in_range lower upper) sample))
      as [samples' | e2] eqn:Hassign.
    + intros Hrun.
      apply assign_slice_length in Hassign as Hlen'.
      eapply IH; [| exact Hrun]; lia.
    + unfold Bounded.assign_slice in Hassign.
      destruct (Nat.leb_spec
                  (i + List.length
                         (filter (Bounded.in_range lower upper) sample))
                  (List.length samples)) as [_ | Hgt];
        [discriminate | lia].
  - intros [= <- <-]; exists n, g; exact Hdraw.
Qed.

End SamplerRuns.

(** the tape sampler stores the accepted numbers of what it reads, in
    order *)
Lemma loop_tape (lower upper : float) (self : Bounded.t unit pyval)
    (point : option unit) (fuel : nat) :
  forall (samples : list float) (i n : nat) (g g' out : list float),
    (i + n <= List.length samples)%nat ->
    Bounded.loop tape_random fuel self lower upper point samples i n g
    = Some (Ok out, g') ->
    exists used : list float,
      g = used ++ g'
      /\ out = firstn i samples ++ filter (Bounded.in_range lower upper) used.
Proof.
  induction fuel as [| fuel IH]; intros samples i n g g' out Hin;
    cbn [Bounded.loop];
    destruct (Nat.ltb_spec i (List.length samples)) as [Hlt | Hge];
    try discriminate.
  - intros [= <- <-]; exists []; split; [reflexivity |].
    rewrite firstn_all2 by lia; now rewrite app_nil_r.
  - unfold tape_random at 1.
    set (sample := firstn n g).
    set (select := filter (Bounded.in_range lower upper) sample).
    assert (Hsel : (List.length select <= n)%nat).
    { unfold select, sample.
      pose proof (filter_length_le (Bounded.in_range lower upper)
                    (firstn n g)) as Hf.
      rewrite length_firstn in Hf; lia. }
    destruct (Bounded.assign_slice samples i select)
      as [samples' | e] eqn:Hassign; [| discriminate].
    intros Hrun.
    pose proof (assign_slice_prefix _ _ _ _ Hassign) as Hpre.
    pose proof (assign_slice_length _ _ _ _ Hassign) as Hlen'.
    destruct (IH samples' (i + List.length select)%nat
                (n - List.length select)%nat (skipn n g) g' out)
      as (used' & Hg & Hout); [lia | exact Hrun |].
    exists (sample ++ used'); split.
    + rewrite <- app_assoc, <- Hg; unfold sample.
      now rewrite firstn_skipn.
    + rewrite filter_app; fold select.
      now rewrite Hout, Hpre, <- app_assoc.
  - intros [= <- <-]; exists []; split; [reflexivity |].
    rewrite firstn_all2 by lia; now rewrite app_nil_r.
Qed.

(** X21: asked for an array with no cells (a zero among the dimensions),
    [_random] returns the empty array of that shape at once: whatever the
    fuel, the inner sampler is not called and the generator state is
    untouched. *)
Theorem Bounded_random_no_cells (D T Point RNG : Type)
    (dist_random : D -> option Point -> nat -> RNG -> result (list float) * RNG)
    (fuel : nat) (self : Bounded.t D T) (lower upper : float)
    (point : option Point) (dims : list nat) (g : RNG) :
  In 0%nat dims ->
  Bounded._random dist_random fuel self lower upper point
                  (Bounded.SizeTuple dims) g
  = Some (Ok {| Bounded.shape := dims; Bounded.data := [] |}, g).
Proof.
  intros Hin; unfold Bounded._random.
  rewrite (zeros_flat_tuple_zero dims Hin).
  destruct fuel; reflexivity.
Qed.

(** shape (2, 0), no fuel, over [Flat] whose sampler raises *)
Lemma Bounded_random_no_cells_witness :
  In 0%nat [2%nat; 0%nat]
  /\ Bounded._random flat_random 0
       {| Bounded.dist := Flat.__init__; Bounded.lower := pyf 0;
          Bounded.upper := pyf 1 |}
       (Fin 0) (Fin 1) None (Bounded.SizeTuple [2%nat; 0%nat]) tt
     = Some (Ok {| Bounded.shape := [2%nat; 0%nat]; Bounded.data := [] |}, tt).
Proof.
  assert (Hin : In 0%nat [2%nat; 0%nat]) by (right; left; reflexivity).
  split; [exact Hin |].
  apply (Bounded_random_no_cells _ _ _ _ flat_random 0 _ (Fin 0) (Fin 1)
           None [2%nat; 0%nat] tt Hin).
Defined.

(** X22: when there is a cell to fill and the inner sampler raises on the
    first call, [_random] raises the same error; so a bounded [Flat]
    cannot be sampled. *)
Theorem Bounded_random_inner_error (D T Point RNG : Type)
    (dist_random : D -> option Point -> nat -> RNG -> result (list float) * RNG)
    (fuel : nat) (self : Bounded.t D T) (lower upper : float)
    (point : option Point) (sz : Bounded.size) (g g' : RNG) (e : exn) :
  (0 < List.length (Bounded.zeros_flat sz))%nat ->
  dist_random (Bounded.dist self) point
              (List.length (Bounded.zeros_flat sz)) g = (Raise e, g') ->
  Bounded._random dist_random (S fuel) self lower upper point sz g
  = Some (Raise e, g').
Proof.
  intros Hcells Hdraw; unfold Bounded._random; cbn [Bounded.loop].
  destruct (Nat.ltb_spec 0 (List.length (Bounded.zeros_flat sz)))
    as [_ | Hge]; [| lia].
  rewrite Hdraw; reflexivity.
Qed.

(** [Bound(Flat, 0, 1)], one draw *)
Lemma Bounded_random_inner_error_witness :
  Bounded._random flat_random 1
    {| Bounded.dist := Flat.__init__; Bounded.lower := pyf 0;
       Bounded.upper := pyf 1 |}
    (Fin 0) (Fin 1) None Bounded.SizeNone tt
  = Some (Raise (ValueError "Cannot sample from Flat distribution"), tt).
Proof.
  apply (Bounded_random_inner_error _ _ _ _ flat_random 0 _ (Fin 0) (Fin 1)
           None Bounded.SizeNone tt tt).
  - cbn; lia.
  - reflexivity.
Defined.

(** X23: with upper <= lower no draw passes lower < x <= upper.  If the
    inner sampler never raises and there is a cell to fill, the loop has
    not ended after any number of rounds: [_random] does not return.  This
    includes lower = upper, where [logp] accepts the value lower. *)
Theorem Bounded_random_empty_interval (D T Point RNG : Type)
    (dist_random : D -> option Point -> nat -> RNG -> result (list float) * RNG)
    (self : Bounded.t D T) (lower upper : float)
    (point : option Point) (sz : Bounded.size) (g : RNG) :
  (forall (d : D) (p : option Point) (n : nat) (g0 : RNG),
      exists (sample : list float) (g1 : RNG),
        dist_random d p n g0 = (Ok sample, g1)) ->
  fle upper lower = true ->
  (0 < List.length (Bounded.zeros_flat sz))%nat ->
  forall fuel : nat,
    Bounded._random dist_random fuel self lower upper point sz g = None.
Proof.
  intros Hok Hempty Hcells fuel; unfold Bounded._random.
  now rewrite (loop_empty_interval dist_random lower upper self point
                 Hok Hempty fuel _ _ g Hcells).
Qed.

(** bounds [1, 1] over a sampler that always draws 1 *)
Lemma Bounded_random_empty_interval_witness :
  fle (Fin 1) (Fin 1) = true
  /\ Bounded._random (constant_random (Fin 1)) 1000
       {| Bounded.dist := tt; Bounded.lower := pyf 1; Bounded.upper := pyf 1 |}
       (Fin 1) (Fin 1) None (Bounded.SizeInt 3) tt
     = None.
Proof.
  assert (Hle : fle (Fin 1) (Fin 1) = true) by (apply Rleb_true; lra).
  split; [exact Hle |].
  apply (Bounded_random_empty_interval unit pyval unit unit
           (constant_random (Fin 1)) _ (Fin 1) (Fin 1) None
           (Bounded.SizeInt 3) tt).
  - intros d p n g0; exists (repeat (Fin 1) n), g0; reflexivity.
  - exact Hle.
  - cbn; lia.
Defined.

(** X24: when every request to the inner sampler is answered with draws of
    which one at least is accepted, [_random] returns for every fuel that
    is at least the number of cells, with an array of the requested shape
    whose elements all passed the acceptance test. *)
Theorem Bounded_random_total (D T Point RNG : Type)
    (dist_random : D -> option Point -> nat -> RNG -> result (list float) * RNG)
    (self : Bounded.t D T) (lower upper : float)
    (point : option Point) (sz : Bounded.size) (g : RNG) (fuel : nat) :
  productive dist_random lower upper ->
  (List.length (Bounded.zeros_flat sz) <= fuel)%nat ->
  exists (out : Bounded.ndarray) (g' : RNG),
    Bounded._random dist_random fuel self lower upper point sz g
    = Some (Ok out, g')
    /\ List.length (Bounded.data out) = List.length (Bounded.zeros_flat sz)
    /\ Forall (fun x => Bounded.in_range lower upper x = true)
              (Bounded.data out)
    /\ Bounded.shape out
       = match sz with
         | Bounded.SizeNone => [1%nat]
         | Bounded.SizeInt k => [k]
         | Bounded.SizeTuple dims => dims
         end.
Proof.
  intros Hprod Hfuel.
  destruct (loop_terminates dist_random lower upper self point Hprod
              fuel (Bounded.zeros_flat sz) 0
              (List.length (Bounded.zeros_flat sz)) g)
    as (out & g' & Hloop); [lia | lia | exact Hfuel |].
  assert (Hrun : Bounded._random dist_random fuel self lower upper point sz g
                 = Some (Ok match sz with
                            | Bounded.SizeNone =>
                                {| Bounded.shape := [List.length out];
                                   Bounded.data := out |}
                            | Bounded.SizeInt k =>
                                {| Bounded.shape := [k]; Bounded.data := out |}
                            | Bounded.SizeTuple dims =>
                                {| Bounded.shape := dims;
                                   Bounded.data := out |}
                            end, g')).
  { unfold Bounded._random; rewrite Hloop; reflexivity. }
  eexists; exists g'; split; [exact Hrun |].
  destruct (random_in_range dist_random _ _ _ _ _ _ _ _ _ Hrun)
    as [Hall Hlen].
  split; [exact Hlen | split; [exact Hall |]].
  destruct sz; cbn [Bounded.shape]; [| reflexivity | reflexivity].
  cbn [Bounded.data Bounded.zeros_flat List.length] in Hlen.
  now rewrite Hlen.
Qed.

(** lower = 0, no upper bound, over a sampler that always draws 1: three
    cells, more fuel than needed *)
Lemma Bounded_random_total_witness :
  productive (constant_random (Fin 1)) (Fin 0) PInf
  /\ exists (out : Bounded.ndarray) (g' : unit),
      Bounded._random (constant_random (Fin 1)) 7
        {| Bounded.dist := tt; Bounded.lower := pyf 0;
           Bounded.upper := Py.np_inf |}
        (Fin 0) PInf None (Bounded.SizeInt 3) tt
      = Some (Ok out, g')
      /\ List.length (Bounded.data out) = 3%nat.
Proof.
  assert (Hprod : productive (constant_random (Fin 1)) (Fin 0) PInf).
  { intros d p n g0 Hn; exists (repeat (Fin 1) n), g0.
    split; [reflexivity | split; [apply repeat_length |]].
    destruct n as [| n]; [lia |].
    cbn [repeat existsb]; unfold Bounded.in_range, fgt; cbn [Float.flt fle].
    rewrite (Rltb_true 0 1) by lra; reflexivity. }
  split; [exact Hprod |].
  destruct (Bounded_random_total unit pyval unit unit
              (constant_random (Fin 1))
              {| Bounded.dist := tt; Bounded.lower := pyf 0;
                 Bounded.upper := Py.np_inf |}
              (Fin 0) PInf None (Bounded.SizeInt 3) tt 7 Hprod)
    as (out & g' & Hrun & Hlen & _).
  - cbn; lia.
  - exists out, g'; split; [exact Hrun |].
    rewrite Hlen; reflexivity.
Defined.

(** X25: over the tape, what [_random] returns is exactly the accepted
    numbers among those it consumed, in the order they were drawn: none is
    lost, repeated or moved, and the rest of the tape is left. *)
Theorem Bounded_random_tape (fuel : nat) (self : Bounded.t unit pyval)
    (lower upper : float) (point : option unit) (sz : Bounded.size)
    (g g' : list float) (out : Bounded.ndarray) :
  Bounded._random tape_random fuel self lower upper point sz g
  = Some (Ok out, g') ->
  exists used : list float,
    g = used ++ g'
    /\ Bounded.data out = filter (Bounded.in_range lower upper) used.
Proof.
  unfold Bounded._random.
  destruct (Bounded.loop tape_random fuel self lower upper point
              (Bounded.zeros_flat sz) 0
              (List.length (Bounded.zeros_flat sz)) g)
    as [[[samples | e] g1] |] eqn:Hloop; try discriminate.
  intros [= <- <-].
  destruct (loop_tape lower upper self point fuel (Bounded.zeros_flat sz) 0
              (List.length (Bounded.zeros_flat sz)) g g1 samples
              (Nat.le_refl _) Hloop) as (used & Hg & Hout).
  exists used; split; [exact Hg |].
  destruct sz; cbn [Bounded.data]; exact Hout.
Qed.

(** the tape -1, 0, 2, 3, 5 and two cells on (0, +inf]: 2 and 3 are kept,
    5 is left on the tape *)
Lemma Bounded_random_tape_witness :
  Bounded._random tape_random 2 half_line (Fin 0) PInf None
                  (Bounded.SizeInt 2) [Fin (-1); Fin 0; Fin 2; Fin 3; Fin 5]
  = Some (Ok {| Bounded.shape := [2%nat];
                Bounded.data := [Fin 2; Fin 3] |}, [Fin 5])
  /\ exists used : list float,
      [Fin (-1); Fin 0; Fin 2; Fin 3; Fin 5] = used ++ [Fin 5]
      /\ [Fin 2; Fin 3] = filter (Bounded.in_range (Fin 0) PInf) used.
Proof.
  assert (Hrun :
    Bounded._random tape_random 2 half_line (Fin 0) PInf None
                    (Bounded.SizeInt 2) [Fin (-1); Fin 0; Fin 2; Fin 3; Fin 5]
    = Some (Ok {| Bounded.shape := [2%nat];
                  Bounded.data := [Fin 2; Fin 3] |}, [Fin 5])).
  { unfold Bounded._random; run_sampler; reflexivity. }
  split; [exact Hrun |].
  exact (Bounded_random_tape _ _ _ _ _ _ _ _ _ Hrun).
Defined.

(** X26: when the inner sampler never hands back more draws than it was
    asked for, the slice assignment of the loop cannot fail: an error
    coming out of [_random] is one the inner sampler raised. *)
Theorem Bounded_random_errors_from_inner (D T Point RNG : Type)
    (dist_random : D -> option Point -> nat -> RNG -> result (list float) * RNG)
    (fuel : nat) (self : Bounded.t D T) (lower upper : float)
    (point : option Point) (sz : Bounded.size) (g g' : RNG) (e : exn) :
  (forall (d : D) (p : option Point) (n : nat) (g0 g1 : RNG)
          (sample : list float),
      dist_random d p n g0 = (Ok sample, g1) ->
      (List.length sample <= n)%nat) ->
  Bounded._random dist_random fuel self lower upper point sz g
  = Some (Raise e, g') ->
  exists (m : nat) (g0 : RNG),
    dist_random (Bounded.dist self) point m g0 = (Raise e, g').
Proof.
  intros Hsize; unfold Bounded._random.
  destruct (Bounded.loop dist_random fuel self lower upper point
              (Bounded.zeros_flat sz) 0
              (List.length (Bounded.zeros_flat sz)) g)
    as [[[samples | e1] g1] |] eqn:Hloop; try discriminate.
  intros [= <- <-].
  apply (loop_errors_from_inner dist_random lower upper self point Hsize
           fuel (Bounded.zeros_flat sz) 0
           (List.length (Bounded.zeros_flat sz)) g g1 e1
           (Nat.le_refl _) Hloop).
Qed.

(** [Bound(Flat, 0, 1)]: the error is [Flat.random]'s *)
Lemma Bounded_random_errors_from_inner_witness :
  exists (m : nat) (g0 : unit),
    flat_random Flat.__init__ None m g0
    = (Raise (ValueError "Cannot sample from Flat distribution"), tt).
Proof.
  apply (Bounded_random_errors_from_inner Flat.t pyval unit unit flat_random 1
           {| Bounded.dist := Flat.__init__; Bounded.lower := pyf 0;
              Bounded.upper := pyf 1 |}
           (Fin 0) (Fin 1) None Bounded.SizeNone tt tt).
  - intros d p n g0 g1 sample Hdraw; discriminate Hdraw.
  - reflexivity.
Defined.

(** ** [Bounded.__init__] *)

(** X27: [Bounded.__init__] with [transform='infer'].  The three tests
    exclude each other: the transform is the interval, lower-bound or
    upper-bound transform according to which bounds are finite, and stays
    ['infer'] when none is.  A test value is set only when the default of
    the inner distribution is not strictly inside the bounds, to
    0.5 * (upper + lower), lower + 1 or upper - 1.  With lower < upper and
    a finite default the test value in force afterwards satisfies
    lower <= test value <= upper, the conditions of [logp].  A transform
    object handed in is kept and no test value is set. *)
Theorem Bounded_init_testval (D O : Type) (dist : D)
    (default lower upper : float) :
  Bounded.transform_attr
    (Bounded.__init__ (O := O) dist default lower upper Bounded.infer)
  = match isinf lower, isinf upper with
    | false, false => Bounded.interval lower upper
    | false, true => Bounded.lowerbound lower
    | true, false => Bounded.upperbound upper
    | true, true => Bounded.infer
    end
  /\ Bounded.testval
       (Bounded.__init__ (O := O) dist default lower upper Bounded.infer)
     = match isinf lower, isinf upper with
       | false, false =>
           if fle default lower || fge default upper
           then Some (fmul (Fin 0.5) (fadd upper lower)) else None
       | false, true =>
           if fle default lower then Some (fadd lower (Fin 1)) else None
       | true, false =>
           if fge default upper then Some (fsub upper (Fin 1)) else None
       | true, true => None
       end
  /\ (Float.flt lower default = true -> Float.flt default upper = true ->
      Bounded.testval
        (Bounded.__init__ (O := O) dist default lower upper Bounded.infer)
      = None)
  /\ (forall d : R,
         default = Fin d -> Float.flt lower upper = true ->
         fle lower
           (testval_in_force
              (Bounded.__init__ (O := O) dist default lower upper
                 Bounded.infer)
              default) = true
         /\ fle
              (testval_in_force
                 (Bounded.__init__ (O := O) dist default lower upper
                    Bounded.infer)
                 default)
              upper = true)
  /\ forall o : O,
      Bounded.transform_attr
        (Bounded.__init__ dist default lower upper (Bounded.object o))
      = Bounded.object o
      /\ Bounded.testval
           (Bounded.__init__ dist default lower upper (Bounded.object o))
         = None.
Proof.
  split; [| split; [| split; [| split; [| intros o; split; reflexivity]]]].
  - unfold Bounded.__init__; cbn [Bounded.transform_attr].
    destruct (isinf lower), (isinf upper); reflexivity.
  - unfold Bounded.__init__; cbn [Bounded.testval].
    destruct (isinf lower), (isinf upper); reflexivity.
  - intros H1 H2; unfold Bounded.__init__; cbn [Bounded.testval].
    destruct lower as [l | | |], upper as [u | | |],
             default as [d | | |]; try discriminate;
      cbn [isinf negb andb orb fst snd fle fge Float.flt] in *;
      try reflexivity.
    + apply Rltb_spec in H1; apply Rltb_spec in H2.
      rewrite (Rleb_false d l), (Rleb_false u d) by lra; reflexivity.
    + apply Rltb_spec in H1.
      rewrite (Rleb_false d l) by lra; reflexivity.
    + apply Rltb_spec in H2.
      rewrite (Rleb_false u d) by lra; reflexivity.
  - intros d -> Hlu.
    unfold testval_in_force, Bounded.__init__;
      cbn [Bounded.testval Bounded.transform_attr fst snd].
    destruct lower as [l | | |], upper as [u | | |]; try discriminate Hlu;
      cbn [isinf negb andb orb fst snd fle fge fadd fsub fneg fmul Float.flt].
    + cbn [Float.flt] in Hlu; apply Rltb_spec in Hlu.
      destruct (Rleb d l) eqn:E1; cbn [orb fle].
      * split; apply Rleb_true; lra.
      * destruct (Rleb u d) eqn:E2; cbn [fle].
        -- split; apply Rleb_true; lra.
        -- split; apply Rleb_true.
           ++ destruct (Rle_or_lt d l) as [H | H]; [| lra].
              rewrite (Rleb_true d l H) in E1; discriminate.
           ++ destruct (Rle_or_lt u d) as [H | H]; [| lra].
              rewrite (Rleb_true u d H) in E2; discriminate.
    + destruct (Rleb d l) eqn:E1; cbn [fle].
      * split; [apply Rleb_true; lra | reflexivity].
      * split; [apply Rleb_true | reflexivity].
        destruct (Rle_or_lt d l) as [H | H]; [| lra].
        rewrite (Rleb_true d l H) in E1; discriminate.
    + destruct (Rleb u d) eqn:E2; cbn [fle].
      * split; [reflexivity | apply Rleb_true; lra].
      * split; [reflexivity | apply Rleb_true].
        destruct (Rle_or_lt u d) as [H | H]; [| lra].
        rewrite (Rleb_true u d H) in E2; discriminate.
    + split; reflexivity.
Qed.

(** ** [Pareto._random] *)

Lemma pow_fin_pos (x y : R) : 0 < x -> pow_fin x y = Fin (Rpower x y).
Proof.
  intros Hx; unfold pow_fin.
  destruct (integral y) eqn:E.
  - rewrite (Reqb_false x 0) by lra; cbn [andb].
    unfold integral in E.
    assert (Hy : IZR (Int_part y) = y).
    { unfold Reqb in E; destruct (Req_dec_T (IZR (Int_part y)) y);
        [assumption | discriminate]. }
    rewrite <- Hy at 2.
    now rewrite powerRZ_Rpower.
  - now rewrite Rltb_true.
Qed.

Lemma float_pow_pos (x y : R) :
  0 < x -> y <> 0 -> Py.float_pow (Fin x) (Fin y) = Ok (Fin (Rpower x y)).
Proof.
  intros Hx Hy; unfold Py.float_pow; cbn [nonzero].
  rewrite (Reqb_false x 0) by lra; cbn [negb andb].
  rewrite (Rltb_false x 0) by lra; cbn [andb fpow].
  rewrite (Reqb_false y 0) by assumption.
  now rewrite pow_fin_pos.
Qed.

Lemma pow_pf (x y : R) :
  0 < x -> y <> 0 -> Py.pow (pyf x) (pyf y) = Ok (pyf (Rpower x y)).
Proof.
  intros Hx Hy; unfold Py.pow, Py.binop; cbn [Py.as_int Py.to_float].
  now rewrite float_pow_pos.
Qed.

Lemma Pareto_random_value (alpha m u : R) :
  0 < alpha -> 0 <= u < 1 ->
  Pareto._random (pyf alpha) (pyf m) (pyf u)
  = Ok (pyf (m * Rpower (1 - u) (-1 / alpha))).
Proof.
  intros Ha Hu.
  assert (Hx : 0 < 1 - u) by lra.
  assert (Hy : -1 / alpha <> 0).
  { unfold Rdiv; apply Rmult_integral_contrapositive_currified;
      [lra | apply Rinv_neq_0_compat; lra]. }
  unfold Pareto._random, op2, pyfloat.
  cbn [bind lit nsub ndiv npow nmul Numeric_pyval].
  change (Py.sub (PyFloat (Fin 1.0)) (pyf u)) with (Ok (pyf (1.0 - u))).
  cbn [bind].
  rewrite truediv_pf by lra; cbn [bind].
  replace 1.0 with 1 by lra; replace (-1.0) with (-1) by lra.
  rewrite pow_pf by assumption.
  reflexivity.
Qed.

(** X28: a float that [Pareto._random] returns for alpha > 0, m > 0 and a
    uniform draw u in [0, 1) is at least m, so it passes the condition
    value >= m of [logp]; and the bound is met: for u = 0 the draw is m
    itself. *)
Theorem Pareto_random_support (alpha m u z : R) :
  0 < alpha -> 0 < m -> 0 <= u < 1 ->
  (Pareto._random (pyf alpha) (pyf m) (pyf u) = Ok (pyf z) -> m <= z)
  /\ Pareto._random (pyf alpha) (pyf m) (pyf 0) = Ok (pyf m).
Proof.
  intros Ha Hm Hu.
  assert (Hinv : 0 < / alpha) by (apply Rinv_0_lt_compat; exact Ha).
  split.
  - rewrite (Pareto_random_value alpha m u Ha Hu).
    intros [= <-].
    assert (Hr1 : 1 <= Rpower (1 - u) (-1 / alpha)).
    { unfold Rpower.
      assert (Hln : ln (1 - u) <= 0).
      { rewrite <- ln_1.
        destruct (Req_dec_T u 0) as [-> | Hne].
        - right; f_equal; lra.
        - left; apply ln_increasing; lra. }
      assert (Hprod : 0 <= -1 / alpha * ln (1 - u)).
      { replace (-1 / alpha * ln (1 - u))
          with (/ alpha * (- ln (1 - u))) by (unfold Rdiv; ring).
        apply Rmult_le_pos; lra. }
      destruct Hprod as [Hlt | Heq].
      - apply Rlt_le, Rle_lt_trans with (exp 0);
          [rewrite exp_0; lra | apply exp_increasing; exact Hlt].
      - rewrite <- Heq, exp_0; lra. }
    rewrite <- (Rmult_1_r m) at 1.
    apply Rmult_le_compat_l; lra.
  - rewrite (Pareto_random_value alpha m 0 Ha) by lra.
    replace (m * Rpower (1 - 0) (-1 / alpha)) with m; [reflexivity |].
    unfold Rpower.
    replace (1 - 0) with 1 by ring.
    rewrite ln_1, Rmult_0_r, exp_0; ring.
Qed.

(** alpha = 2, m = 3 and u = 0: the draw is m itself *)
Lemma Pareto_random_support_witness :
  0 < 2 /\ 0 < 3 /\ 0 <= 0 < 1
  /\ Pareto._random (pyf 2) (pyf 3) (pyf 0) = Ok (pyf 3)
  /\ 3 <= 3.
Proof.
  assert (Ha : 0 < 2) by lra.
  assert (Hm : 0 < 3) by lra.
  assert (Hu : 0 <= 0 < 1) by lra.
  split; [exact Ha | split; [exact Hm | split; [exact Hu |]]].
  destruct (Pareto_random_support 2 3 0 3 Ha Hm Hu) as [Hsup Hval].
  split; [exact Hval | exact (Hsup Hval)].
Defined.
